(** * LandPPT: the global master template service

    A shallow embedding of
    [src/landppt/services/global_master_template_service.py]
    (class [GlobalMasterTemplateService]) and the properties its
    specification states about it.

    - [Text]: Python [str] values as lists of code points, with the
      built-ins the service uses ([strip], [lower], [startswith],
      [endswith], [in], [len], slicing).
    - [Re]: the backtracking matcher behind [re.search] for the node
      kinds that occur in the three patterns of
      [_extract_html_from_response].
    - [Html]: [_extract_html_from_response] and [_validate_html_template].
    - [Crud]: the persistence wrappers over the [DatabaseService]
      collaborator, with a log of the collaborator calls.
    - [Gen]: prompt construction, the blocking retry loop and the two
      streaming generators.
    - [TextFacts], [ReFacts], [HtmlFacts], [CrudFacts], [GenFacts]: the
      properties, C1 to C10 among them. *)

From Stdlib Require Import ZArith NArith Ascii String List Lia.
From stdpp Require Import base option list gmap strings.

Local Open Scope N_scope.

(** Decide a closed equation by evaluation. *)
Ltac calc := vm_compute; reflexivity.

(* ================================================================== *)
(** ** Python strings *)
(* ================================================================== *)

Module Text.

(** A Python [str] is a sequence of Unicode code points; [len] counts
    code points, not bytes. *)
Abbreviation pystr := (list N).

Definition bytes_of (s : string) : list N :=
  map N_of_ascii (list_ascii_of_string s).

(** UTF-8 decoding of a source literal: [pending] continuation bytes
    are still owed to the code point accumulated in [acc]. *)
Fixpoint utf8_decode (pending : nat) (acc : N) (bs : list N) : pystr :=
  match bs with
  | [] => []
  | b :: bs' =>
      match pending with
      | O =>
          if b <? 128 then b :: utf8_decode O 0 bs'
          else if b <? 224 then utf8_decode 1 (N.land b 31) bs'
          else if b <? 240 then utf8_decode 2 (N.land b 15) bs'
          else utf8_decode 3 (N.land b 7) bs'
      | S O => (acc * 64 + N.land b 63) :: utf8_decode O 0 bs'
      | S n => utf8_decode n (acc * 64 + N.land b 63) bs'
      end
  end.

(** The [str] a literal of the source file denotes. *)
Definition lit (s : string) : pystr := utf8_decode O 0 (bytes_of s).
Arguments lit : simpl never.

(** [Py_UNICODE_ISSPACE]: the test behind [str.strip()], [str.isspace()]
    and the [\s] category of [re] on [str] patterns. *)
Definition isspace (c : N) : bool :=
  ((9 <=? c) && (c <=? 13)) || ((28 <=? c) && (c <=? 32))
  || (c =? 133) || (c =? 160) || (c =? 5760)
  || ((8192 <=? c) && (c <=? 8202))
  || (c =? 8232) || (c =? 8233) || (c =? 8239) || (c =? 8287)
  || (c =? 12288).

Fixpoint lstrip (s : pystr) : pystr :=
  match s with
  | c :: s' => if isspace c then lstrip s' else s
  | [] => []
  end.

Definition rstrip (s : pystr) : pystr := rev (lstrip (rev s)).

(** [s.strip()] *)
Definition strip (s : pystr) : pystr := rstrip (lstrip s).

(** Simple lower-case mapping of one code point ([_PyUnicode_ToLowercase],
    which [re.IGNORECASE] applies to the subject). The code points with
    an ASCII image are A-Z, U+0130 and U+212A; every other cased code
    point maps outside ASCII and is left as it is here, which no
    comparison against the ASCII literals of this module can observe. *)
Definition tolower (c : N) : N :=
  if (65 <=? c) && (c <=? 90) then c + 32
  else if c =? 304 then 105
  else if c =? 8490 then 107
  else c.

(** Full lower-case mapping of one code point, as [str.lower()] applies
    it: U+0130 becomes the two code points [i] and U+0307. *)
Definition lower_full (c : N) : pystr :=
  if c =? 304 then [105; 775] else [tolower c].

(** [s.lower()] *)
Definition lower (s : pystr) : pystr := concat (map lower_full s).

(** [s.startswith(p)] *)
Fixpoint startswith (s p : pystr) {struct p} : bool :=
  match p, s with
  | [], _ => true
  | c :: p', x :: s' => (x =? c) && startswith s' p'
  | _ :: _, [] => false
  end.

(** [s.endswith(p)] *)
Definition endswith (s p : pystr) : bool := startswith (rev s) (rev p).

(** [needle in s] *)
Fixpoint contains (s needle : pystr) : bool :=
  startswith s needle ||
  match s with
  | _ :: s' => contains s' needle
  | [] => false
  end.

(** Truth value of a [str]: empty strings are falsy. *)
Definition nonempty (s : pystr) : bool :=
  match s with [] => false | _ :: _ => true end.

(** [not s or not s.strip()] *)
Definition blank (s : pystr) : bool :=
  negb (nonempty s) || negb (nonempty (strip s)).

(** [s[:n]] for [n >= 0] *)
Definition slice_to (n : nat) (s : pystr) : pystr := take n s.

(** [needle] occurs in [s]. *)
Definition occurs (needle s : pystr) : Prop :=
  exists a b, s = a ++ needle ++ b.

(** A string without white space at either end. *)
Definition tight (s : pystr) : Prop :=
  match s with
  | [] => True
  | x :: _ => isspace x = false /\ exists t y, s = t ++ [y] /\ isspace y = false
  end.

End Text.
Export Text.

(* ================================================================== *)
(** ** The matcher of [re.search] *)
(* ================================================================== *)

Module Re.

(** Character classes of the patterns: [\s], [[a-zA-Z]] and [.] under
    [re.DOTALL]. *)
Inductive cls := Space | Alpha | Dot.

Inductive greed := Greedy | Lazy.

(** A compiled pattern is a sequence of nodes; the flag of a literal or
    of a class says whether [re.IGNORECASE] is in force. [Open] and
    [Close] mark group 1. *)
Inductive node :=
| Lit (ic : bool) (c : N)
| Rep (g : greed) (ic : bool) (k : cls)
| Open
| Close.

(** A literal under IGNORECASE compares the lower-cased subject code
    point with the lower-cased pattern code point. *)
Definition lit_ok (ic : bool) (c x : N) : bool :=
  if ic then tolower x =? tolower c else x =? c.

Definition ascii_lower_letter (c : N) : bool := (97 <=? c) && (c <=? 122).
Definition ascii_letter (c : N) : bool :=
  ascii_lower_letter c || ((65 <=? c) && (c <=? 90)).

(** [[a-zA-Z]] under IGNORECASE is compiled to the set a-z together with
    U+0131 and U+017F (the other case forms of i and s) and is tested on
    the lower-cased subject code point. *)
Definition cls_ok (ic : bool) (k : cls) (x : N) : bool :=
  match k with
  | Space => isspace x
  | Dot => true
  | Alpha =>
      if ic then
        let l := tolower x in
        ascii_lower_letter l || (l =? 305) || (l =? 383)
      else ascii_letter x
  end.

(** A successful match records the text each node consumed. *)
Definition push (x : N) (segs : list pystr) : list pystr :=
  match segs with
  | seg :: r => (x :: seg) :: r
  | [] => [[x]]
  end.

(** Match the pattern at the start of the subject, backtracking in the
    order of the engine: a greedy repeat tries the longest run first, a
    lazy one the shortest. *)
Fixpoint match_here (p : list node) : pystr -> option (list pystr) :=
  match p with
  | [] => fun _ => Some []
  | Lit ic c :: p' => fun s =>
      match s with
      | x :: s' =>
          if lit_ok ic c x then cons [x] <$> match_here p' s' else None
      | [] => None
      end
  | Open :: p' => fun s => cons [] <$> match_here p' s
  | Close :: p' => fun s => cons [] <$> match_here p' s
  | Rep Greedy ic k :: p' =>
      fix more (s : pystr) : option (list pystr) :=
        let stop := cons [] <$> match_here p' s in
        match s with
        | x :: s' =>
            if cls_ok ic k x then
              match more s' with
              | Some r => Some (push x r)
              | None => stop
              end
            else stop
        | [] => stop
        end
  | Rep Lazy ic k :: p' =>
      fix more (s : pystr) : option (list pystr) :=
        match cons [] <$> match_here p' s with
        | Some r => Some r
        | None =>
            match s with
            | x :: s' => if cls_ok ic k x then push x <$> more s' else None
            | [] => None
            end
        end
  end.

(** [re.search]: the first start position at which the pattern matches;
    the result is the text skipped before the match and the segments of
    the match. *)
Fixpoint search (p : list node) (s : pystr) : option (pystr * list pystr) :=
  match match_here p s with
  | Some segs => Some ([], segs)
  | None =>
      match s with
      | x :: s' => (fun r => (x :: r.1, r.2)) <$> search p s'
      | [] => None
      end
  end.

(** [m.group(0)] *)
Definition group0 (segs : list pystr) : pystr := concat segs.

Fixpoint upto_close (p : list node) (segs : list pystr) : pystr :=
  match p, segs with
  | Close :: _, _ => []
  | _ :: p', seg :: segs' => seg ++ upto_close p' segs'
  | _, _ => []
  end.

(** [m.group(1)] *)
Fixpoint group1 (p : list node) (segs : list pystr) : pystr :=
  match p, segs with
  | Open :: p', _ :: segs' => upto_close p' segs'
  | _ :: p', _ :: segs' => group1 p' segs'
  | _, _ => []
  end.

(** The nodes of a literal run of the pattern. *)
Definition lits (ic : bool) (w : pystr) : list node := map (Lit ic) w.

(** What a node may consume. *)
Definition node_ok (n : node) (seg : pystr) : Prop :=
  match n with
  | Lit ic c => exists x, seg = [x] /\ lit_ok ic c x = true
  | Rep _ ic k => Forall (fun x => cls_ok ic k x = true) seg
  | Open | Close => seg = []
  end.

(** [segs] is a way of matching [p] at the start of [s]. *)
Definition parses (p : list node) (segs : list pystr) (s : pystr) : Prop :=
  Forall2 node_ok p segs /\ concat segs `prefix_of` s.

(** The segments of a literal run. *)
Definition singletons (w : pystr) : list pystr := map (fun x => [x]) w.

(** A code point without case forms matches only itself, also under
    IGNORECASE. *)
Definition uncased (c : N) : Prop :=
  forall x, lit_ok true c x = true -> x = c.

End Re.
Export Re.

(* ================================================================== *)
(** ** Exceptions *)
(* ================================================================== *)

Module Py.

(** The classes of [Exception] the service raises itself or that a
    built-in raises on its behalf; [OtherError] stands for any other
    subclass of [Exception] coming out of a collaborator. *)
Inductive exn_class :=
| ValueError | KeyError | TypeError | AttributeError | ZeroDivisionError
| OtherError.

(** An exception instance; [exn_msg] is what [str(e)] returns. *)
Record exn := Exn { exn_cls : exn_class; exn_msg : pystr }.

(** The outcome of a call: a value or a raised exception. *)
Inductive res (A : Type) :=
| Ok (a : A)
| Raise (e : exn).
Arguments Ok {A} a.
Arguments Raise {A} e.

(** The objects a caller may hand to a parameter annotated [str]. *)
Inductive pyobj :=
| PyNone
| PyStr (s : pystr)
| PyInt (n : Z).


(** *** State and exceptions

    A computation reads and updates a state [S] and either returns or
    raises. The state is the log of collaborator calls for the
    persistence wrappers, the number of provider calls for the blocking
    generation, and the events yielded so far for a generator. *)
Definition M (S A : Type) : Type := S -> res A * S.

Definition ret {S A} (a : A) : M S A := fun s => (Ok a, s).

Definition raise {S A} (e : exn) : M S A := fun s => (Raise e, s).

Definition bind {S A B} (m : M S A) (k : A -> M S B) : M S B :=
  fun s =>
    match m s with
    | (Ok a, s') => k a s'
    | (Raise e, s') => (Raise e, s')
    end.

(** [try: m except Exception as e: h e] *)
Definition catch {S A} (m : M S A) (h : exn -> M S A) : M S A :=
  fun s =>
    match m s with
    | (Ok a, s') => (Ok a, s')
    | (Raise e, s') => h e s'
    end.

(** [except Exception as e: logger.error(...); raise] *)
Definition log_and_reraise {S A} (m : M S A) : M S A :=
  catch m raise.

(** An outcome computed without touching the state. *)
Definition lift {S A} (r : res A) : M S A := fun s => (r, s).

Definition modify {S} (f : S -> S) : M S unit := fun s => (Ok tt, f s).

End Py.
Export Py.

Notation "'let*' x ':=' m 'in' k" :=
  (bind m (fun x => k))
  (at level 10, x pattern, m at level 100, k at level 200).
Notation "m ';;' k" :=
  (bind m (fun _ => k))
  (at level 100, k at level 200, right associativity).

(* ================================================================== *)
(** ** Extraction and validation of the HTML candidate *)
(* ================================================================== *)

Module Html.

(** [r'```html\s*(.*?)\s*```'] with [re.DOTALL] *)
Definition html_block : list node :=
  lits false (lit "```html")
  ++ [Rep Greedy false Space; Open; Rep Lazy false Dot; Close;
      Rep Greedy false Space]
  ++ lits false (lit "```").

(** [r'```[a-zA-Z]*\s*(<!DOCTYPE html.*?</html>)\s*```'] with
    [re.DOTALL | re.IGNORECASE] *)
Definition code_block : list node :=
  lits true (lit "```")
  ++ [Rep Greedy true Alpha; Rep Greedy true Space; Open]
  ++ lits true (lit "<!DOCTYPE html")
  ++ [Rep Lazy true Dot]
  ++ lits true (lit "</html>")
  ++ [Close; Rep Greedy true Space]
  ++ lits true (lit "```").

(** [r'<!DOCTYPE html.*?</html>'] with [re.DOTALL | re.IGNORECASE] *)
Definition doctype : list node :=
  lits true (lit "<!DOCTYPE html")
  ++ [Rep Lazy true Dot]
  ++ lits true (lit "</html>").

Definition _extract_html_from_response (response_content : pystr) : pystr :=
  match search html_block response_content with
  | Some html_match => strip (group1 html_block html_match.2)
  | None =>
      match search code_block response_content with
      | Some code_block_match => strip (group1 code_block code_block_match.2)
      | None =>
          match search doctype response_content with
          | Some doctype_match => strip (group0 doctype_match.2)
          | None =>
              let content_stripped := strip response_content in
              if startswith (lower content_stripped) (lit "<!doctype html")
                 && endswith (lower content_stripped) (lit "</html>")
              then content_stripped
              else strip response_content
          end
      end
  end.

(** The [required_elements] dictionary, in insertion order. *)
Definition required_elements : list (pystr * pystr) :=
  [(lit "<head>", lit "<head");
   (lit "<body>", lit "<body");
   (lit "<title>", lit "<title")].

(** The body of the [try] of [_validate_html_template]. An argument that
    is not a [str] is either falsy, and rejected by the first test, or
    has no [strip] method. *)
Definition validate_checks (html_content : pyobj) : res bool :=
  match html_content with
  | PyNone => Ok false
  | PyInt n =>
      if (n =? 0)%Z then Ok false
      else Raise (Exn AttributeError
                    (lit "'int' object has no attribute 'strip'"))
  | PyStr s =>
      if blank s then Ok false
      else
        let html_lower := strip (lower s) in
        if negb (startswith html_lower (lit "<!doctype html")) then Ok false
        else if negb (contains html_lower (lit "</html>")) then Ok false
        else
          let missing_elements :=
            map fst (List.filter
                       (fun el => negb (contains html_lower el.2))
                       required_elements) in
          match missing_elements with
          | _ :: _ => Ok false
          | [] => Ok true
          end
  end.

(** [except Exception: return False] *)
Definition _validate_html_template (html_content : pyobj) : bool :=
  match validate_checks html_content with
  | Ok b => b
  | Raise _ => false
  end.

(** *** The layers of the extraction, in the words of the specification *)

Definition spaces (ws : pystr) : Prop := Forall (fun x => isspace x = true) ws.

(** [d] spells the ASCII word [w] up to letter case. *)
Definition caseless (w d : pystr) : Prop :=
  Forall2 (fun c x => lit_ok true c x = true) w d.

(** [g] is the content of a fenced block tagged [html]. *)
Definition html_fence (text g : pystr) : Prop :=
  exists pre ws1 ws2 post,
    text = pre ++ lit "```html" ++ ws1 ++ g ++ ws2 ++ lit "```" ++ post
    /\ spaces ws1 /\ spaces ws2.

(** [d] runs from a [<!DOCTYPE html] to a [</html>], in any letter case. *)
Definition doc_span (d : pystr) : Prop :=
  exists a mid b,
    d = a ++ mid ++ b
    /\ caseless (lit "<!DOCTYPE html") a /\ caseless (lit "</html>") b.

(** [d] is a document span that fills a fenced block, whatever its tag. *)
Definition code_fence (text d : pystr) : Prop :=
  exists pre tag ws1 ws2 post,
    text = pre ++ lit "```" ++ tag ++ ws1 ++ d ++ ws2 ++ lit "```" ++ post
    /\ Forall (fun x => cls_ok true Alpha x = true) tag
    /\ spaces ws1 /\ spaces ws2 /\ doc_span d.

(** [d] is a document span somewhere in the text. *)
Definition bare_doc (text d : pystr) : Prop :=
  exists pre post, text = pre ++ d ++ post /\ doc_span d.

(** A document span for arbitrary opening and closing words. *)
Definition span (wa wb d : pystr) : Prop :=
  exists a mid b, d = a ++ mid ++ b /\ caseless wa a /\ caseless wb b.

(** A full document, and the same document without its [<title>]. *)
Definition full_document : pystr :=
  lit "<!DOCTYPE html>
<html><head><title>Slide</title></head>
<body><h1>{{ page_title }}</h1></body></html>".

Definition untitled_document : pystr :=
  lit "<!DOCTYPE html>
<html><head></head>
<body><h1>{{ page_title }}</h1></body></html>".

End Html.
Export Html.

(* ================================================================== *)
(** ** The persistence wrappers *)
(* ================================================================== *)

Module Crud.

(** The values of a [Dict[str, Any]] handed to the service. *)
Inductive value :=
| VNone
| VBool (b : bool)
| VInt (n : Z)
| VStr (s : pystr)
| VList (l : list pystr)
| VDict (d : list (pystr * pystr)).

(** Truth value of an object, as [not x] tests it. *)
Definition truthy (v : value) : bool :=
  match v with
  | VNone => false
  | VBool b => b
  | VInt n => negb (n =? 0)%Z
  | VStr s => nonempty s
  | VList l => match l with [] => false | _ => true end
  | VDict d => match d with [] => false | _ => true end
  end.

(** [d.get(k)], with [None] for a missing key. *)
Definition dict_get (d : gmap string value) (k : string) : value :=
  default VNone (d !! k).

(** [d.setdefault(k, v)] *)
Definition setdefault (k : string) (v : value) (d : gmap string value)
  : gmap string value :=
  match d !! k with
  | Some _ => d
  | None => <[k := v]> d
  end.

(** A row of the template table, as the collaborator hands it out. *)
Record template := {
  tid : Z;
  template_name : pystr;
  description : pystr;
  html_template : pystr;
  preview_image : pystr;
  style_config : value;
  tags : list pystr;
  is_default : bool;
  is_active : bool;
  usage_count : Z;
  created_by : pystr;
  created_at : Z;
  updated_at : Z
}.

(** The calls the service issues to [DatabaseService]. *)
Inductive call :=
| GetById (template_id : Z)
| GetByName (name : value)
| Create (template_data : gmap string value)
| Update (template_id : Z) (update_data : gmap string value)
| Delete (template_id : Z)
| Paginated (active_only : bool) (offset limit : Z) (search : option pystr)
| ByTagsPaginated (tags : list pystr) (active_only : bool) (offset limit : Z)
                  (search : option pystr).

(** The [DatabaseService] collaborator, which is not part of this
    module: each operation answers from its store, may change it and
    may raise. *)
Record DatabaseService (store : Type) := {
  get_global_master_template_by_id :
    Z -> store -> res (option template) * store;
  get_global_master_template_by_name :
    value -> store -> res (option template) * store;
  create_global_master_template :
    gmap string value -> store -> res template * store;
  update_global_master_template :
    Z -> gmap string value -> store -> res bool * store;
  delete_global_master_template :
    Z -> store -> res bool * store;
  get_global_master_templates_paginated :
    bool -> Z -> Z -> option pystr -> store -> res (list template * Z) * store;
  get_global_master_templates_by_tags_paginated :
    list pystr -> bool -> Z -> Z -> option pystr -> store
    -> res (list template * Z) * store
}.
Arguments get_global_master_template_by_id {store}.
Arguments get_global_master_template_by_name {store}.
Arguments create_global_master_template {store}.
Arguments update_global_master_template {store}.
Arguments delete_global_master_template {store}.
Arguments get_global_master_templates_paginated {store}.
Arguments get_global_master_templates_by_tags_paginated {store}.

(** The state of a wrapper: the collaborator's store and the calls
    issued so far, oldest first. *)
Record world (store : Type) := World { db : store; issued : list call }.
Arguments World {store}.
Arguments db {store}.
Arguments issued {store}.

Record pagination := {
  current_page : Z;
  page_size : Z;
  total_count : Z;
  total_pages : Z;
  has_next : bool;
  has_prev : bool
}.

Record page_result := {
  templates : list (list (string * value));
  page_info : pagination
}.

(** The dictionary a listing builds from a row. *)
Definition summary (t : template) : list (string * value) :=
  [("id", VInt (tid t));
   ("template_name", VStr (template_name t));
   ("description", VStr (description t));
   ("preview_image", VStr (preview_image t));
   ("tags", VList (tags t));
   ("is_default", VBool (is_default t));
   ("is_active", VBool (is_active t));
   ("usage_count", VInt (usage_count t));
   ("created_by", VStr (created_by t));
   ("created_at", VInt (created_at t));
   ("updated_at", VInt (updated_at t))]%string.

Section Service.

Context {store : Type} (db_service : DatabaseService store).

(** [ai_config.get_model_config_for_role("template", ...)]: returns or
    raises. *)
Variable get_model_config_for_role : res unit.

(** [_generate_preview_image] ignores its argument and returns one fixed
    data URI; [_extract_style_config] catches every exception of its
    body. Neither raises, and no property below looks into what they
    return. *)
Variable _generate_preview_image : value -> value.
Variable _extract_style_config : value -> value.

(** The built-in [str(x)], which an f-string applies to the value it
    formats. *)
Variable str : value -> pystr.

(** Issue one call: log it, then let the collaborator answer. *)
Definition issue {A} (c : call) (op : store -> res A * store)
  : M (world store) A :=
  fun w =>
    let (r, st) := op (db w) in
    (r, World st (issued w ++ [c])).

(** Lines 89-102 of [create_template]: the preview image and the style
    configuration when they are missing or falsy, then the defaults. *)
Definition fill_defaults (template_data : gmap string value)
  : gmap string value :=
  let template_data :=
    if negb (truthy (dict_get template_data "preview_image"))
    then <["preview_image" :=
             _generate_preview_image
               (dict_get template_data "html_template")]> template_data
    else template_data in
  let template_data :=
    if negb (truthy (dict_get template_data "style_config"))
    then <["style_config" :=
             _extract_style_config
               (dict_get template_data "html_template")]> template_data
    else template_data in
  setdefault "created_by" (VStr (lit "system"))
    (setdefault "is_active" (VBool true)
       (setdefault "is_default" (VBool false)
          (setdefault "tags" (VList [])
             (setdefault "description" (VStr [])
                template_data)))).

Definition create_template (template_data : gmap string value)
  : M (world store) (list (string * value)) :=
  log_and_reraise (
    lift get_model_config_for_role ;;
    let required_fields := ["template_name"; "html_template"]%string in
    (fix check (fields : list string) : M (world store) unit :=
       match fields with
       | [] => ret tt
       | field :: rest =>
           if negb (truthy (dict_get template_data field))
           then raise (Exn ValueError
                         (lit "Missing required field: "
                          ++ bytes_of field))
           else check rest
       end) required_fields ;;
    let name := dict_get template_data "template_name" in
    let* existing :=
      issue (GetByName name)
            (get_global_master_template_by_name db_service name) in
    match existing with
    | Some _ =>
        raise (Exn ValueError
                 (lit "Template name '" ++ str name
                  ++ lit "' already exists"))
    | None =>
        let template_data := fill_defaults template_data in
        let* template :=
          issue (Create template_data)
                (create_global_master_template db_service template_data) in
        ret (summary template)
    end).

Definition update_template (template_id : Z)
                           (update_data : gmap string value)
  : M (world store) bool :=
  log_and_reraise (
    match update_data !! "template_name" with
    | Some name =>
        let* existing :=
          issue (GetByName name)
                (get_global_master_template_by_name db_service name) in
        match existing with
        | Some t =>
            if negb (tid t =? template_id)%Z
            then raise (Exn ValueError
                          (lit "Template name '" ++ str name
                           ++ lit "' already exists"))
            else ret tt
        | None => ret tt
        end
    | None => ret tt
    end ;;
    let has k := bool_decide (is_Some (update_data !! k)) in
    let update_data :=
      if has "html_template" && negb (has "preview_image")
      then <["preview_image" :=
               _generate_preview_image
                 (dict_get update_data "html_template")]> update_data
      else update_data in
    let has k := bool_decide (is_Some (update_data !! k)) in
    let update_data :=
      if has "html_template" && negb (has "style_config")
      then <["style_config" :=
               _extract_style_config
                 (dict_get update_data "html_template")]> update_data
      else update_data in
    issue (Update template_id update_data)
          (update_global_master_template db_service template_id update_data)).

Definition delete_template (template_id : Z) : M (world store) bool :=
  log_and_reraise (
    let* template :=
      issue (GetById template_id)
            (get_global_master_template_by_id db_service template_id) in
    match template with
    | None => ret false
    | Some t =>
        if is_default t
        then raise (Exn ValueError (lit "Cannot delete the default template"))
        else
          let* result :=
            issue (Delete template_id)
                  (delete_global_master_template db_service template_id) in
          ret result
    end).

(** The pagination arithmetic, which both paginated listings spell out
    in the same words. [//] is floor division and raises on a zero
    divisor. *)
Definition paginate (page page_size : Z) (found : list template * Z)
  : M (world store) page_result :=
  let '(templates, total_count) := found in
  if (page_size =? 0)%Z
  then raise (Exn ZeroDivisionError
                (lit "integer division or modulo by zero"))
  else
    let total_pages := ((total_count + page_size - 1) / page_size)%Z in
    let has_next := (page <? total_pages)%Z in
    let has_prev := (page >? 1)%Z in
    ret {| templates := map summary templates;
           page_info :=
             {| current_page := page;
                page_size := page_size;
                total_count := total_count;
                total_pages := total_pages;
                has_next := has_next;
                has_prev := has_prev |} |}.

Definition get_all_templates_paginated (active_only : bool)
    (page page_size : Z) (search : option pystr)
  : M (world store) page_result :=
  log_and_reraise (
    let offset := ((page - 1) * page_size)%Z in
    let* found :=
      issue (Paginated active_only offset page_size search)
            (get_global_master_templates_paginated db_service
               active_only offset page_size search) in
    paginate page page_size found).

Definition get_templates_by_tags_paginated (tags : list pystr)
    (active_only : bool) (page page_size : Z) (search : option pystr)
  : M (world store) page_result :=
  log_and_reraise (
    let offset := ((page - 1) * page_size)%Z in
    let* found :=
      issue (ByTagsPaginated tags active_only offset page_size search)
            (get_global_master_templates_by_tags_paginated db_service
               tags active_only offset page_size search) in
    paginate page page_size found).

End Service.

(** *** An in-memory collaborator

    A collaborator over a list of rows, to run the wrappers on concrete
    stores. Lookups by name see active and inactive rows alike. *)

(** [str(x)] on the values of the examples: the identity on a [str] and
    the names of the constants; other objects do not occur there. *)
Definition str_of (v : value) : pystr :=
  match v with
  | VStr s => s
  | VNone => lit "None"
  | VBool true => lit "True"
  | VBool false => lit "False"
  | _ => []
  end.

Definition named (name : value) (t : template) : bool :=
  match name with
  | VStr s => bool_decide (template_name t = s)
  | _ => false
  end.

Definition tagged (wanted : list pystr) (t : template) : bool :=
  existsb (fun tag => bool_decide (tag ∈ tags t)) wanted.

Definition listed (active_only : bool) (t : template) : bool :=
  if active_only then is_active t else true.

Definition window (offset limit : Z) (rows : list template)
  : list template * Z :=
  (take (Z.to_nat limit) (drop (Z.to_nat offset) rows),
   Z.of_nat (length rows)).

Definition row_of (new_id : Z) (d : gmap string value) : template :=
  {| tid := new_id;
     template_name := str_of (dict_get d "template_name");
     description := str_of (dict_get d "description");
     html_template := str_of (dict_get d "html_template");
     preview_image := str_of (dict_get d "preview_image");
     style_config := dict_get d "style_config";
     tags := match dict_get d "tags" with VList l => l | _ => [] end;
     is_default := truthy (dict_get d "is_default");
     is_active := truthy (dict_get d "is_active");
     usage_count := 0;
     created_by := str_of (dict_get d "created_by");
     created_at := 0;
     updated_at := 0 |}.

Definition memory_db : DatabaseService (list template) :=
  {| get_global_master_template_by_id := fun i rows =>
       (Ok (List.find (fun t => (tid t =? i)%Z) rows), rows);
     get_global_master_template_by_name := fun name rows =>
       (Ok (List.find (named name) rows), rows);
     create_global_master_template := fun d rows =>
       let t := row_of (Z.of_nat (length rows) + 1) d in
       (Ok t, rows ++ [t]);
     update_global_master_template := fun i d rows =>
       (Ok (existsb (fun t => (tid t =? i)%Z) rows), rows);
     delete_global_master_template := fun i rows =>
       (Ok (existsb (fun t => (tid t =? i)%Z) rows),
        List.filter (fun t => negb (tid t =? i)%Z) rows);
     get_global_master_templates_paginated :=
       fun active_only offset limit search rows =>
         (Ok (window offset limit (List.filter (listed active_only) rows)),
          rows);
     get_global_master_templates_by_tags_paginated :=
       fun wanted active_only offset limit search rows =>
         (Ok (window offset limit
                (List.filter (fun t => listed active_only t && tagged wanted t)
                             rows)),
          rows) |}.

(** A row for the examples. *)
Definition sample (i : Z) (name : string) (dflt active : bool) : template :=
  {| tid := i;
     template_name := lit name;
     description := [];
     html_template := lit "<!DOCTYPE html><html></html>";
     preview_image := [];
     style_config := VNone;
     tags := [lit "demo"];
     is_default := dflt;
     is_active := active;
     usage_count := 0;
     created_by := lit "system";
     created_at := 0;
     updated_at := 0 |}.

(** Stand-ins for the two helpers of [create_template] and
    [update_template]. *)
Definition placeholder_preview (_ : value) : value :=
  VStr (lit "data:image/svg+xml;base64,").

Definition basic_style (_ : value) : value :=
  VDict [(lit "dimensions", lit "1280x720");
         (lit "aspect_ratio", lit "16:9");
         (lit "framework", lit "HTML + CSS")].

(** Two rows, the first of which is the default template, and a table
    of thirteen rows. *)
Definition two_rows : list template :=
  [sample 1 "Default" true true; sample 2 "Plain" false true].

Definition thirteen_rows : list template :=
  map (fun i => sample (Z.of_nat i) "T" false true) (seq 1 13).

(** An update that only renames. *)
Definition rename_to (name : string) : gmap string value :=
  {["template_name" := VStr (lit name)]}.

(** The calls a run added to the log. *)
Definition added {store} (before after : world store) : list call :=
  drop (length (issued before)) (issued after).


(** An update that replaces the HTML and blanks the preview image. *)
Definition new_html : gmap string value :=
  {["html_template" := VStr (lit "<!DOCTYPE html><html></html>");
    "preview_image" := VStr []]}.

Definition missing_field (field : string) : exn :=
  Exn ValueError (lit "Missing required field: " ++ bytes_of field).

Definition name_exists (shown : pystr) : exn :=
  Exn ValueError (lit "Template name '" ++ shown ++ lit "' already exists").

(** What both listings report for a page, given the total the
    collaborator counted. *)
Definition page_of (page page_size total_count : Z) : pagination :=
  {| current_page := page;
     page_size := page_size;
     total_count := total_count;
     total_pages := (total_count + page_size - 1) / page_size;
     has_next := (page <? (total_count + page_size - 1) / page_size)%Z;
     has_prev := (page >? 1)%Z |}%Z.

End Crud.

(* ================================================================== *)
(** ** AI generation *)
(* ================================================================== *)

Module Gen.

(** The f-string of the text-only branch; both generation operations
    build the same one. *)
Definition text_only_prompt (prompt : pystr) : pystr :=
  lit "
作为专业的PPT模板设计师，请根据以下要求生成一个HTML母版模板。

请按照以下步骤思考并生成：

1. 首先分析用户需求
2. 设计模板的整体风格和布局
3. 确定色彩方案和字体选择
4. 编写HTML结构
5. 添加CSS样式
6. 优化和完善

用户需求："
  ++ prompt
  ++ lit "

设计要求：
1. **严格尺寸控制**：页面尺寸必须为1280x720像素（16:9比例）
2. **完整HTML结构**：包含<!DOCTYPE html>、head、body等完整结构
3. **内联样式**：所有CSS样式必须内联，确保自包含性
4. **响应式设计**：适配不同屏幕尺寸但保持16:9比例
5. **占位符支持**：在适当位置使用占位符，如：
   - {{ page_title }} - 页面标题，默认居左
   - {{ page_content }} - 页面内容
   - {{ current_page_number }} - 当前页码
   - {{ total_page_count }} - 总页数
6. **技术要求**：
   - 使用Tailwind CSS或内联CSS
   - 支持Font Awesome图标
   - 支持Chart.js、ECharts.js、D3.js等图表库
   - 确保所有内容在720px高度内完全显示
   - 绝对不允许出现任何滚动条

请详细说明你的设计思路，然后生成完整的HTML模板代码，使用```html代码块格式返回。
".

(** [mode_instruction] of the blocking operation, mode [reference_style]. *)
Definition reference_style_instruction : pystr :=
  lit "
请参考上传的图片风格，借鉴其设计元素、色彩搭配、布局结构等，但不需要完全复制。
重点关注：
- 色彩方案和配色理念
- 设计风格和视觉元素
- 布局结构和空间安排
- 字体选择和排版风格
".

(** [mode_instruction] of the blocking operation, any other mode. *)
Definition one_to_one_instruction : pystr :=
  lit "
请尽可能准确地复制上传图片的设计，包括：
- 精确的布局结构
- 相同的色彩搭配
- 类似的视觉元素
- 相近的字体和排版
- 整体的设计风格
".

(** The f-string of the multimodal branch of the blocking operation. *)
Definition multimodal_prompt (mode_instruction prompt : pystr) : pystr :=
  lit "
作为专业的PPT模板设计师，请根据参考图片和以下要求生成一个HTML母版模板。

"
  ++ mode_instruction
  ++ lit "

用户需求："
  ++ prompt
  ++ lit "

设计要求：
1. **严格尺寸控制**：页面尺寸必须为1280x720像素（16:9比例）
2. **完整HTML结构**：包含<!DOCTYPE html>、head、body等完整结构
3. **内联样式**：所有CSS样式必须内联，确保自包含性
4. **响应式设计**：适配不同屏幕尺寸但保持16:9比例
5. **占位符支持**：在适当位置使用占位符，如：
   - {{ page_title }} - 页面标题，默认居左
   - {{ page_content }} - 页面内容
   - {{ current_page_number }} - 当前页码
   - {{ total_page_count }} - 总页数
6. **技术要求**：
   - 使用Tailwind CSS或内联CSS
   - 支持Font Awesome图标
   - 支持Chart.js、ECharts.js、D3.js等图表库
   - 确保所有内容在720px高度内完全显示
   - 绝对不允许出现任何滚动条

请详细说明你的设计思路，然后生成完整的HTML模板代码，使用```html代码块格式返回。
".

(** [mode_instruction] of the streaming operation, mode [reference_style]. *)
Definition stream_reference_style_instruction : pystr :=
  lit "
**生成模式：参考风格**
请分析参考图片的设计风格、色彩搭配、布局结构等视觉元素，并将这些设计理念融入到PPT模板中。
不需要完全复制图片内容，而是借鉴其设计精髓来创建符合用户需求的模板。
".

(** [mode_instruction] of the streaming operation, any other mode. *)
Definition stream_exact_replica_instruction : pystr :=
  lit "
**生成模式：1:1还原**
请尽可能准确地分析和复制参考图片的设计，包括：
- 布局结构和元素位置
- 色彩方案和渐变效果
- 字体样式和排版
- 装饰元素和图形
- 整体视觉风格
在保持PPT模板功能性的前提下，最大程度还原图片的设计。
".

(** The f-string of the multimodal branch of the streaming operation. *)
Definition stream_multimodal_prompt (mode_instruction prompt : pystr) : pystr :=
  lit "
作为专业的PPT模板设计师，请根据参考图片和用户要求生成一个HTML母版模板。

"
  ++ mode_instruction
  ++ lit "

用户需求："
  ++ prompt
  ++ lit "

请按照以下步骤分析和生成：

1. **图片分析**：详细分析参考图片的设计元素
   - 整体布局和结构
   - 色彩方案和配色
   - 字体和排版风格
   - 装饰元素和图形
   - 视觉层次和重点

2. **设计适配**：将图片设计适配为PPT模板
   - 保持设计风格的一致性
   - 适配16:9的PPT比例
   - 确保内容区域的可用性
   - 添加必要的占位符

3. **技术实现**：编写HTML和CSS代码

设计要求：
1. **严格尺寸控制**：页面尺寸必须为1280x720像素（16:9比例）
2. **完整HTML结构**：包含<!DOCTYPE html>、head、body等完整结构
3. **内联样式**：所有CSS样式必须内联，确保自包含性
4. **响应式设计**：适配不同屏幕尺寸但保持16:9比例
5. **占位符支持**：在适当位置使用占位符，如：
   - {{ page_title }} - 页面标题，默认居左
   - {{ page_content }} - 页面内容
   - {{ current_page_number }} - 当前页码
   - {{ total_page_count }} - 总页数
6. **技术要求**：
   - 使用Tailwind CSS或内联CSS
   - 支持Font Awesome图标
   - 支持Chart.js、ECharts.js、D3.js等图表库
   - 确保所有内容在720px高度内完全显示
   - 绝对不允许出现任何滚动条

请详细说明你的分析过程和设计思路，然后生成完整的HTML模板代码，使用```html代码块格式返回。
".

(** The f-string of the adjustment operation. *)
Definition adjust_prompt (current_html adjustment_request : pystr) : pystr :=
  lit "
作为专业的PPT模板设计师，请根据用户的调整需求修改现有的HTML模板。

当前模板：
```html
"
  ++ current_html
  ++ lit "
```

用户调整需求："
  ++ adjustment_request
  ++ lit "

请按照以下要求进行调整：
1. **保持原有结构**：尽量保持原有的基本布局和结构
2. **精确调整**：只修改用户明确要求调整的部分
3. **保持占位符**：确保保留所有占位符（如 {{ page_title }}、{{ page_content }} 等）
4. **完整HTML**：返回完整的HTML代码，包含所有必要的样式和结构
5. **16:9比例**：确保页面尺寸保持1280x720像素的16:9比例

请详细说明你的调整思路，然后生成完整的调整后HTML模板代码，使用```html代码块格式返回。
".

(** *** Messages *)

(** One part of the [content] list of a multimodal message dictionary. *)
Inductive part :=
| TextPart (text : pystr)
| ImageUrlPart (url : pystr).

(** The [content] of a message dictionary: a [str] or a list of parts. *)
Inductive content :=
| Plain (text : pystr)
| Parts (parts : list part).

(** A message dictionary [{"role": ..., "content": ...}]. *)
Record message := Message { role : pystr; body : content }.

(** [TextContent] and [ImageContent] of the provider interface. *)
Inductive ai_content :=
| TextContent (text : pystr)
| ImageContent (url : pystr).

(** [AIMessage(role=MessageRole.USER, content=...)] *)
Record ai_message := AIMessage { ai_content_parts : list ai_content }.

(** A reference image is a dictionary with the keys [data] and [type]. *)
Abbreviation image := (gmap string pystr).

(** [not reference_image] is true for [None] and for an empty
    dictionary. *)
Definition supplied (reference_image : option image) : bool :=
  match reference_image with
  | Some d => negb (bool_decide (d = ∅))
  | None => false
  end.

(** [d[k]], raising [KeyError] on a missing key. *)
Definition getitem {S} (d : option image) (k : string) : M S pystr :=
  match d with
  | Some d =>
      match d !! k with
      | Some v => ret v
      | None => raise (Exn KeyError (lit "'" ++ bytes_of k ++ lit "'"))
      end
  | None =>
      raise (Exn TypeError (lit "'NoneType' object is not subscriptable"))
  end.

Definition str_eq (a b : pystr) : bool := bool_decide (a = b).

(** Lines 350-454 of [generate_template_with_ai]: the [messages] list
    built before the [try]. *)
Definition build_messages {S} (prompt generation_mode : pystr)
    (reference_image : option image) : M S (list message) :=
  if str_eq generation_mode (lit "text_only")
     || negb (supplied reference_image)
  then
    let ai_prompt := text_only_prompt prompt in
    ret [Message (lit "user") (Plain ai_prompt)]
  else
    let mode_instruction :=
      if str_eq generation_mode (lit "reference_style")
      then reference_style_instruction
      else one_to_one_instruction in
    let ai_prompt := multimodal_prompt mode_instruction prompt in
    let* image_data := getitem reference_image "data" in
    let* image_data :=
      if negb (startswith image_data (lit "data:"))
      then
        let* image_type := getitem reference_image "type" in
        ret (lit "data:" ++ image_type ++ lit ";base64," ++ image_data)
      else ret image_data in
    ret [Message (lit "user")
           (Parts [TextPart ai_prompt; ImageUrlPart image_data])].

(** Lines 463-489: the conversion of the dictionaries to [AIMessage]s.
    An image part whose URL is not a data URL is dropped. *)
Definition convert_part (p : part) : list ai_content :=
  match p with
  | TextPart text => [TextContent text]
  | ImageUrlPart image_url =>
      if startswith image_url (lit "data:")
      then [ImageContent image_url]
      else []
  end.

Definition convert_messages (messages : list message) : list ai_message :=
  map (fun msg =>
         match body msg with
         | Plain text => AIMessage [TextContent text]
         | Parts parts => AIMessage (concat (map convert_part parts))
         end) messages.

(** *** The provider *)

(** What iterating a provider stream produces: the chunks, then either
    the end of the stream or an exception. *)
Record chunks := Chunks { yielded : list pystr; failure : option exn }.

(** The provider collaborator. [chat_completion n] answers the call
    number [n] (from 0) of one run, so that a stub may answer each
    attempt differently; an answer is the [content] of the response. The
    streaming operations are optional attributes, probed with
    [hasattr]. *)
Record provider := {
  chat_completion : nat -> list ai_message -> res pystr;
  text_completion : pystr -> res pystr;
  stream_chat_completion : option (list ai_message -> chunks);
  stream_text_completion : option (pystr -> chunks)
}.

(** The result dictionary of the blocking operation. *)
Record generation_result := {
  html_template : pystr;
  template_name : pystr;
  description : pystr;
  tags : list pystr;
  llm_response : option pystr
}.

(** The event dictionaries of the generators, by their [type]. The
    [complete] event of the adjustment carries no generation result
    beyond the HTML and the name. *)
Inductive event :=
| thinking (content : pystr)
| complete (message : pystr) (result : generation_result)
| adjusted (message html_template template_name : pystr)
| error (message : pystr).

(** [description or f"..."] and [tags or [...]] *)
Definition description_or (description prompt : pystr) : pystr :=
  if nonempty description then description
  else lit "AI生成的模板：" ++ slice_to 100 prompt.

Definition tags_or (tags : option (list pystr)) : list pystr :=
  match tags with
  | Some (t :: ts) => t :: ts
  | _ => [lit "AI生成"]
  end.

(** *** The blocking operation *)

Section Pipeline.

(** [_get_template_role_provider()]: the provider configured for the
    role (possibly [None]), or an exception. The settings it also
    returns only choose the model and are part of the provider here. *)
Variable get_role_provider : res (option provider).

(** The local variables of [generate_template_with_ai] that outlive an
    attempt, and the number of completed calls of the provider's
    [chat_completion]. *)
Record locals := Locals {
  consulted : nat;
  full_response : option pystr;
  html_template_var : option pystr
}.

Definition start : locals := Locals 0 None None.

(** [self._chat_completion(messages=...)]: resolve the provider again
    and call it. *)
Definition _chat_completion (messages : list ai_message) : M locals pystr :=
  let* provider := lift get_role_provider in
  match provider with
  | Some p =>
      fun l =>
        (chat_completion p (consulted l) messages,
         Locals (S (consulted l)) (full_response l) (html_template_var l))
  | None =>
      raise (Exn AttributeError
               (lit "'NoneType' object has no attribute 'chat_completion'"))
  end.

Definition max_retries : nat := 5.

(** How an iteration of the retry loop ends: [continue] or [break]. *)
Inductive flow := Continue | Break.

Definition retry_or_fail (attempt : nat) (e : exn) : M locals flow :=
  if (attempt <? max_retries - 1)%nat then ret Continue else raise e.

(** One iteration of [for attempt in range(max_retries)]. *)
Definition attempt_once (ai_messages : list ai_message) (attempt : nat)
  : M locals flow :=
  catch (
    let* content := _chat_completion ai_messages in
    modify (fun l => Locals (consulted l) (Some content)
                            (html_template_var l)) ;;
    if blank content then
      retry_or_fail attempt (Exn ValueError (lit "AI服务返回空响应"))
    else if (length content <? 2000)%nat
            && (attempt <? max_retries - 1)%nat then
      ret Continue
    else
      let html := _extract_html_from_response content in
      modify (fun l => Locals (consulted l) (full_response l) (Some html)) ;;
      if blank html then
        retry_or_fail attempt
          (Exn ValueError (lit "AI响应中未找到有效的HTML模板"))
      else if negb (_validate_html_template (PyStr html)) then
        retry_or_fail attempt (Exn ValueError (lit "生成的HTML模板验证失败"))
      else ret Break)
  (fun e => retry_or_fail attempt e).

Fixpoint retry_loop (ai_messages : list ai_message) (range : list nat)
  : M locals unit :=
  match range with
  | [] => ret tt
  | attempt :: rest =>
      let* f := attempt_once ai_messages attempt in
      match f with
      | Continue => retry_loop ai_messages rest
      | Break => ret tt
      end
  end.

Definition generate_template_with_ai
    (prompt template_name description : pystr) (tags : option (list pystr))
    (generation_mode : pystr) (reference_image : option image)
  : M locals generation_result :=
  let* messages := build_messages prompt generation_mode reference_image in
  log_and_reraise (
    let* provider := lift get_role_provider in
    match provider with
    | None => raise (Exn ValueError (lit "AI服务未配置或不可用"))
    | Some _ =>
        let ai_messages := convert_messages messages in
        retry_loop ai_messages (seq 0 max_retries) ;;
        fun l =>
          match html_template_var l with
          | Some (c :: html) =>
              (Ok {| html_template := c :: html;
                     template_name := template_name;
                     description := description_or description prompt;
                     tags := tags_or tags;
                     llm_response := full_response l |}, l)
          | _ =>
              (Raise (Exn ValueError
                 (lit "Failed to generate valid HTML template after all retries")),
               l)
          end
    end).

(** *** The streaming operations

    A generator is a computation over the list of the events it has
    yielded so far; [asyncio.sleep] only spends time and is left out. *)

Definition yield (e : event) : M (list event) unit :=
  modify (fun evs => evs ++ [e]).

(** [async for chunk in stream: full_response += chunk; yield ...] *)
Fixpoint stream_loop (rest : list pystr) (failure : option exn)
    (full_response : pystr) : M (list event) pystr :=
  match rest with
  | chunk :: rest' =>
      yield (thinking chunk) ;;
      stream_loop rest' failure (full_response ++ chunk)
  | [] =>
      match failure with
      | Some e => raise e
      | None => ret full_response
      end
  end.

Definition consume (c : chunks) : M (list event) pystr :=
  stream_loop (yielded c) (failure c) [].

(** An attribute of the provider, which may be [None]. *)
Definition attr {A} (the_provider : option provider) (name : string)
    (get : provider -> A) : M (list event) A :=
  match the_provider with
  | Some p => ret (get p)
  | None =>
      raise (Exn AttributeError
               (lit "'NoneType' object has no attribute '"
                ++ bytes_of name ++ lit "'"))
  end.

(** [hasattr(provider, name)] for an optional operation. *)
Definition hasattr {A} (the_provider : option provider)
    (get : provider -> option A) : option A :=
  match the_provider with
  | Some p => get p
  | None => None
  end.

(** The prompt of the streaming operation, built before its [try]. *)
Definition stream_prompt (prompt generation_mode : pystr)
    (reference_image : option image) : pystr :=
  if str_eq generation_mode (lit "text_only")
     || negb (supplied reference_image)
  then text_only_prompt prompt
  else
    let mode_instruction :=
      if str_eq generation_mode (lit "reference_style")
      then stream_reference_style_instruction
      else stream_exact_replica_instruction in
    stream_multimodal_prompt mode_instruction prompt.

(** The body of the [try] of [generate_template_with_ai_stream]. The
    handling of the full response after the provider call belongs to the
    [else] branch of the test for a multimodal request, as the
    indentation of the source has it. *)
Definition generate_stream_try
    (prompt template_name description : pystr) (tags : option (list pystr))
    (generation_mode : pystr) (reference_image : option image)
    (ai_prompt : pystr) : M (list event) unit :=
    let* provider := lift get_role_provider in
    if negb (str_eq generation_mode (lit "text_only"))
       && supplied reference_image
    then
      let* image_url := getitem reference_image "data" in
      let image_url :=
        if negb (startswith image_url (lit "data:"))
        then
          let image_type :=
            default (lit "image/png")
                    (reference_image ≫= fun d => d !! "type") in
          lit "data:" ++ image_type ++ lit ";base64," ++ image_url
        else image_url in
      let messages :=
        [AIMessage [TextContent ai_prompt; ImageContent image_url]] in
      match hasattr provider stream_chat_completion with
      | Some stream =>
          let* full_response := consume (stream messages) in
          ret tt
      | None =>
          let* chat := attr provider "chat_completion" chat_completion in
          let* full_response := lift (chat O messages) in
          yield (thinking (lit "🖼️ 正在分析参考图片...

")) ;;
          yield (thinking full_response)
      end
    else
      let* full_response :=
        match hasattr provider stream_text_completion with
        | Some stream => consume (stream ai_prompt)
        | None =>
            let* text := attr provider "text_completion" text_completion in
            let* full_response := lift (text ai_prompt) in
            yield (thinking (lit "🤔 正在分析您的需求...

")) ;;
            yield (thinking full_response) ;;
            ret full_response
        end in
      yield (thinking (lit "

✨ 优化样式和交互效果...
")) ;;
      let html_template := _extract_html_from_response full_response in
      if negb (_validate_html_template (PyStr html_template))
      then raise (Exn ValueError (lit "Generated HTML template is invalid"))
      else
        yield (thinking (lit "✅ 模板生成完成，准备预览...
")) ;;
        yield (complete (lit "模板生成完成！")
                 {| html_template := html_template;
                    template_name := template_name;
                    description := description_or description prompt;
                    tags := tags_or tags;
                    llm_response := Some full_response |}).

Definition generate_template_with_ai_stream
    (prompt template_name description : pystr) (tags : option (list pystr))
    (generation_mode : pystr) (reference_image : option image)
  : M (list event) unit :=
  let ai_prompt := stream_prompt prompt generation_mode reference_image in
  catch (generate_stream_try prompt template_name description tags
           generation_mode reference_image ai_prompt)
        (fun e => yield (error (exn_msg e))).

(** The body of the [try] of [adjust_template_with_ai_stream]. *)
Definition adjust_stream_try
    (adjustment_request template_name ai_prompt : pystr)
  : M (list event) unit :=
    let* provider := lift get_role_provider in
    match hasattr provider stream_text_completion with
    | Some stream =>
        let* full_response := consume (stream ai_prompt) in
        yield (thinking (lit "

✨ 完成模板调整...
")) ;;
        let html_template := _extract_html_from_response full_response in
        if negb (_validate_html_template (PyStr html_template))
        then raise (Exn ValueError (lit "Adjusted HTML template is invalid"))
        else
          yield (adjusted (lit "模板调整完成！") html_template template_name)
    | None =>
        yield (thinking (lit "🔄 正在分析调整需求...

")) ;;
        yield (thinking (lit "调整需求：" ++ adjustment_request ++ lit "

")) ;;
        yield (thinking (lit "🎨 开始调整模板...
")) ;;
        let* text := attr provider "text_completion" text_completion in
        let* content := lift (text ai_prompt) in
        yield (thinking (lit "✨ 完成模板调整...
")) ;;
        let html_template := _extract_html_from_response content in
        if negb (_validate_html_template (PyStr html_template))
        then raise (Exn ValueError (lit "Adjusted HTML template is invalid"))
        else
          yield (adjusted (lit "模板调整完成！") html_template template_name)
    end.

Definition adjust_template_with_ai_stream
    (current_html adjustment_request template_name : pystr)
  : M (list event) unit :=
  let ai_prompt := adjust_prompt current_html adjustment_request in
  catch (adjust_stream_try adjustment_request template_name ai_prompt)
        (fun e => yield (error (exn_msg e))).

(** *** Shapes of an event sequence *)

Definition is_thinking (e : event) : Prop :=
  match e with thinking _ => True | _ => False end.

Definition is_error (e : event) : Prop :=
  match e with error _ => True | _ => False end.

(** A [complete] event, of either operation. *)
Definition is_complete (e : event) : Prop :=
  match e with complete _ _ | adjusted _ _ _ => True | _ => False end.

Definition is_terminal (e : event) : Prop := is_complete e \/ is_error e.

(** Progress events, then exactly one terminal event. *)
Definition well_terminated (evs : list event) : Prop :=
  exists pre t, evs = pre ++ [t] /\ Forall is_thinking pre /\ is_terminal t.

(** The request takes the multimodal path of the streaming operation. *)
Definition multimodal (generation_mode : pystr)
    (reference_image : option image) : bool :=
  negb (str_eq generation_mode (lit "text_only")) && supplied reference_image.

(** Whether the retry loop keeps the answer of an attempt: the provider
    returned text that is not blank, long enough unless the attempt is
    the final one, and whose extracted candidate validates. *)
Definition accepted (final : bool) (answer : res pystr) : bool :=
  match answer with
  | Raise _ => false
  | Ok content =>
      negb (blank content)
      && (final || negb (length content <? 2000)%nat)
      && _validate_html_template
           (PyStr (_extract_html_from_response content))
  end.

Definition empty_response : exn := Exn ValueError (lit "AI服务返回空响应").

End Pipeline.

(** The message every text-only request produces. *)
Definition text_only_messages (prompt : pystr) : list message :=
  [Message (lit "user") (Plain (text_only_prompt prompt))].

(** The result dictionary built from the answer of the winning attempt. *)
Definition result_of (prompt template_name description : pystr)
    (tags : option (list pystr)) (content : pystr) : generation_result :=
  {| html_template := _extract_html_from_response content;
     template_name := template_name;
     description := description_or description prompt;
     tags := tags_or tags;
     llm_response := Some content |}.

(** The exception a run ends with when its final attempt got [answer]
    and did not accept it. *)
Definition final_error (answer : res pystr) : exn :=
  match answer with
  | Raise e => e
  | Ok content =>
      if blank content then empty_response
      else if blank (_extract_html_from_response content)
      then Exn ValueError (lit "AI响应中未找到有效的HTML模板")
      else Exn ValueError (lit "生成的HTML模板验证失败")
  end.

Definition not_configured : exn :=
  Exn ValueError (lit "AI服务未配置或不可用").

(** The URL sent for a reference image of type [image_type]: the data
    itself when it is a data URL already, a data URL around it
    otherwise. *)
Definition data_url (image_type data : pystr) : pystr :=
  if startswith data (lit "data:") then data
  else lit "data:" ++ image_type ++ lit ";base64," ++ data.

(** The full response of the text path of a generator: the concatenated
    chunks of a provider that streams, the answer of [text_completion]
    of one that does not. *)
Definition text_answer (p : provider) (ai_prompt : pystr) : res pystr :=
  match stream_text_completion p with
  | Some stream =>
      match failure (stream ai_prompt) with
      | Some e => Raise e
      | None => Ok (concat (yielded (stream ai_prompt)))
      end
  | None => text_completion p ai_prompt
  end.

(** *** Stubs and requests for the examples *)

(** A provider without streaming operations whose [chat_completion]
    answers from a list, one answer per call, and with the empty string
    once the list is used up. *)
Definition scripted (answers : list pystr) : provider :=
  {| chat_completion := fun n _ => Ok (default [] (answers !! n));
     text_completion := fun _ => Ok (default [] (answers !! O));
     stream_chat_completion := None;
     stream_text_completion := None |}.

(** A provider that streams the given chunks for every request. *)
Definition streaming (parts : list pystr) : provider :=
  {| chat_completion := fun _ _ => Ok (concat parts);
     text_completion := fun _ => Ok (concat parts);
     stream_chat_completion := Some (fun _ => Chunks parts None);
     stream_text_completion := Some (fun _ => Chunks parts None) |}.

(** A provider every operation of which raises. *)
Definition failing (e : exn) : provider :=
  {| chat_completion := fun _ _ => Raise e;
     text_completion := fun _ => Raise e;
     stream_chat_completion := Some (fun _ => Chunks [] (Some e));
     stream_text_completion := Some (fun _ => Chunks [] (Some e)) |}.

(** A short document that validates, and a long one. *)
Definition short_document : pystr := full_document.

Definition long_document : pystr :=
  lit "<!DOCTYPE html>
<html><head><title>Slide</title></head>
<body><h1>{{ page_title }}</h1><p>"
  ++ replicate 2000 120 ++ lit "</p></body></html>".

Definition png : option image :=
  Some {["data" := lit "data:image/png;base64,iVBORw0KGgo=";
         "type" := lit "image/png"]}.

(** Reference images whose data is bare base64: one with its type, one
    without. *)
Definition raw_jpeg : image :=
  {["data" := lit "/9j/4AAQSkZJRg=="; "type" := lit "image/jpeg"]}.

Definition untyped_image : image := {["data" := lit "iVBORw0KGgo="]}.

End Gen.

(* ================================================================== *)
(** ** Style configuration *)
(* ================================================================== *)

Module Style.

(** The sets of the two patterns: [[^c]] and [\s]. *)
Inductive cset := Except (c : N) | Blank.

Definition in_set (k : cset) (x : N) : bool :=
  match k with
  | Except c => negb (x =? c)
  | Blank => isspace x
  end.

(** A literal under IGNORECASE compares the lower-cased subject code
    point with the lower-cased literal; the literals [i] and [s] are
    compiled to the sets of their case forms, which hold U+0131 and
    U+017F as well. *)
Definition same_letter (c x : N) : bool :=
  (tolower x =? tolower c)
  || ((tolower c =? 105) && (x =? 305))
  || ((tolower c =? 115) && (x =? 383)).

(** The items of a pattern: a literal, a greedy [k*] and one code point
    of a set. *)
Inductive item :=
| Chr (c : N)
| Rep (k : cset)
| One (k : cset).

(** Match the pattern at the start of the subject; a repeat tries the
    longest run first and gives code points back one by one. The result
    is the text each item consumed. *)
Fixpoint match_here (p : list item) : pystr -> option (list pystr) :=
  match p with
  | [] => fun _ => Some []
  | Chr c :: p' => fun s =>
      match s with
      | x :: s' =>
          if same_letter c x then cons [x] <$> match_here p' s' else None
      | [] => None
      end
  | One k :: p' => fun s =>
      match s with
      | x :: s' => if in_set k x then cons [x] <$> match_here p' s' else None
      | [] => None
      end
  | Rep k :: p' =>
      fix more (s : pystr) : option (list pystr) :=
        let stop := cons [] <$> match_here p' s in
        match s with
        | x :: s' =>
            if in_set k x then
              match more s' with
              | Some r => Some (push x r)
              | None => stop
              end
            else stop
        | [] => stop
        end
  end.

Definition word (w : string) : list item := map Chr (lit w).

(** [[^:]*:\s*([^;]+)], the tail the two patterns share. Group 1 is the
    text of its last two items. *)
Definition declaration : list item :=
  [Rep (Except 58); Chr 58; Rep Blank; One (Except 59); Rep (Except 59)].

(** [(?:background|color)[^:]*:\s*([^;]+)] as its two alternatives, and
    [font-family[^:]*:\s*([^;]+)]. *)
Definition color_pattern : list (list item) :=
  [word "background" ++ declaration; word "color" ++ declaration].

Definition font_pattern : list (list item) :=
  [word "font-family" ++ declaration].

(** The alternatives of a pattern are tried in order. *)
Fixpoint first_match (alts : list (list item)) (s : pystr)
  : option (list pystr) :=
  match alts with
  | [] => None
  | p :: alts' =>
      match match_here p s with
      | Some segs => Some segs
      | None => first_match alts' s
      end
  end.

(** [m.group(1)] *)
Definition group1 (segs : list pystr) : pystr :=
  concat (drop (length segs - 2) segs).

(** [re.findall] for a pattern with one group: the groups of the
    matches found from left to right, each search starting where the
    match before it ended. No match of the two patterns is empty, so
    every step uses up a code point of the subject and [S (length s)]
    steps are enough. *)
Fixpoint findall_from (fuel : nat) (alts : list (list item)) (s : pystr)
  : list pystr :=
  match fuel with
  | O => []
  | S fuel =>
      match first_match alts s with
      | Some segs =>
          group1 segs
          :: findall_from fuel alts (drop (length (concat segs)) s)
      | None =>
          match s with
          | _ :: s' => findall_from fuel alts s'
          | [] => []
          end
      end
  end.

Definition findall (alts : list (list item)) (s : pystr) : list pystr :=
  findall_from (S (length s)) alts s.

(** The dictionary [_extract_style_config] returns. The keys [colors]
    and [fonts] may be missing; their lists come out of [list(set(...))],
    whose order is not determined, and are sets here. *)
Record style_config := {
  dimensions : pystr;
  aspect_ratio : pystr;
  framework : pystr;
  colors : option (gset pystr);
  fonts : option (gset pystr)
}.

Definition basic_config : style_config :=
  {| dimensions := lit "1280x720";
     aspect_ratio := lit "16:9";
     framework := lit "HTML + CSS";
     colors := None;
     fonts := None |}.

(** [list(set(matches[:n]))] when [matches] is not empty. *)
Definition limited (n : nat) (matches : list pystr) : option (gset pystr) :=
  match matches with
  | [] => None
  | _ :: _ => Some (list_to_set (take n matches))
  end.

(** On an argument that is not a [str], [re.findall] raises [TypeError]
    before anything is stored, and the [except] clause swallows it. *)
Definition _extract_style_config (html_content : pyobj) : style_config :=
  match html_content with
  | PyStr html_content =>
      let color_matches := findall color_pattern html_content in
      let font_matches := findall font_pattern html_content in
      {| dimensions := lit "1280x720";
         aspect_ratio := lit "16:9";
         framework :=
           if contains (lower html_content) (lit "tailwind")
           then lit "Tailwind CSS"
           else if contains (lower html_content) (lit "bootstrap")
           then lit "Bootstrap"
           else lit "HTML + CSS";
         colors := limited 10 color_matches;
         fonts := limited 5 font_matches |}
  | _ => basic_config
  end.

(** [kw] spells the word [w] up to letter case. *)
Definition keyword (w : string) (kw : pystr) : Prop :=
  Forall2 (fun c x => same_letter c x = true) (lit w) kw.

(** The text starts with a declaration for the word [w]: the word, no
    colon up to a colon, and then a code point other than [;]. *)
Definition declares (w : string) (s : pystr) : Prop :=
  exists kw mid c rest,
    s = kw ++ mid ++ 58 :: c :: rest
    /\ keyword w kw /\ (58 ∉ mid) /\ c <> 59.

(** [value] is reported for the word [w]: it follows a declaration of
    the word and white space, is not empty, holds no [;] and runs up to
    the next [;] or to the end of the text. *)
Definition reported (w : string) (s value : pystr) : Prop :=
  exists pre kw mid ws post,
    s = pre ++ kw ++ mid ++ [58] ++ ws ++ value ++ post
    /\ keyword w kw /\ (58 ∉ mid) /\ spaces ws
    /\ value <> [] /\ (59 ∉ value)
    /\ (post = [] \/ exists post', post = 59 :: post').

(** What an item may consume. *)
Definition item_ok (i : item) (seg : pystr) : Prop :=
  match i with
  | Chr c => exists x, seg = [x] /\ same_letter c x = true
  | One k => exists x, seg = [x] /\ in_set k x = true
  | Rep k => Forall (fun x => in_set k x = true) seg
  end.

Definition parses (p : list item) (segs : list pystr) (s : pystr) : Prop :=
  Forall2 item_ok p segs /\ concat segs `prefix_of` s.

(** A style sheet for the examples. *)
Definition sheet : pystr :=
  lit "<style>
body { Background-Color: #fff; color: #333; font-family: Inter, sans-serif }
h1 { color: #333; }
</style><script src='https://cdn.tailwindcss.com'></script>".

End Style.

(* ================================================================== *)
(** ** Facts about strings *)
(* ================================================================== *)

Module TextFacts.

Lemma startswith_prefix (s p : pystr) :
  startswith s p = true <-> p `prefix_of` s.
Proof.
  revert s. induction p as [|c p IH]; intros s; simpl.
  - split; [intros _; apply prefix_nil | done].
  - destruct s as [|x s].
    + split; [done | intros [r Hr]; discriminate Hr].
    + rewrite andb_true_iff, N.eqb_eq, IH. split.
      * intros [-> Hp]. by apply prefix_cons.
      * intros [r Hr]. injection Hr as -> ->. split; [done | by exists r].
Qed.

Lemma contains_occurs (s needle : pystr) :
  contains s needle = true <-> occurs needle s.
Proof.
  induction s as [|x s IH].
  - simpl. rewrite orb_false_r, startswith_prefix. split.
    + intros [r ->]. by exists [], r.
    + intros (a & b & H). destruct a; simpl in *.
      * by exists b.
      * discriminate H.
  - cbn [contains]. rewrite orb_true_iff, startswith_prefix, IH. split.
    + intros [[r ->] | (a & b & ->)].
      * by exists [], r.
      * by exists (x :: a), b.
    + intros (a & b & H). destruct a as [|y a]; simpl in H.
      * left. by exists b.
      * right. injection H as -> ->. by exists a, b.
Qed.

Lemma blank_false (s : pystr) :
  blank s = false <-> s <> [] /\ strip s <> [].
Proof.
  unfold blank. rewrite orb_false_iff, !negb_false_iff.
  split.
  - intros [H1 H2]. split; intros E; rewrite E in *; discriminate.
  - intros [H1 H2]. by destruct s, (strip _).
Qed.

(** *** Trimming *)

Lemma lstrip_spaces (ws s : pystr) :
  Forall (fun x => isspace x = true) ws -> lstrip (ws ++ s) = lstrip s.
Proof. induction 1 as [|x ws Hx _ IH]; simpl; [done | by rewrite Hx]. Qed.

Lemma lstrip_all_spaces (ws : pystr) :
  Forall (fun x => isspace x = true) ws -> lstrip ws = [].
Proof. intros H. rewrite <- (app_nil_r ws). by rewrite lstrip_spaces. Qed.

Lemma lstrip_split (s : pystr) :
  exists ws, Forall (fun x => isspace x = true) ws /\ s = ws ++ lstrip s.
Proof.
  induction s as [|x s (ws & Hws & IH)]; [by exists [] |]. simpl.
  destruct (isspace x) eqn:Hx.
  - exists (x :: ws). split; [by constructor | simpl; by f_equal].
  - by exists [].
Qed.

Lemma lstrip_head (s : pystr) x t :
  lstrip s = x :: t -> isspace x = false.
Proof.
  induction s as [|y s IH]; simpl; [done |].
  destruct (isspace y) eqn:Hy; [done | congruence].
Qed.

Lemma lstrip_keeps (x : N) (t : pystr) :
  isspace x = false -> lstrip (x :: t) = x :: t.
Proof. intros H. simpl. by rewrite H. Qed.

Lemma rstrip_spaces (s ws : pystr) :
  Forall (fun x => isspace x = true) ws -> rstrip (s ++ ws) = rstrip s.
Proof.
  intros H. unfold rstrip. rewrite rev_app_distr, lstrip_spaces; [done |].
  by apply Forall_rev.
Qed.

Lemma rstrip_keeps (s : pystr) (x : N) :
  isspace x = false -> rstrip (s ++ [x]) = s ++ [x].
Proof.
  intros H. unfold rstrip. rewrite rev_app_distr. simpl. rewrite H.
  simpl. by rewrite rev_involutive.
Qed.

Lemma strip_padded (ws1 core ws2 : pystr) :
  Forall (fun x => isspace x = true) ws1 ->
  Forall (fun x => isspace x = true) ws2 ->
  tight core ->
  strip (ws1 ++ core ++ ws2) = core.
Proof.
  intros H1 H2 Hc. unfold strip. rewrite lstrip_spaces by done.
  destruct core as [|x core]; simpl in Hc.
  - simpl. by rewrite lstrip_all_spaces.
  - destruct Hc as (Hx & t & y & E & Hy).
    rewrite <- app_comm_cons, lstrip_keeps by done.
    rewrite app_comm_cons, rstrip_spaces by done.
    rewrite E. by apply rstrip_keeps.
Qed.

(** Every string is a tight core between two runs of white space. *)
Lemma strip_split (s : pystr) :
  exists ws1 core ws2,
    s = ws1 ++ core ++ ws2
    /\ Forall (fun x => isspace x = true) ws1
    /\ Forall (fun x => isspace x = true) ws2
    /\ tight core.
Proof.
  destruct (lstrip_split s) as (ws1 & H1 & E1).
  destruct (lstrip_split (rev (lstrip s))) as (ws2 & H2 & E2).
  exists ws1, (rev (lstrip (rev (lstrip s)))), (rev ws2).
  split_and!; [| done | by apply Forall_rev |].
  - rewrite <- rev_app_distr, <- E2, rev_involutive. exact E1.
  - destruct (lstrip (rev (lstrip s))) as [|y u] eqn:Eu; [done |].
    pose proof (lstrip_head _ _ _ Eu) as Hy.
    assert (Ht : lstrip s = rev u ++ [y] ++ rev ws2).
    { rewrite <- (rev_involutive (lstrip s)), E2, rev_app_distr. simpl.
      by rewrite <- app_assoc. }
    simpl rev. destruct (rev u) as [|x v] eqn:Ev; simpl.
    + split; [done |]. by exists [], y.
    + split; [| by exists (x :: v), y].
      simpl in Ht. by apply (lstrip_head s x _ Ht).
Qed.

Lemma strip_tight (s : pystr) : tight (strip s).
Proof.
  destruct (strip_split s) as (ws1 & core & ws2 & -> & H1 & H2 & Hc).
  by rewrite strip_padded.
Qed.

Lemma strip_of_tight (s : pystr) : tight s -> strip s = s.
Proof.
  intros H. rewrite <- (app_nil_r s) at 1.
  by apply (strip_padded [] s []).
Qed.

Lemma strip_idempotent (s : pystr) : strip (strip s) = strip s.
Proof. apply strip_of_tight, strip_tight. Qed.

Lemma strip_ignores_padding (ws1 s ws2 : pystr) :
  Forall (fun x => isspace x = true) ws1 ->
  Forall (fun x => isspace x = true) ws2 ->
  strip (ws1 ++ s ++ ws2) = strip s.
Proof.
  intros H1 H2.
  destruct (strip_split s) as (v1 & core & v2 & -> & Hv1 & Hv2 & Hc).
  rewrite (strip_padded v1 core v2) by done.
  replace (ws1 ++ (v1 ++ core ++ v2) ++ ws2)
    with ((ws1 ++ v1) ++ core ++ (v2 ++ ws2))
    by (by rewrite <- !app_assoc).
  apply strip_padded; [by apply Forall_app_2 | by apply Forall_app_2 | done].
Qed.

(** *** Lower case and trimming *)

Lemma isspace_cases (x : N) :
  isspace x = true ->
  x <= 32 \/ x = 133 \/ x = 160 \/ x = 5760
  \/ (8192 <= x /\ x <= 8287) \/ x = 12288.
Proof.
  unfold isspace. rewrite !orb_true_iff, !andb_true_iff.
  rewrite !N.eqb_eq, !N.leb_le. lia.
Qed.

Lemma lower_full_space (x : N) : isspace x = true -> lower_full x = [x].
Proof.
  intros H. apply isspace_cases in H. unfold lower_full, tolower.
  assert (x <> 304 /\ ~ (65 <= x /\ x <= 90)) as [H1 H2].
  { split; [| lia]. intros ->. lia. }
  apply N.eqb_neq in H1. rewrite H1.
  destruct ((65 <=? x) && (x <=? 90)) eqn:E.
  { apply andb_true_iff in E as [E1 E2]. apply N.leb_le in E1, E2. lia. }
  destruct (x =? 8490) eqn:E'; [| done].
  apply N.eqb_eq in E'. lia.
Qed.

Lemma tolower_nonspace (x : N) : isspace x = false -> isspace (tolower x) = false.
Proof.
  intros H. unfold tolower.
  destruct ((65 <=? x) && (x <=? 90)) eqn:E.
  - apply andb_true_iff in E as [E1 E2]. apply N.leb_le in E1, E2.
    destruct (isspace (x + 32)) eqn:Hs; [| done].
    apply isspace_cases in Hs. lia.
  - destruct (x =? 304); [done |]. by destruct (x =? 8490).
Qed.

Lemma lower_full_ends (x : N) :
  isspace x = false ->
  exists y t u z,
    lower_full x = y :: t /\ isspace y = false
    /\ lower_full x = u ++ [z] /\ isspace z = false.
Proof.
  intros H. unfold lower_full. destruct (x =? 304).
  - by exists 105, [775], [105], 775.
  - exists (tolower x), [], [], (tolower x).
    split_and!; try done; by apply tolower_nonspace.
Qed.

Lemma lower_app (a b : pystr) : lower (a ++ b) = lower a ++ lower b.
Proof. unfold lower. by rewrite map_app, concat_app. Qed.

Lemma lower_spaces (ws : pystr) :
  Forall (fun x => isspace x = true) ws -> lower ws = ws.
Proof.
  induction 1 as [|x ws Hx _ IH]; [done |].
  change (lower (x :: ws)) with (lower_full x ++ lower ws).
  by rewrite lower_full_space, IH.
Qed.

Lemma lower_tight (s : pystr) : tight s -> tight (lower s).
Proof.
  destruct s as [|x s]; [done |]. intros (Hx & t & y & E & Hy).
  destruct (lower_full_ends x Hx) as (x' & t' & _ & _ & E1 & Hx' & _).
  destruct (lower_full_ends y Hy) as (_ & _ & u & y' & _ & _ & E2 & Hy').
  assert (lower (x :: s) = x' :: t' ++ lower s) as Hhead
    by (change (lower (x :: s)) with (lower_full x ++ lower s);
        by rewrite E1).
  rewrite Hhead. split; [done |].
  exists (lower t ++ u), y'. split; [| done].
  rewrite <- Hhead, E, lower_app.
  change (lower [y]) with (lower_full y ++ []).
  by rewrite app_nil_r, E2, app_assoc.
Qed.

(** Lower-casing and trimming commute. *)
Lemma strip_lower (s : pystr) : strip (lower s) = lower (strip s).
Proof.
  destruct (strip_split s) as (ws1 & core & ws2 & -> & H1 & H2 & Hc).
  rewrite !lower_app, (lower_spaces ws1), (lower_spaces ws2) by done.
  rewrite !strip_padded; try done. by apply lower_tight.
Qed.

Lemma blank_strip (s : pystr) : blank (strip s) = blank s.
Proof.
  unfold blank. rewrite strip_idempotent.
  destruct s as [|x s]; [done |]. simpl.
  by destruct (strip (x :: s)).
Qed.

Lemma contains_single (s : pystr) (c : N) : contains s [c] = false <-> c ∉ s.
Proof.
  split.
  - intros H Hin. apply not_true_iff_false in H. apply H.
    apply contains_occurs.
    apply list_elem_of_split in Hin as (a & b & ->). by exists a, b.
  - intros H. apply not_true_iff_false. intros Hc.
    apply contains_occurs in Hc as (a & b & ->). apply H.
    apply elem_of_app. right. by left.
Qed.

End TextFacts.

(* ================================================================== *)
(** ** Facts about the matcher *)
(* ================================================================== *)

Module ReFacts.

Lemma match_greedy_eq p ic k s :
  match_here (Rep Greedy ic k :: p) s =
  let stop := cons [] <$> match_here p s in
  match s with
  | x :: s' =>
      if cls_ok ic k x then
        match match_here (Rep Greedy ic k :: p) s' with
        | Some r => Some (push x r)
        | None => stop
        end
      else stop
  | [] => stop
  end.
Proof. by destruct s. Qed.

Lemma match_lazy_eq p ic k s :
  match_here (Rep Lazy ic k :: p) s =
  match cons [] <$> match_here p s with
  | Some r => Some r
  | None =>
      match s with
      | x :: s' =>
          if cls_ok ic k x
          then push x <$> match_here (Rep Lazy ic k :: p) s'
          else None
      | [] => None
      end
  end.
Proof. by destruct s. Qed.

Lemma parses_nil s : parses [] [] s.
Proof. split; [constructor | apply prefix_nil]. Qed.

Lemma parses_cons n p seg segs s :
  node_ok n seg -> parses p segs s -> parses (n :: p) (seg :: segs) (seg ++ s).
Proof.
  intros Hn [Hp Hs]. split; [by constructor |].
  simpl. by apply prefix_app.
Qed.

Lemma parses_push g ic k p x r s :
  cls_ok ic k x = true ->
  parses (Rep g ic k :: p) r s ->
  parses (Rep g ic k :: p) (push x r) (x :: s).
Proof.
  intros Hx [Hp Hs]. inversion Hp as [|n seg p' segs Hn Hp']; subst.
  split; simpl.
  - constructor; [by constructor | done].
  - simpl in Hs. by apply prefix_cons.
Qed.

(** Whatever the matcher returns is a way of matching the pattern. *)
Lemma match_here_sound p : forall s segs,
  match_here p s = Some segs -> parses p segs s.
Proof.
  induction p as [|n p IH]; intros s segs H.
  - injection H as <-. apply parses_nil.
  - destruct n as [ic c | g ic k | |].
    + simpl in H. destruct s as [|x s]; [done |].
      destruct (lit_ok ic c x) eqn:Hx; [|done].
      destruct (match_here p s) as [r|] eqn:Hr; [|done].
      injection H as <-.
      apply (parses_cons (Lit ic c) p [x] r s); [by exists x | by apply IH].
    + revert segs H. induction s as [|x s IHs]; intros segs H.
      * assert (cons [] <$> match_here p [] = Some segs) as H'
          by (destruct g; [by rewrite match_greedy_eq in H
                          | rewrite match_lazy_eq in H;
                            by destruct (match_here p [])]).
        destruct (match_here p []) as [r|] eqn:Hr; [|done].
        injection H' as <-.
        apply (parses_cons (Rep g ic k) p [] r []); [constructor | by apply IH].
      * assert (Hstop : forall segs,
                   cons [] <$> match_here p (x :: s) = Some segs ->
                   parses (Rep g ic k :: p) segs (x :: s)).
        { intros segs' H'.
          destruct (match_here p (x :: s)) as [r|] eqn:Hr; [|done].
          injection H' as <-.
          apply (parses_cons (Rep g ic k) p [] r (x :: s));
            [constructor | by apply IH]. }
        destruct g.
        -- rewrite match_greedy_eq in H. cbn zeta in H.
           destruct (cls_ok ic k x) eqn:Hx; [|by apply Hstop].
           destruct (match_here (Rep Greedy ic k :: p) s) as [r|] eqn:Hr.
           ++ injection H as <-. apply parses_push; [done | by apply IHs].
           ++ by apply Hstop.
        -- rewrite match_lazy_eq in H.
           destruct (cons [] <$> match_here p (x :: s)) as [r0|] eqn:H0.
           ++ injection H as <-. by apply Hstop.
           ++ destruct (cls_ok ic k x) eqn:Hx; [|done].
              destruct (match_here (Rep Lazy ic k :: p) s) as [r|] eqn:Hr;
                [|done].
              injection H as <-. apply parses_push; [done | by apply IHs].
    + simpl in H. destruct (match_here p s) as [r|] eqn:Hr; [|done].
      injection H as <-. apply (parses_cons Open p [] r s); [done | by apply IH].
    + simpl in H. destruct (match_here p s) as [r|] eqn:Hr; [|done].
      injection H as <-. apply (parses_cons Close p [] r s); [done | by apply IH].
Qed.

(** A pattern that can be matched at the start of the subject is
    matched: backtracking leaves no alternative out. *)
Lemma match_here_complete p : forall segs s,
  parses p segs s -> is_Some (match_here p s).
Proof.
  induction p as [|n p IH]; intros segs s [Hp Hs]; [done |].
  inversion Hp as [|n' seg p' segs' Hn Hp']; subst. simpl in Hs.
  assert (Htail : forall t, concat segs' `prefix_of` t ->
                            is_Some (match_here p t))
    by (intros t Ht; apply (IH segs'); by split).
  clear Hp IH.
  destruct n as [ic c | g ic k | |]; simpl in Hn.
  - destruct Hn as (x & -> & Hx). destruct Hs as [r ->]. simpl.
    rewrite Hx. apply fmap_is_Some, Htail. by apply prefix_app_r.
  - revert s Hs. induction Hn as [|x seg Hx Hseg IHseg]; intros s Hs.
    + assert (is_Some (cons [] <$> match_here p s)) as [r Hr]
        by (by apply fmap_is_Some, Htail).
      destruct g.
      * rewrite match_greedy_eq. cbn zeta. rewrite Hr.
        destruct s as [|y s]; [done |].
        destruct (cls_ok ic k y); [|done].
        by destruct (match_here (Rep Greedy ic k :: p) s).
      * rewrite match_lazy_eq, Hr. done.
    + destruct Hs as [r ->]. rewrite <- !app_comm_cons.
      assert (is_Some (match_here (Rep g ic k :: p)
                         ((seg ++ concat segs') ++ r))) as [r' Hr']
        by (apply IHseg; by apply prefix_app_r).
      destruct g.
      * rewrite match_greedy_eq. cbn zeta. rewrite Hx, Hr'. done.
      * rewrite match_lazy_eq.
        destruct (cons [] <$> match_here p _); [done |].
        rewrite Hx, Hr'. done.
  - subst seg. simpl. apply fmap_is_Some, (Htail s Hs).
  - subst seg. simpl. apply fmap_is_Some, (Htail s Hs).
Qed.

(** [search] returns a match of the pattern in the subject. *)
Lemma search_sound p : forall s pre segs,
  search p s = Some (pre, segs) ->
  exists rest, s = pre ++ rest /\ parses p segs rest.
Proof.
  induction s as [|x s IH]; intros pre segs H; simpl in H.
  - destruct (match_here p []) as [r|] eqn:Hr; [|done].
    injection H as <- <-. exists []. split; [done | by apply match_here_sound].
  - destruct (match_here p (x :: s)) as [r|] eqn:Hr.
    + injection H as <- <-. exists (x :: s).
      split; [done | by apply match_here_sound].
    + destruct (search p s) as [[pre' segs']|] eqn:Hs; [|done].
      injection H as <- <-.
      destruct (IH pre' segs' eq_refl) as (rest & -> & Hp).
      by exists rest.
Qed.

(** [search] finds a match whenever the pattern matches somewhere. *)
Lemma search_complete p : forall pre rest segs,
  parses p segs rest -> is_Some (search p (pre ++ rest)).
Proof.
  intros pre rest segs Hp.
  assert (H0 : is_Some (search p rest)).
  { destruct (match_here_complete p segs rest Hp) as [r Hr].
    destruct rest; simpl; by rewrite Hr. }
  induction pre as [|x pre IH]; [done |].
  simpl. destruct (match_here p (x :: pre ++ rest)); [done |].
  by apply fmap_is_Some.
Qed.

(** A pattern that matches nowhere makes [search] fail. *)
Lemma search_none p s :
  (forall pre rest segs, s = pre ++ rest -> ~ parses p segs rest) ->
  search p s = None.
Proof.
  intros H. destruct (search p s) as [[pre segs]|] eqn:Hs; [|done].
  destruct (search_sound p s pre segs Hs) as (rest & -> & Hp).
  by destruct (H pre rest segs eq_refl).
Qed.

(** *** Literal runs *)

Lemma concat_singletons w : concat (singletons w) = w.
Proof. induction w as [|x w IH]; simpl; by rewrite ?IH. Qed.

Lemma lits_parse ic w segs :
  Forall2 node_ok (lits ic w) segs <->
  exists w', segs = singletons w'
             /\ Forall2 (fun c x => lit_ok ic c x = true) w w'.
Proof.
  revert segs. induction w as [|c w IH]; intros segs; simpl.
  - split.
    + intros H. inversion H. by exists [].
    + intros (w' & -> & H). inversion H. constructor.
  - split.
    + intros H. inversion H as [|n seg p segs' Hn Hrest]; subst.
      simpl in Hn. destruct Hn as (x & -> & Hx).
      apply IH in Hrest as (w' & -> & Hw).
      exists (x :: w'). split; [done | by constructor].
    + intros (w' & -> & H).
      inversion H as [|c' x w0 w'' Hx Hrest]; subst. simpl.
      constructor; [by exists x |]. apply IH. by exists w''.
Qed.

Lemma exact_literal w w' :
  Forall2 (fun c x => lit_ok false c x = true) w w' <-> w' = w.
Proof.
  split.
  - induction 1 as [|c x w w' Hx _ IH]; [done |].
    simpl in Hx. apply N.eqb_eq in Hx. by subst.
  - intros ->. induction w; constructor; [apply N.eqb_refl | done].
Qed.

Lemma Forall2_lit_length ic w w' :
  Forall2 (fun c x => lit_ok ic c x = true) w w' -> length w' = length w.
Proof. intros H. symmetry. by apply Forall2_length in H. Qed.

Lemma uncased_literal w w' :
  Forall uncased w ->
  Forall2 (fun c x => lit_ok true c x = true) w w' -> w' = w.
Proof.
  intros Hw H. induction H as [|c x w w' Hx _ IH]; [done |].
  inversion Hw as [|c' w0 Hc Hw']; subst.
  rewrite (Hc x Hx). f_equal. by apply IH.
Qed.

Lemma backtick_uncased : uncased 96.
Proof.
  intros x. unfold lit_ok, tolower.
  change ((65 <=? 96) && (96 <=? 90)) with false. cbn match.
  change (96 =? 304) with false. change (96 =? 8490) with false. cbn match.
  destruct ((65 <=? x) && (x <=? 90)) eqn:E1.
  - apply andb_true_iff in E1 as [E1 E2].
    apply N.leb_le in E1, E2. rewrite N.eqb_eq. lia.
  - destruct (x =? 304); [done |].
    destruct (x =? 8490); [done |]. by rewrite N.eqb_eq.
Qed.

(** *** Groups *)

Lemma upto_close_lits ic w w' p segs :
  length w' = length w ->
  upto_close (lits ic w ++ p) (singletons w' ++ segs)
  = w' ++ upto_close p segs.
Proof.
  revert w'. induction w as [|c w IH]; intros [|x w'] Hl; try done.
  simpl. f_equal. apply IH. simpl in Hl. lia.
Qed.

Lemma group1_lits ic w w' p segs :
  length w' = length w ->
  group1 (lits ic w ++ p) (singletons w' ++ segs) = group1 p segs.
Proof.
  revert w'. induction w as [|c w IH]; intros [|x w'] Hl; try done.
  simpl. apply IH. simpl in Hl. lia.
Qed.

(** *** The order in which matches are tried *)

(** The segments after the first are a match of the rest of the pattern
    where the first segment ends. *)
Lemma match_here_tail n p : forall s segs,
  match_here (n :: p) s = Some segs ->
  exists seg r rest,
    segs = seg :: r /\ s = seg ++ rest /\ match_here p rest = Some r.
Proof.
  assert (Hstop : forall s segs,
             cons [] <$> match_here p s = Some segs ->
             exists seg r rest,
               segs = seg :: r /\ s = seg ++ rest
               /\ match_here p rest = Some r).
  { intros s segs H. destruct (match_here p s) as [r|] eqn:Hr; [|done].
    injection H as <-. by exists [], r, s. }
  assert (Hpush : forall x s segs,
             (exists seg r rest,
                 segs = seg :: r /\ s = seg ++ rest
                 /\ match_here p rest = Some r) ->
             exists seg r rest,
               push x segs = seg :: r /\ x :: s = seg ++ rest
               /\ match_here p rest = Some r).
  { intros x s segs (seg & r & rest & -> & -> & Hr).
    by exists (x :: seg), r, rest. }
  destruct n as [ic c | g ic k | |]; intros s segs H.
  - simpl in H. destruct s as [|x s]; [done |].
    destruct (lit_ok ic c x); [|done].
    destruct (match_here p s) as [r|] eqn:Hr; [|done].
    injection H as <-. by exists [x], r, s.
  - revert segs H. induction s as [|x s IHs]; intros segs H.
    + apply Hstop. destruct g.
      * by rewrite match_greedy_eq in H.
      * rewrite match_lazy_eq in H. by destruct (cons [] <$> match_here p []).
    + destruct g.
      * rewrite match_greedy_eq in H. cbn zeta in H.
        destruct (cls_ok ic k x); [| by apply Hstop].
        destruct (match_here (Rep Greedy ic k :: p) s) as [r|] eqn:Hr;
          [| by apply Hstop].
        injection H as <-. by apply Hpush, IHs.
      * rewrite match_lazy_eq in H.
        destruct (cons [] <$> match_here p (x :: s)) as [r0|] eqn:H0.
        -- injection H as <-. by apply Hstop.
        -- destruct (cls_ok ic k x); [|done].
           destruct (match_here (Rep Lazy ic k :: p) s) as [r|] eqn:Hr;
             [|done].
           injection H as <-. by apply Hpush, IHs.
  - by apply Hstop.
  - by apply Hstop.
Qed.

Lemma match_here_split p1 p2 : forall s segs,
  match_here (p1 ++ p2) s = Some segs ->
  exists segs1 segs2 rest,
    segs = segs1 ++ segs2 /\ length segs1 = length p1
    /\ s = concat segs1 ++ rest /\ match_here p2 rest = Some segs2.
Proof.
  induction p1 as [|n p1 IH]; intros s segs H.
  - by exists [], segs, s.
  - apply match_here_tail in H as (seg & r & rest & -> & -> & Hr).
    apply IH in Hr as (segs1 & segs2 & rest' & -> & Hl & -> & H2).
    exists (seg :: segs1), segs2, rest'. simpl.
    split_and!; [done | by rewrite Hl | by rewrite <- app_assoc | done].
Qed.

(** A lazy repeat stops at the first position where the rest of the
    pattern matches. *)
Lemma lazy_shortest ic k p : forall s seg r,
  match_here (Rep Lazy ic k :: p) s = Some (seg :: r) ->
  forall i, (i < length seg)%nat -> match_here p (drop i s) = None.
Proof.
  induction s as [|x s IH]; intros seg r H i Hi.
  - rewrite match_lazy_eq in H.
    destruct (match_here p []) as [r0|]; simpl in H; [| done].
    injection H as <- <-. simpl in Hi. lia.
  - rewrite match_lazy_eq in H.
    destruct (match_here p (x :: s)) as [r0|] eqn:H0;
      [simpl in H; injection H as <- <-; simpl in Hi; lia |].
    destruct (cls_ok ic k x); [| done].
    destruct (match_here (Rep Lazy ic k :: p) s) as [r1|] eqn:Hr; [| done].
    destruct (match_here_tail _ _ _ _ Hr) as (seg1 & r2 & rest & -> & _).
    cbn in H. injection H as <- <-.
    destruct i as [|i]; [done |].
    simpl. apply (IH seg1 r2 eq_refl). simpl in Hi. lia.
Qed.

(** [search] returns the match itself, and no match starts earlier. *)
Lemma search_found p : forall s pre segs,
  search p s = Some (pre, segs) ->
  exists rest, s = pre ++ rest /\ match_here p rest = Some segs.
Proof.
  induction s as [|x s IH]; intros pre segs H; simpl in H.
  - destruct (match_here p []) as [r|] eqn:Hr; [|done].
    injection H as <- <-. by exists [].
  - destruct (match_here p (x :: s)) as [r|] eqn:Hr.
    + injection H as <- <-. by exists (x :: s).
    + destruct (search p s) as [[pre' segs']|] eqn:Hs; [|done].
      injection H as <- <-.
      destruct (IH pre' segs' eq_refl) as (rest & -> & Hp).
      by exists rest.
Qed.

Lemma search_leftmost p : forall s pre segs,
  search p s = Some (pre, segs) ->
  forall i, (i < length pre)%nat -> match_here p (drop i s) = None.
Proof.
  induction s as [|x s IH]; intros pre segs H i Hi; simpl in H.
  - destruct (match_here p []) as [r|] eqn:Hr; [|done].
    injection H as <- <-. simpl in Hi. lia.
  - destruct (match_here p (x :: s)) as [r|] eqn:Hr.
    + injection H as <- <-. simpl in Hi. lia.
    + destruct (search p s) as [[pre' segs']|] eqn:Hs; [|done].
      injection H as <- <-. destruct i as [|i]; [done |].
      simpl. apply (IH pre' segs' eq_refl). simpl in Hi. lia.
Qed.

Lemma uncased_below (c : N) : c < 65 -> uncased c.
Proof.
  intros Hc x. unfold lit_ok, tolower.
  assert ((65 <=? c) && (c <=? 90) = false) as ->
    by (apply andb_false_iff; left; apply N.leb_gt; lia).
  assert ((c =? 304) = false) as -> by (apply N.eqb_neq; lia).
  assert ((c =? 8490) = false) as -> by (apply N.eqb_neq; lia).
  destruct ((65 <=? x) && (x <=? 90)) eqn:E1.
  - apply andb_true_iff in E1 as [E1 E2].
    apply N.leb_le in E1, E2. rewrite N.eqb_eq. lia.
  - destruct (x =? 304); [rewrite N.eqb_eq; lia |].
    destruct (x =? 8490); [rewrite N.eqb_eq; lia |]. by rewrite N.eqb_eq.
Qed.

End ReFacts.

(* ================================================================== *)
(** ** Facts about the three patterns *)
(* ================================================================== *)

Module HtmlFacts.
Import ReFacts TextFacts.

Ltac split_nodes H :=
  repeat match type of H with
         | Forall2 node_ok (_ :: _) _ =>
             let seg := fresh "seg" in
             let k := fresh "k" in
             let Hn := fresh "Hn" in
             apply Forall2_cons_inv_l in H as (seg & k & Hn & H & ->);
             simpl in Hn
         | Forall2 node_ok [] _ => apply Forall2_nil_inv_l in H as ->
         end.

Lemma fenced_matches (w1 w3 rest g : pystr) :
  (exists segs,
      parses (lits false w1
              ++ [Rep Greedy false Space; Open; Rep Lazy false Dot; Close;
                  Rep Greedy false Space]
              ++ lits false w3) segs rest
      /\ group1 (lits false w1
                 ++ [Rep Greedy false Space; Open; Rep Lazy false Dot; Close;
                     Rep Greedy false Space]
                 ++ lits false w3) segs = g)
  <->
  (exists ws1 ws2 post,
      rest = w1 ++ ws1 ++ g ++ ws2 ++ w3 ++ post
      /\ spaces ws1 /\ spaces ws2).
Proof.
  split.
  - intros (segs & [Hf [post ->]] & <-).
    apply Forall2_app_inv_l in Hf as (k1 & k' & H1 & H' & ->).
    apply Forall2_app_inv_l in H' as (k2 & k3 & H2 & H3 & ->).
    apply lits_parse in H1 as (w1' & -> & H1).
    apply lits_parse in H3 as (w3' & -> & H3).
    apply exact_literal in H1 as ->. apply exact_literal in H3 as ->.
    split_nodes H2. subst.
    rewrite group1_lits by done. simpl.
    exists seg, seg3, post. rewrite app_nil_r.
    rewrite !concat_app, !concat_singletons. simpl.
    rewrite !concat_singletons, <- !app_assoc. done.
  - intros (ws1 & ws2 & post & -> & Hw1 & Hw2).
    exists (singletons w1 ++ [ws1; []; g; []; ws2] ++ singletons w3).
    split; [split |].
    + apply Forall2_app; [apply lits_parse; eexists; split;
                           [done | by apply exact_literal] |].
      apply Forall2_app; [| apply lits_parse; eexists; split;
                             [done | by apply exact_literal]].
      repeat constructor; simpl; try done. by apply Forall_true.
    + exists post. rewrite !concat_app, !concat_singletons. simpl.
      rewrite ?concat_singletons, <- ?app_assoc. done.
    + rewrite group1_lits by done. simpl. by rewrite app_nil_r.
Qed.

(** The matches of the first pattern are the fenced blocks tagged
    [html], and group 1 is the content between the two runs of white
    space. *)
Lemma html_block_matches rest g :
  (exists segs, parses html_block segs rest /\ group1 html_block segs = g)
  <->
  (exists ws1 ws2 post,
      rest = lit "```html" ++ ws1 ++ g ++ ws2 ++ lit "```" ++ post
      /\ spaces ws1 /\ spaces ws2).
Proof. apply fenced_matches. Qed.

Lemma html_fence_matches text g :
  html_fence text g <->
  exists pre rest segs,
    text = pre ++ rest /\ parses html_block segs rest
    /\ group1 html_block segs = g.
Proof.
  split.
  - intros (pre & ws1 & ws2 & post & -> & Hw1 & Hw2).
    destruct (proj2 (html_block_matches
                (lit "```html" ++ ws1 ++ g ++ ws2 ++ lit "```" ++ post) g))
      as (segs & Hp & Hg); [by exists ws1, ws2, post |].
    exists pre. eexists. exists segs. done.
  - intros (pre & rest & segs & -> & Hp & Hg).
    destruct (proj1 (html_block_matches rest g))
      as (ws1 & ws2 & post & -> & Hw1 & Hw2); [by exists segs |].
    by exists pre, ws1, ws2, post.
Qed.

Ltac flatten :=
  repeat first [rewrite concat_app | rewrite concat_cons
               | rewrite concat_singletons | rewrite concat_nil];
  rewrite ?app_nil_r, ?app_nil_l, <- ?app_assoc; simpl.

Lemma spanned_matches (wa wb rest d : pystr) :
  (exists segs,
      parses (lits true wa ++ [Rep Lazy true Dot] ++ lits true wb) segs rest
      /\ group0 segs = d)
  <->
  (exists post, rest = d ++ post /\ span wa wb d).
Proof.
  unfold group0. split.
  - intros (segs & [Hf [post ->]] & <-).
    apply Forall2_app_inv_l in Hf as (k1 & k' & H1 & H' & ->).
    apply Forall2_app_inv_l in H' as (k2 & k3 & H2 & H3 & ->).
    apply lits_parse in H1 as (a & -> & H1).
    apply lits_parse in H3 as (b & -> & H3).
    split_nodes H2. exists post. split; [done |].
    exists a, seg, b. split; [| done].
    rewrite !concat_app, !concat_singletons. simpl. by rewrite app_nil_r.
  - intros (post & -> & a & mid & b & -> & Ha & Hb).
    exists (singletons a ++ [mid] ++ singletons b). split; [split |].
    + apply Forall2_app; [apply lits_parse; by exists a |].
      apply Forall2_app; [| apply lits_parse; by exists b].
      repeat constructor. by apply Forall_true.
    + exists post. rewrite !concat_app, !concat_singletons. simpl.
      by rewrite app_nil_r.
    + rewrite !concat_app, !concat_singletons. simpl. by rewrite app_nil_r.
Qed.

Lemma wrapped_matches (w0 wa wb w3 rest d : pystr) :
  let p := lits true w0
           ++ [Rep Greedy true Alpha; Rep Greedy true Space; Open]
           ++ lits true wa ++ [Rep Lazy true Dot] ++ lits true wb
           ++ [Close; Rep Greedy true Space] ++ lits true w3 in
  (exists segs, parses p segs rest /\ group1 p segs = d)
  <->
  (exists f0 tag ws1 ws2 f3 post,
      rest = f0 ++ tag ++ ws1 ++ d ++ ws2 ++ f3 ++ post
      /\ caseless w0 f0 /\ caseless w3 f3
      /\ Forall (fun x => cls_ok true Alpha x = true) tag
      /\ spaces ws1 /\ spaces ws2 /\ span wa wb d).
Proof.
  intros p. subst p. split.
  - intros (segs & [Hf [post ->]] & <-).
    apply Forall2_app_inv_l in Hf as (k0 & r0 & H0 & Hf & ->).
    apply Forall2_app_inv_l in Hf as (k1 & r1 & H1 & Hf & ->).
    apply Forall2_app_inv_l in Hf as (ka & ra & Ha & Hf & ->).
    apply Forall2_app_inv_l in Hf as (k2 & r2 & H2 & Hf & ->).
    apply Forall2_app_inv_l in Hf as (kb & rb & Hb & Hf & ->).
    apply Forall2_app_inv_l in Hf as (k3 & r3 & H3 & Hf & ->).
    apply lits_parse in H0 as (f0 & -> & H0).
    apply lits_parse in Ha as (a & -> & Ha).
    apply lits_parse in Hb as (b & -> & Hb).
    apply lits_parse in Hf as (f3 & -> & Hf).
    split_nodes H1. split_nodes H2. split_nodes H3. subst.
    rewrite group1_lits by (by eapply Forall2_lit_length).
    cbn [app group1].
    rewrite upto_close_lits by (by eapply Forall2_lit_length).
    cbn [app upto_close].
    rewrite upto_close_lits by (by eapply Forall2_lit_length).
    cbn [app upto_close].
    exists f0, seg, seg0, seg4, f3, post.
    split; [| split_and!; try done; by exists a, seg2, b; rewrite app_nil_r].
    flatten. done.
  - intros (f0 & tag & ws1 & ws2 & f3 & post & -> & H0 & H3 & Ht & Hw1 & Hw2
            & a & mid & b & -> & Ha & Hb).
    exists (singletons f0 ++ [tag; ws1; []] ++ singletons a ++ [mid]
            ++ singletons b ++ [[]; ws2] ++ singletons f3).
    split; [split |].
    + repeat (apply Forall2_app;
              [first [apply lits_parse; eexists; split; [done | eassumption]
                     | repeat constructor; simpl; try done;
                       by apply Forall_true] |]).
      apply lits_parse. by exists f3.
    + exists post. flatten. done.
    + rewrite group1_lits by (by eapply Forall2_lit_length).
      cbn [app group1].
      rewrite upto_close_lits by (by eapply Forall2_lit_length).
      cbn [app upto_close].
      rewrite upto_close_lits by (by eapply Forall2_lit_length).
      cbn [app upto_close]. by rewrite app_nil_r.
Qed.

Lemma fence_uncased : Forall uncased (lit "```").
Proof. repeat constructor; apply backtick_uncased. Qed.

Lemma doc_span_span d :
  doc_span d <-> span (lit "<!DOCTYPE html") (lit "</html>") d.
Proof. done. Qed.

(** The matches of the second pattern are the document spans that fill
    a fenced block, and group 1 is the span. *)
Lemma code_fence_matches text d :
  code_fence text d <->
  exists pre rest segs,
    text = pre ++ rest /\ parses code_block segs rest
    /\ group1 code_block segs = d.
Proof.
  split.
  - intros (pre & tag & ws1 & ws2 & post & -> & Ht & Hw1 & Hw2 & Hd).
    edestruct (proj2 (wrapped_matches (lit "```") (lit "<!DOCTYPE html")
                        (lit "</html>") (lit "```")
                        (lit "```" ++ tag ++ ws1 ++ d ++ ws2
                         ++ lit "```" ++ post) d))
      as (segs & Hp & Hg).
    { exists (lit "```"), tag, ws1, ws2, (lit "```"), post.
      split_and!; try done;
        (apply Forall2_same_length_lookup_2; [done |]; intros i x y Hx Hy;
         assert (x = y) as -> by congruence; apply N.eqb_refl). }
    exists pre. eexists. exists segs. done.
  - intros (pre & rest & segs & -> & Hp & Hg).
    edestruct (proj1 (wrapped_matches (lit "```") (lit "<!DOCTYPE html")
                        (lit "</html>") (lit "```") rest d))
      as (f0 & tag & ws1 & ws2 & f3 & post & -> & H0 & H3 & Ht & Hw1 & Hw2
          & Hd); [by exists segs |].
    apply (uncased_literal _ _ fence_uncased) in H0 as ->.
    apply (uncased_literal _ _ fence_uncased) in H3 as ->.
    by exists pre, tag, ws1, ws2, post.
Qed.

(** The matches of the third pattern are the document spans, and group 0
    is the span. *)
Lemma bare_doc_matches text d :
  bare_doc text d <->
  exists pre rest segs,
    text = pre ++ rest /\ parses doctype segs rest /\ group0 segs = d.
Proof.
  split.
  - intros (pre & post & -> & Hd).
    edestruct (proj2 (spanned_matches (lit "<!DOCTYPE html") (lit "</html>")
                        (d ++ post) d)) as (segs & Hp & Hg);
      [by exists post |].
    exists pre. eexists. exists segs. done.
  - intros (pre & rest & segs & -> & Hp & Hg).
    edestruct (proj1 (spanned_matches (lit "<!DOCTYPE html") (lit "</html>")
                        rest d)) as (post & -> & Hd); [by exists segs |].
    by exists pre, post.
Qed.

(** What [re.search] answers for each pattern, in the words of the
    specification. *)
Lemma html_fence_search text :
  (exists g, html_fence text g) <-> is_Some (search html_block text).
Proof.
  split.
  - intros (g & Hg). apply html_fence_matches in Hg
      as (pre & rest & segs & -> & Hp & _). by eapply search_complete.
  - intros [[pre segs] Hs]. apply search_sound in Hs as (rest & -> & Hp).
    exists (group1 html_block segs). apply html_fence_matches.
    by exists pre, rest, segs.
Qed.

Lemma code_fence_search text :
  (exists d, code_fence text d) <-> is_Some (search code_block text).
Proof.
  split.
  - intros (d & Hd). apply code_fence_matches in Hd
      as (pre & rest & segs & -> & Hp & _). by eapply search_complete.
  - intros [[pre segs] Hs]. apply search_sound in Hs as (rest & -> & Hp).
    exists (group1 code_block segs). apply code_fence_matches.
    by exists pre, rest, segs.
Qed.

Lemma bare_doc_search text :
  (exists d, bare_doc text d) <-> is_Some (search doctype text).
Proof.
  split.
  - intros (d & Hd). apply bare_doc_matches in Hd
      as (pre & rest & segs & -> & Hp & _). by eapply search_complete.
  - intros [[pre segs] Hs]. apply search_sound in Hs as (rest & -> & Hp).
    exists (group0 segs). apply bare_doc_matches.
    by exists pre, rest, segs.
Qed.

(** C3. [_extract_html_from_response] is a total function, so it never
    raises, and it tries its layers in a fixed order, the first that
    applies deciding the result: (1) when the text has a fenced block
    tagged [html], the result is the trimmed content of such a block;
    (2) otherwise, when a fenced block is filled by a span from
    [<!DOCTYPE html] to [</html>] in any letter case, the result is such
    a span, trimmed; (3) otherwise, when the text has such a span
    anywhere, the result is such a span, trimmed; (4, 5) otherwise the
    result is the trimmed text, whether or not it starts with
    [<!doctype html] and ends with [</html>]. *)
Theorem extract_html_layers (text : pystr) :
  ((exists g, html_fence text g) ->
   exists g, html_fence text g
             /\ _extract_html_from_response text = strip g)
  /\ (~ (exists g, html_fence text g) ->
      (exists d, code_fence text d) ->
      exists d, code_fence text d
                /\ _extract_html_from_response text = strip d)
  /\ (~ (exists g, html_fence text g) ->
      ~ (exists d, code_fence text d) ->
      (exists d, bare_doc text d) ->
      exists d, bare_doc text d
                /\ _extract_html_from_response text = strip d)
  /\ (~ (exists g, html_fence text g) ->
      ~ (exists d, code_fence text d) ->
      ~ (exists d, bare_doc text d) ->
      _extract_html_from_response text = strip text
      /\ (startswith (lower (strip text)) (lit "<!doctype html")
          && endswith (lower (strip text)) (lit "</html>") = true ->
          _extract_html_from_response text = strip text)).
Proof.
  rewrite html_fence_search, code_fence_search, bare_doc_search.
  unfold _extract_html_from_response.
  destruct (search html_block text) as [[pre1 m1]|] eqn:H1.
  { split_and!; try (intros []; by eauto).
    intros _. apply search_sound in H1 as (rest & -> & Hp).
    exists (group1 html_block m1). split; [| done].
    apply html_fence_matches. by exists pre1, rest, m1. }
  destruct (search code_block text) as [[pre2 m2]|] eqn:H2.
  { split_and!; try (by intros [? ?]); try (intros ? []; by eauto).
    intros _ _. apply search_sound in H2 as (rest & -> & Hp).
    exists (group1 code_block m2). split; [| done].
    apply code_fence_matches. by exists pre2, rest, m2. }
  destruct (search doctype text) as [[pre3 m3]|] eqn:H3.
  { split_and!; try (by intros [? ?]); try (by intros ? [? ?]);
      try (intros ? ? []; by eauto).
    intros _ _ _. apply search_sound in H3 as (rest & -> & Hp).
    exists (group0 m3). split; [| done].
    apply bare_doc_matches. by exists pre3, rest, m3. }
  split_and!; try (by intros [? ?]); try (by intros ? [? ?]);
    try (by intros ? ? [? ?]).
  intros _ _ _. cbn zeta. split; [| intros _]; by destruct (_ && _).
Qed.

Ltac found := eexists; vm_compute; reflexivity.
Ltac not_found :=
  let x := fresh in let H := fresh in
  intros [x H]; vm_compute in H; discriminate H.

Lemma extract_html_layers_witness :
  (exists g, html_fence (lit "Here: ```html
<p>hi</p>
``` Done.") g
     /\ _extract_html_from_response (lit "Here: ```html
<p>hi</p>
``` Done.") = strip g)
  /\ (exists d, code_fence (lit "```xml <!DOCTYPE html><HTML></HTML> ```") d
      /\ _extract_html_from_response
           (lit "```xml <!DOCTYPE html><HTML></HTML> ```") = strip d)
  /\ (exists d, bare_doc (lit "so: <!doctype html><html></html> ok") d
      /\ _extract_html_from_response
           (lit "so: <!doctype html><html></html> ok") = strip d)
  /\ _extract_html_from_response (lit "  no markup here ")
     = strip (lit "  no markup here ").
Proof.
  split_and!.
  - apply (proj1 (extract_html_layers _)).
    apply html_fence_search. found.
  - apply (proj1 (proj2 (extract_html_layers _))).
    + rewrite html_fence_search. not_found.
    + apply code_fence_search. found.
  - apply (proj1 (proj2 (proj2 (extract_html_layers _)))).
    + rewrite html_fence_search. not_found.
    + rewrite code_fence_search. not_found.
    + apply bare_doc_search. found.
  - refine (proj1 (proj2 (proj2 (proj2 (extract_html_layers _))) _ _ _)).
    + rewrite html_fence_search. not_found.
    + rewrite code_fence_search. not_found.
    + rewrite bare_doc_search. not_found.
Defined.

(** C4. [_validate_html_template] answers true exactly for a candidate
    that is neither empty nor blank and whose lower-cased, trimmed text
    starts with [<!doctype html] and contains [</html>], [<head],
    [<body] and [<title]; it rejects the empty string and a full
    document without a title, accepts a full document, and answers
    false when a check raises. *)
Theorem validate_html_template_spec :
  (forall s : pystr,
      _validate_html_template (PyStr s) = true <->
      s <> [] /\ strip s <> []
      /\ lit "<!doctype html" `prefix_of` strip (lower s)
      /\ occurs (lit "</html>") (strip (lower s))
      /\ occurs (lit "<head") (strip (lower s))
      /\ occurs (lit "<body") (strip (lower s))
      /\ occurs (lit "<title") (strip (lower s)))
  /\ _validate_html_template (PyStr []) = false
  /\ _validate_html_template (PyStr untitled_document) = false
  /\ _validate_html_template (PyStr full_document) = true
  /\ (forall h e, validate_checks h = Raise e ->
                  _validate_html_template h = false)
  /\ (exists h e, validate_checks h = Raise e).
Proof.
  split_and!; [| calc | calc | calc | |].
  - intros s. unfold _validate_html_template, validate_checks.
    rewrite <- startswith_prefix, <- !contains_occurs.
    destruct (blank s) eqn:Hb.
    { split; [done |]. intros (H1 & H2 & _).
      assert (blank s = false) by (by apply blank_false). congruence. }
    apply blank_false in Hb as [H1 H2].
    destruct (startswith _ _); simpl; [| intuition congruence].
    destruct (contains _ (lit "</html>")); simpl; [| intuition congruence].
    destruct (contains _ (lit "<head")), (contains _ (lit "<body")),
      (contains _ (lit "<title")); simpl; intuition congruence.
  - intros h e H. unfold _validate_html_template. by rewrite H.
  - exists (PyInt 7). eexists. reflexivity.
Qed.

(** *** Which block the first pattern returns *)

(** What the matcher returns for a fenced pattern: the content is the
    shortest that a closing fence can follow. *)
Lemma fenced_shortest (w1 w3 rest : pystr) (segs : list pystr) :
  let p := lits false w1
           ++ [Rep Greedy false Space; Open; Rep Lazy false Dot; Close;
               Rep Greedy false Space]
           ++ lits false w3 in
  match_here p rest = Some segs ->
  exists ws1 g ws2 post,
    rest = w1 ++ ws1 ++ g ++ ws2 ++ w3 ++ post
    /\ spaces ws1 /\ spaces ws2 /\ group1 p segs = g
    /\ forall i ws post',
        (i < length g)%nat -> spaces ws ->
        drop i (g ++ ws2 ++ w3 ++ post) <> ws ++ w3 ++ post'.
Proof.
  intros p Hm. subst p.
  pose proof (match_here_sound _ _ _ Hm) as [Hf _].
  replace (lits false w1
           ++ [Rep Greedy false Space; Open; Rep Lazy false Dot; Close;
               Rep Greedy false Space] ++ lits false w3)
    with ((lits false w1 ++ [Rep Greedy false Space; Open])
          ++ Rep Lazy false Dot
             :: ([Close; Rep Greedy false Space] ++ lits false w3)) in Hm
    by (by rewrite <- app_assoc).
  apply match_here_split in Hm as (segs1 & segs2 & rest2 & -> & Hl & -> & Hm).
  pose proof (match_here_tail _ _ _ _ Hm) as (g & r & rest3 & -> & -> & Hr).
  pose proof (lazy_shortest _ _ _ _ _ _ Hm) as Hmin.
  replace (lits false w1
           ++ [Rep Greedy false Space; Open; Rep Lazy false Dot; Close;
               Rep Greedy false Space] ++ lits false w3)
    with ((lits false w1 ++ [Rep Greedy false Space; Open])
          ++ Rep Lazy false Dot
             :: ([Close; Rep Greedy false Space] ++ lits false w3)) in Hf
    by (by rewrite <- app_assoc).
  apply Forall2_app_inv in Hf as [H1 H2]; [| done].
  apply Forall2_app_inv_l in H1 as (k1 & k2 & H1 & H12 & ->).
  apply lits_parse in H1 as (w1' & -> & H1). apply exact_literal in H1 as ->.
  split_nodes H12.
  apply Forall2_cons_1 in H2 as [_ H2].
  apply Forall2_app_inv_l in H2 as (k3 & k4 & H2 & H3 & ->).
  apply lits_parse in H3 as (w3' & -> & H3). apply exact_literal in H3 as ->.
  split_nodes H2. subst.
  pose proof (match_here_sound _ _ _ Hr) as [_ [post Hpost]].
  revert Hpost. flatten. intros ->.
  exists seg, g, seg2, post. split_and!; try done.
  - rewrite group1_lits by done. simpl. by rewrite app_nil_r.
  - intros i ws post' Hi Hws E.
    specialize (Hmin i Hi). rewrite E in Hmin.
    destruct (match_here_complete
                ([Close; Rep Greedy false Space] ++ lits false w3)
                ([[]; ws] ++ singletons w3) (ws ++ w3 ++ post'))
      as [x Hx]; [| congruence].
    split.
    + apply Forall2_app; [by repeat constructor |].
      apply lits_parse. eexists. split; [done | by apply exact_literal].
    + exists post'. flatten. done.
Qed.

(** Two ways of cutting one string at a backtick that the part before
    does not contain agree. *)
Lemma cut_at_first (c : N) (a a' b b' : pystr) :
  a ++ c :: b = a' ++ c :: b' -> c ∉ a ->
  (length a <= length a')%nat.
Proof.
  intros E Ha. destruct (decide (length a' < length a)%nat) as [Hlt|]; [| lia].
  exfalso. apply Ha.
  assert ((a ++ c :: b) !! length a' = Some c) as H
    by (rewrite E; apply list_lookup_middle; done).
  rewrite lookup_app_l in H by done.
  by apply list_elem_of_lookup_2 in H.
Qed.

(** In a text whose first backtick opens a fenced block tagged [html],
    with no backtick inside the block, the first pattern matches at that
    fence and its group is the content of the block, up to white space
    at both ends. *)
Lemma first_fence_found (pre body post : pystr) :
  96 ∉ pre -> 96 ∉ body ->
  exists segs,
    search html_block (pre ++ lit "```html" ++ body ++ lit "```" ++ post)
    = Some (pre, segs)
    /\ strip (group1 html_block segs) = strip body.
Proof.
  intros Hpre Hbody.
  assert (HF : exists F', lit "```html" = 96 :: F') by (eexists; reflexivity).
  assert (HC : exists C', lit "```" = 96 :: C') by (eexists; reflexivity).
  destruct HF as [F' HF], HC as [C' HC].
  destruct (proj2 (html_block_matches
                     (lit "```html" ++ body ++ lit "```" ++ post) body))
    as (segs0 & Hp0 & _);
    [exists [], [], post; split_and!; [done | constructor | constructor] |].
  pose proof (match_here_complete _ _ _ Hp0) as [m0 Hm0].
  destruct (search_complete html_block pre _ _ Hp0) as [[pre' segs] Hs].
  pose proof (search_found _ _ _ _ Hs) as (rest & E & Hm).
  pose proof (search_leftmost _ _ _ _ Hs) as Hleft.
  pose proof (fenced_shortest _ _ _ _ Hm)
    as (ws1 & g & ws2 & post' & -> & Hw1 & Hw2 & Hg & Hmin).
  assert (pre' = pre) as ->.
  { apply app_inj_1 in E as [E _]; [done |].
    apply Nat.le_antisymm.
    - rewrite HF in E. by apply (cut_at_first _ _ _ _ _ E).
    - destruct (decide (length pre < length pre')%nat) as [Hlt|]; [| lia].
      specialize (Hleft _ Hlt). rewrite drop_app_length in Hleft. congruence. }
  apply app_inv_head in E. apply app_inv_head in E.
  exists segs. split; [done |]. unfold html_block at 1. rewrite Hg.
  assert (Hspace : isspace 96 = false) by reflexivity.
  assert (Hin : forall ws, spaces ws -> 96 ∉ ws).
  { intros ws Hws Hx. unfold spaces in Hws.
    rewrite Forall_forall in Hws. apply Hws in Hx. congruence. }
  assert (E' : (ws1 ++ g ++ ws2) ++ 96 :: C' ++ post'
               = body ++ 96 :: C' ++ post).
  { rewrite HC in E. simpl in E. rewrite E. by rewrite <- !app_assoc. }
  assert (Hlen : length (ws1 ++ g ++ ws2) = length body).
  { apply Nat.le_antisymm; [| symmetry in E'; by apply (cut_at_first _ _ _ _ _ E')].
    destruct (decide (length body < length (ws1 ++ g ++ ws2))%nat)
      as [Hlt|]; [| lia].
    exfalso.
    assert (H96 : (ws1 ++ g ++ ws2) !! length body = Some 96).
    { rewrite <- (lookup_app_l _ (96 :: C' ++ post')) by done.
      rewrite E'. by apply list_lookup_middle. }
    assert (Hb1 : (length ws1 <= length body)%nat).
    { destruct (decide (length body < length ws1)%nat) as [Hlt'|]; [| lia].
      rewrite lookup_app_l in H96 by done.
      apply list_elem_of_lookup_2 in H96. by apply Hin in H96. }
    rewrite lookup_app_r in H96 by done.
    assert (Hb2 : (length body - length ws1 < length g)%nat).
    { destruct (decide (length body - length ws1 < length g)%nat)
        as [|Hge]; [done |].
      rewrite lookup_app_r in H96 by lia.
      apply list_elem_of_lookup_2 in H96. by apply Hin in H96. }
    apply (Hmin (length body - length ws1)%nat [] post Hb2); [constructor |].
    rewrite app_nil_l.
    rewrite <- (drop_app_length ws1 (g ++ ws2 ++ lit "```" ++ post')).
    rewrite drop_drop.
    replace (length ws1 + (length body - length ws1))%nat
      with (length body) by lia.
    rewrite <- E. by rewrite drop_app_length. }
  apply app_inj_1 in E' as [E' _]; [| done].
  rewrite <- E'. symmetry. by apply strip_ignores_padding.
Qed.

(** *** Properties of the extraction and of the validation *)

(** Validation looks at the trimmed text only. *)
Lemma validate_strip (s : pystr) :
  _validate_html_template (PyStr (strip s)) = _validate_html_template (PyStr s).
Proof.
  unfold _validate_html_template, validate_checks.
  by rewrite blank_strip, <- strip_lower, strip_idempotent.
Qed.

Lemma doc_span_has_bracket (d : pystr) : doc_span d -> 60 ∈ d.
Proof.
  intros (a & mid & b & -> & Ha & _).
  assert (exists w, lit "<!DOCTYPE html" = 60 :: w) as [w Hw]
    by (eexists; reflexivity).
  unfold caseless in Ha. rewrite Hw in Ha.
  apply Forall2_cons_inv_l in Ha as (x & a' & Hx & _ & ->).
  apply uncased_below in Hx as ->; [| lia]. by left.
Qed.

(** X1. The extracted candidate never starts or ends with white space,
    whichever layer produced it. *)
Theorem extract_is_trimmed (text : pystr) :
  tight (_extract_html_from_response text)
  /\ strip (_extract_html_from_response text)
     = _extract_html_from_response text.
Proof.
  assert (H : exists t, _extract_html_from_response text = strip t).
  { unfold _extract_html_from_response.
    destruct (search html_block text); [by eexists |].
    destruct (search code_block text); [by eexists |].
    destruct (search doctype text); [by eexists |].
    cbn zeta. destruct (_ && _); by eexists. }
  destruct H as [t ->]. split; [apply strip_tight | apply strip_idempotent].
Qed.

(** X2. When the first backtick of the text opens a fenced block tagged
    [html] and the block holds no backtick, the result is the content of
    that block, trimmed, whatever follows the closing fence. *)
Theorem first_html_fence_wins (pre body post : pystr) :
  contains pre (lit "`") = false ->
  contains body (lit "`") = false ->
  _extract_html_from_response
    (pre ++ lit "```html" ++ body ++ lit "```" ++ post)
  = strip body.
Proof.
  intros Hpre Hbody. apply contains_single in Hpre, Hbody.
  destruct (first_fence_found pre body post Hpre Hbody) as (segs & Hs & Hg).
  unfold _extract_html_from_response. by rewrite Hs.
Qed.

Lemma first_html_fence_wins_witness :
  _extract_html_from_response
    (lit "Sure, here is the template:

" ++ lit "```html" ++ lit "
<!DOCTYPE html><html></html>
" ++ lit "```" ++ lit "
Run it with ```npm start```.")
  = lit "<!DOCTYPE html><html></html>".
Proof.
  rewrite first_html_fence_wins; calc.
Defined.

(** X3. Wrapping a document in a fenced block tagged [html], after any
    text without backticks and before any text at all, does not change
    the verdict of the validation: the pipeline accepts the wrapped
    answer exactly when it accepts the document. *)
Theorem fenced_document_verdict (pre body post : pystr) :
  contains pre (lit "`") = false ->
  contains body (lit "`") = false ->
  _validate_html_template
    (PyStr (_extract_html_from_response
              (pre ++ lit "```html" ++ body ++ lit "```" ++ post)))
  = _validate_html_template (PyStr body).
Proof.
  intros Hpre Hbody. apply contains_single in Hpre, Hbody.
  destruct (first_fence_found pre body post Hpre Hbody) as (segs & Hs & Hg).
  unfold _extract_html_from_response. rewrite Hs. cbn [snd].
  by rewrite Hg, validate_strip.
Qed.

Lemma fenced_document_verdict_witness :
  _validate_html_template
    (PyStr (_extract_html_from_response
              (lit "Here you go: " ++ lit "```html" ++ full_document
               ++ lit "```" ++ lit " Enjoy!")))
  = true.
Proof.
  rewrite fenced_document_verdict; calc.
Defined.

(** X4. A text without [<] and without an opening [html] fence comes
    back trimmed and otherwise unchanged. *)
Theorem extract_without_markup (text : pystr) :
  contains text (lit "<") = false ->
  contains text (lit "```html") = false ->
  _extract_html_from_response text = strip text.
Proof.
  intros Hlt Hfence. apply contains_single in Hlt.
  apply not_true_iff_false in Hfence. rewrite contains_occurs in Hfence.
  unfold _extract_html_from_response.
  destruct (search html_block text) as [m1|] eqn:H1.
  { exfalso. apply Hfence.
    destruct (proj2 (html_fence_search text)) as (g & Hg); [by eexists |].
    destruct Hg as (pre & ws1 & ws2 & post & -> & _). by eexists _, _. }
  destruct (search code_block text) as [m2|] eqn:H2.
  { exfalso. apply Hlt.
    destruct (proj2 (code_fence_search text)) as (d & Hd); [by eexists |].
    destruct Hd as (pre & tag & ws1 & ws2 & post & -> & _ & _ & _ & Hd).
    apply doc_span_has_bracket in Hd. set_solver. }
  destruct (search doctype text) as [m3|] eqn:H3.
  { exfalso. apply Hlt.
    destruct (proj2 (bare_doc_search text)) as (d & Hd); [by eexists |].
    destruct Hd as (pre & post & -> & Hd).
    apply doc_span_has_bracket in Hd. set_solver. }
  cbn zeta. by destruct (_ && _).
Qed.

Lemma extract_without_markup_witness :
  _extract_html_from_response (lit "  I am sorry, I cannot do that
")
  = lit "I am sorry, I cannot do that".
Proof.
  rewrite extract_without_markup; calc.
Defined.

(** X5. Validation ignores white space around the candidate. *)
Theorem validate_ignores_padding (ws1 s ws2 : pystr) :
  spaces ws1 -> spaces ws2 ->
  _validate_html_template (PyStr (ws1 ++ s ++ ws2))
  = _validate_html_template (PyStr s).
Proof.
  intros H1 H2.
  rewrite <- (validate_strip (ws1 ++ s ++ ws2)), <- (validate_strip s).
  by rewrite strip_ignores_padding.
Qed.

Lemma validate_ignores_padding_witness :
  _validate_html_template
    (PyStr (lit "

  " ++ full_document ++ lit "
"))
  = _validate_html_template (PyStr full_document).
Proof.
  apply validate_ignores_padding; unfold spaces;
    repeat (apply Forall_cons_2; [reflexivity |]); apply Forall_nil_2.
Defined.

(** *** Document spans *)

(** A word none of whose letters is an [i] is spelled, up to case, only
    by strings whose lower case is the lower case of the word. *)
Lemma caseless_lower (w a : pystr) :
  Forall (fun c => tolower c <> 105) w ->
  caseless w a -> lower a = map tolower w.
Proof.
  intros Hw Ha. induction Ha as [|c x w a Hx _ IH]; [done |].
  apply Forall_cons_1 in Hw as [Hc Hw].
  change (lower (x :: a)) with (lower_full x ++ lower a).
  rewrite (IH Hw). simpl in Hx. apply N.eqb_eq in Hx.
  unfold lower_full. destruct (x =? 304) eqn:E.
  - apply N.eqb_eq in E. subst x. by destruct Hc.
  - simpl. by rewrite Hx.
Qed.

Lemma doc_span_tight (d : pystr) : doc_span d -> tight d.
Proof.
  intros (a & mid & b & -> & Ha & Hb).
  assert (exists w, lit "<!DOCTYPE html" = 60 :: w) as [w Hw]
    by (eexists; reflexivity).
  assert (exists w', lit "</html>" = w' ++ [62]) as [w' Hw']
    by (by exists (lit "</html"); reflexivity).
  unfold caseless in Ha, Hb. rewrite Hw in Ha. rewrite Hw' in Hb.
  apply Forall2_cons_inv_l in Ha as (x & a' & Hx & _ & ->).
  apply Forall2_app_inv_l in Hb as (b1 & b2 & _ & Hb & ->).
  apply Forall2_cons_inv_l in Hb as (y & b3 & Hy & Hb & ->).
  apply Forall2_nil_inv_l in Hb as ->.
  apply uncased_below in Hx as ->; [| lia].
  apply uncased_below in Hy as ->; [| lia].
  split; [done |]. exists (60 :: a' ++ mid ++ b1), 62. split; [| done].
  simpl. by rewrite <- !app_assoc.
Qed.

Lemma doc_span_lower (d : pystr) :
  doc_span d ->
  exists mid, lower d = lit "<!doctype html" ++ mid ++ lit "</html>".
Proof.
  intros (a & mid & b & -> & Ha & Hb). exists (lower mid).
  rewrite !lower_app.
  assert (H1 : Forall (fun c => tolower c <> 105) (lit "<!DOCTYPE html"))
    by (repeat (apply Forall_cons_2; [by vm_compute |]); apply Forall_nil_2).
  assert (H2 : Forall (fun c => tolower c <> 105) (lit "</html>"))
    by (repeat (apply Forall_cons_2; [by vm_compute |]); apply Forall_nil_2).
  rewrite (caseless_lower _ _ H1 Ha), (caseless_lower _ _ H2 Hb).
  reflexivity.
Qed.

(** The verdict on a document span rests on its [<head], [<body] and
    [<title] alone. *)
Lemma doc_span_verdict (d : pystr) :
  doc_span d ->
  _validate_html_template (PyStr d)
  = contains (lower d) (lit "<head") && contains (lower d) (lit "<body")
    && contains (lower d) (lit "<title").
Proof.
  intros Hd. pose proof (doc_span_tight d Hd) as Ht.
  pose proof (doc_span_lower d Hd) as (mid & Hl).
  unfold _validate_html_template, validate_checks.
  assert (blank d = false) as ->.
  { apply blank_false. rewrite strip_of_tight by done.
    destruct Hd as (a & m & b & -> & Ha & _).
    apply Forall2_length in Ha. destruct a; [done | by split]. }
  rewrite strip_lower, strip_of_tight by done.
  assert (startswith (lower d) (lit "<!doctype html") = true) as ->
    by (apply startswith_prefix; rewrite Hl; by apply prefix_app_r).
  assert (contains (lower d) (lit "</html>") = true) as ->
    by (apply contains_occurs; rewrite Hl;
        exists (lit "<!doctype html" ++ mid), [];
        by rewrite app_nil_r, <- app_assoc).
  unfold required_elements. cbn [negb List.filter snd fst map].
  destruct (contains (lower d) (lit "<head")),
    (contains (lower d) (lit "<body")),
    (contains (lower d) (lit "<title")); reflexivity.
Qed.

(** X6. When the text has no opening [html] fence but holds a span from
    [<!DOCTYPE html] to [</html>], in any letter case, the candidate is
    such a span: it passes the [DOCTYPE] and [</html>] checks of the
    validation, whose verdict then rests on [<head], [<body] and
    [<title] alone. *)
Theorem extracted_span_verdict (text : pystr) :
  contains text (lit "```html") = false ->
  (exists d, bare_doc text d) ->
  let r := _extract_html_from_response text in
  doc_span r
  /\ _validate_html_template (PyStr r)
     = contains (lower r) (lit "<head") && contains (lower r) (lit "<body")
       && contains (lower r) (lit "<title").
Proof.
  intros Hfence Hdoc r.
  assert (Hr : doc_span r).
  { subst r. apply not_true_iff_false in Hfence.
    rewrite contains_occurs in Hfence.
    unfold _extract_html_from_response.
    destruct (search html_block text) as [m1|] eqn:H1.
    { exfalso. apply Hfence.
      destruct (proj2 (html_fence_search text)) as (g & Hg); [by eexists |].
      destruct Hg as (pre & ws1 & ws2 & post & -> & _). by eexists _, _. }
    destruct (search code_block text) as [[pre2 m2]|] eqn:H2.
    { apply search_sound in H2 as (rest & -> & Hp).
      assert (code_fence (pre2 ++ rest) (group1 code_block m2)) as Hc
        by (apply code_fence_matches; by exists pre2, rest, m2).
      destruct Hc as (_ & _ & _ & _ & _ & _ & _ & _ & _ & Hd).
      cbn [snd]. rewrite strip_of_tight; [done | by apply doc_span_tight]. }
    destruct (search doctype text) as [[pre3 m3]|] eqn:H3.
    { apply search_sound in H3 as (rest & -> & Hp).
      assert (bare_doc (pre3 ++ rest) (group0 m3)) as Hb
        by (apply bare_doc_matches; by exists pre3, rest, m3).
      destruct Hb as (_ & _ & _ & Hd).
      cbn [snd]. rewrite strip_of_tight; [done | by apply doc_span_tight]. }
    apply bare_doc_search in Hdoc as [? Hdoc]. congruence. }
  split; [done | by apply doc_span_verdict].
Qed.

Lemma extracted_span_verdict_witness :
  let text := lit "Here is the page: <!doctype HTML><html><head>
<title>t</title></head><BODY></BODY></HTML> and that is all." in
  doc_span (_extract_html_from_response text)
  /\ _validate_html_template (PyStr (_extract_html_from_response text))
     = true.
Proof.
  intros text.
  destruct (extracted_span_verdict text) as [Hd Hv].
  - calc.
  - apply bare_doc_search. found.
  - split; [exact Hd |]. rewrite Hv. calc.
Defined.

(** *** The candidate is a piece of the response *)

Lemma strip_occurs (t : pystr) : occurs (strip t) t.
Proof.
  destruct (strip_split t) as (ws1 & core & ws2 & -> & H1 & H2 & Hc).
  rewrite strip_padded by done. by exists ws1, ws2.
Qed.

Lemma occurs_trans (a b c : pystr) : occurs a b -> occurs b c -> occurs a c.
Proof.
  intros (x & y & ->) (u & v & ->). exists (u ++ x), (y ++ v).
  by rewrite <- !app_assoc.
Qed.

(** X21. The candidate [_extract_html_from_response] returns is always a
    contiguous piece of the response text: the extraction cuts text
    away and adds or changes nothing. *)
Theorem extract_is_substring (text : pystr) :
  occurs (_extract_html_from_response text) text.
Proof.
  unfold _extract_html_from_response.
  destruct (search html_block text) as [[pre1 m1]|] eqn:H1.
  { apply search_sound in H1 as (rest & -> & Hp).
    assert (html_fence (pre1 ++ rest) (group1 html_block m1))
      as (pre & ws1 & ws2 & post & Ht & _)
      by (apply html_fence_matches; by exists pre1, rest, m1).
    eapply occurs_trans; [apply strip_occurs |]. rewrite Ht. cbn [snd].
    exists (pre ++ lit "```html" ++ ws1), (ws2 ++ lit "```" ++ post).
    by rewrite <- !app_assoc. }
  destruct (search code_block text) as [[pre2 m2]|] eqn:H2.
  { apply search_sound in H2 as (rest & -> & Hp).
    assert (code_fence (pre2 ++ rest) (group1 code_block m2))
      as (pre & tag & ws1 & ws2 & post & Ht & _)
      by (apply code_fence_matches; by exists pre2, rest, m2).
    eapply occurs_trans; [apply strip_occurs |]. rewrite Ht. cbn [snd].
    exists (pre ++ lit "```" ++ tag ++ ws1), (ws2 ++ lit "```" ++ post).
    by rewrite <- !app_assoc. }
  destruct (search doctype text) as [[pre3 m3]|] eqn:H3.
  { apply search_sound in H3 as (rest & -> & Hp).
    assert (bare_doc (pre3 ++ rest) (group0 m3))
      as (pre & post & Ht & _)
      by (apply bare_doc_matches; by exists pre3, rest, m3).
    eapply occurs_trans; [apply strip_occurs |]. rewrite Ht. cbn [snd].
    by exists pre, post. }
  cbn zeta. destruct (_ && _); apply strip_occurs.
Qed.

End HtmlFacts.

(* ================================================================== *)
(** ** Facts about the persistence wrappers *)
(* ================================================================== *)

Module CrudFacts.
Import Crud.

(** Logging and raising again changes nothing. *)
Lemma log_and_reraise_id {S A} (m : M S A) (s : S) :
  log_and_reraise m s = m s.
Proof. unfold log_and_reraise, catch, raise. by destruct (m s) as [[a|e] s']. Qed.

Ltac run :=
  rewrite ?log_and_reraise_id;
  unfold catch, bind, issue, lift, ret, raise; simpl.

Section Facts.

Context {store : Type} (db_service : DatabaseService store).
Variable get_model_config_for_role : res unit.
Variables _generate_preview_image _extract_style_config : value -> value.
Variable str : value -> pystr.

Local Abbreviation create_template :=
  (create_template db_service get_model_config_for_role
     _generate_preview_image _extract_style_config str).
Local Abbreviation fill_defaults :=
  (fill_defaults _generate_preview_image _extract_style_config).
Local Abbreviation update_template :=
  (update_template db_service _generate_preview_image _extract_style_config
     str).
Local Abbreviation delete_template := (delete_template db_service).

Lemma added_app (w : world store) st cs :
  added w (World st (issued w ++ cs)) = cs.
Proof. unfold added. simpl. by rewrite drop_app_length. Qed.

Lemma added_same (w : world store) : added w w = [].
Proof. unfold added. by rewrite drop_all. Qed.

(** C7. Deleting the default template raises [ValueError] after the
    lookup alone, so no delete reaches the collaborator; deleting an id
    the lookup does not find returns [False] without raising, again
    after the lookup alone; deleting any other template issues the
    collaborator's delete and returns what it returns. *)
Theorem delete_template_guard (template_id : Z) (w : world store) :
  (forall t st,
      get_global_master_template_by_id db_service template_id (db w)
      = (Ok (Some t), st) ->
      is_default t = true ->
      delete_template template_id w
      = (Raise (Exn ValueError (lit "Cannot delete the default template")),
         World st (issued w ++ [GetById template_id])))
  /\ (forall st,
      get_global_master_template_by_id db_service template_id (db w)
      = (Ok None, st) ->
      delete_template template_id w
      = (Ok false, World st (issued w ++ [GetById template_id])))
  /\ (forall t st,
      get_global_master_template_by_id db_service template_id (db w)
      = (Ok (Some t), st) ->
      is_default t = false ->
      delete_template template_id w
      = ((delete_global_master_template db_service template_id st).1,
         World (delete_global_master_template db_service template_id st).2
               (issued w ++ [GetById template_id; Delete template_id]))).
Proof.
  split_and!.
  - intros t st Hl Hd. unfold Crud.delete_template. run.
    rewrite Hl. simpl. by rewrite Hd.
  - intros st Hl. unfold Crud.delete_template. run. by rewrite Hl.
  - intros t st Hl Hd. unfold Crud.delete_template. run.
    rewrite Hl. simpl. rewrite Hd. simpl.
    destruct (delete_global_master_template db_service template_id st)
      as [[b|e] st']; simpl; by rewrite <- app_assoc.
Qed.

(** C8. With the role configuration in place, [create_template] raises
    [ValueError] without any collaborator call when [template_name] or
    [html_template] is missing or falsy; it raises [ValueError] after the
    by-name lookup alone when the lookup returns a record; and a create
    call is issued only when both fields are present and the lookup
    found nothing, in which case it is issued, once, right after the
    lookup. *)
Theorem create_template_guards (template_data : gmap string value)
    (w : world store) :
  let name := dict_get template_data "template_name" in
  let html := dict_get template_data "html_template" in
  (get_model_config_for_role = Ok tt ->
   truthy name = false ->
   create_template template_data w
   = (Raise (missing_field "template_name"), w))
  /\ (get_model_config_for_role = Ok tt ->
      truthy name = true -> truthy html = false ->
      create_template template_data w
      = (Raise (missing_field "html_template"), w))
  /\ (get_model_config_for_role = Ok tt ->
      truthy name = true -> truthy html = true ->
      forall t st,
        get_global_master_template_by_name db_service name (db w)
        = (Ok (Some t), st) ->
        create_template template_data w
        = (Raise (name_exists (str name)),
           World st (issued w ++ [GetByName name])))
  /\ (get_model_config_for_role = Ok tt ->
      truthy name = true -> truthy html = true ->
      forall st,
        get_global_master_template_by_name db_service name (db w)
        = (Ok None, st) ->
        added w (create_template template_data w).2
        = [GetByName name; Create (fill_defaults template_data)]
        /\ fill_defaults template_data !! "template_name"
           = template_data !! "template_name"
        /\ fill_defaults template_data !! "html_template"
           = template_data !! "html_template")
  /\ (forall data,
        Create data ∈ added w (create_template template_data w).2 ->
        get_model_config_for_role = Ok tt
        /\ truthy name = true /\ truthy html = true
        /\ exists st,
            get_global_master_template_by_name db_service name (db w)
            = (Ok None, st)).
Proof.
  intros name html. unfold Crud.create_template.
  assert (Hsd : forall k v (d : gmap string value) k',
             k <> k' -> setdefault k v d !! k' = d !! k').
  { intros k v d k' Hk. unfold setdefault.
    destruct (d !! k); [done | by rewrite lookup_insert_ne]. }
  split_and!.
  - intros -> Hn. run. fold name. by rewrite Hn.
  - intros -> Hn Hh. run. fold name html. by rewrite Hn, Hh.
  - intros -> Hn Hh t st Hl. run. fold name html.
    rewrite Hn, Hh. simpl. by rewrite Hl.
  - intros -> Hn Hh st Hl. split_and!.
    + run. fold name html. rewrite Hn, Hh. simpl. rewrite Hl. simpl.
      destruct (create_global_master_template db_service _ st)
        as [[t|e] st']; simpl;
        unfold added; simpl; rewrite <- app_assoc;
        by rewrite drop_app_length.
    + unfold fill_defaults. rewrite !Hsd by done.
      repeat case_match; by rewrite ?lookup_insert_ne.
    + unfold fill_defaults. rewrite !Hsd by done.
      repeat case_match; by rewrite ?lookup_insert_ne.
  - intros data. run.
    destruct get_model_config_for_role as [[]|e]; simpl;
      [| rewrite added_same; by intros ?%elem_of_nil].
    fold name html.
    destruct (truthy name); simpl;
      [| rewrite added_same; by intros ?%elem_of_nil].
    destruct (truthy html); simpl;
      [| rewrite added_same; by intros ?%elem_of_nil].
    destruct (get_global_master_template_by_name db_service name (db w))
      as [[[t|]|e] st] eqn:Hl; simpl.
    + rewrite added_app. intros H. apply list_elem_of_singleton in H. done.
    + intros _. split_and!; try done. by exists st.
    + rewrite added_app. intros H. apply list_elem_of_singleton in H. done.
Qed.

(** C10. When [update_data] carries a [template_name] and the by-name
    lookup answers, [update_template] raises the duplicate-name error,
    before any update call, if and only if the lookup returned a record
    whose id differs from [template_id]; otherwise, in particular when
    the record found is the template itself, it goes on to the
    collaborator's update call and returns what that call returns. *)
Theorem update_template_duplicate_name (template_id : Z)
    (update_data : gmap string value) (name : value) (w : world store)
    (existing : option template) (st : store) :
  update_data !! "template_name" = Some name ->
  get_global_master_template_by_name db_service name (db w)
  = (Ok existing, st) ->
  let conflict := exists t, existing = Some t /\ tid t <> template_id in
  (conflict <->
   update_template template_id update_data w
   = (Raise (name_exists (str name)), World st (issued w ++ [GetByName name])))
  /\ (~ conflict ->
      exists data,
        update_template template_id update_data w
        = ((update_global_master_template db_service template_id data st).1,
           World
             (update_global_master_template db_service template_id data st).2
             (issued w ++ [GetByName name; Update template_id data]))).
Proof.
  intros Hn Hl conflict. unfold Crud.update_template. run.
  rewrite Hn. simpl. rewrite Hl. simpl.
  assert (Hlog : forall (r : res bool) st' c,
             (r, World st' ((issued w ++ [GetByName name]) ++ [c]))
             <> (Raise (name_exists (str name)),
                 World st (issued w ++ [GetByName name]))).
  { intros r st' c H. injection H as _ _ H.
    apply (f_equal length) in H. rewrite !length_app in H. simpl in H. lia. }
  destruct existing as [t|]; simpl.
  - destruct (tid t =? template_id)%Z eqn:E; simpl.
    + apply Z.eqb_eq in E. split.
      * split; [intros (t' & [= <-] & Hne); done |].
        intros H. exfalso.
        destruct (update_global_master_template _ _ _ _) as [r st'].
        simpl in H. by apply Hlog in H.
      * intros _. eexists.
        destruct (update_global_master_template _ _ _ _) as [r st'] eqn:E'.
        simpl. rewrite <- app_assoc. simpl. by rewrite E'.
    + apply Z.eqb_neq in E. split.
      * split; [done | intros _; by exists t].
      * intros []. by exists t.
  - split.
    + split; [by intros (t' & [=] & _) |].
      intros H. exfalso.
      destruct (update_global_master_template _ _ _ _) as [r st'].
      simpl in H. by apply Hlog in H.
    + intros _. eexists.
      destruct (update_global_master_template _ _ _ _) as [r st'] eqn:E'.
      simpl. rewrite <- app_assoc. simpl. by rewrite E'.
Qed.

(** C9. For [page >= 1], [page_size >= 1] and a total [total_count >= 0]
    counted by the collaborator, both paginated listings report
    [total_pages = (total_count + page_size - 1) // page_size], which is
    the ceiling of [total_count / page_size], [has_next = (page <
    total_pages)] and [has_prev = (page > 1)]. With 13 templates in
    pages of 6 there are 3 pages; page 3 has no next but a previous
    page, and page 1 has no previous page. *)
Theorem pagination_arithmetic (page page_size total_count : Z)
    (active_only : bool) (search : option pystr) (tags : list pystr)
    (w : world store) :
  (1 <= page)%Z -> (1 <= page_size)%Z -> (0 <= total_count)%Z ->
  let offset := ((page - 1) * page_size)%Z in
  let info := page_of page page_size total_count in
  (forall found st,
      get_global_master_templates_paginated db_service
        active_only offset page_size search (db w)
      = (Ok (found, total_count), st) ->
      (get_all_templates_paginated db_service
         active_only page page_size search w).1
      = Ok {| templates := map summary found; page_info := info |})
  /\ (forall found st,
      get_global_master_templates_by_tags_paginated db_service
        tags active_only offset page_size search (db w)
      = (Ok (found, total_count), st) ->
      (get_templates_by_tags_paginated db_service
         tags active_only page page_size search w).1
      = Ok {| templates := map summary found; page_info := info |})
  /\ ((total_pages info - 1) * page_size < total_count
      <= total_pages info * page_size)%Z
  /\ has_next info = bool_decide (page < total_pages info)%Z
  /\ has_prev info = bool_decide (1 < page)%Z
  /\ (page_size = 6%Z -> total_count = 13%Z ->
      total_pages info = 3%Z
      /\ (page = 3%Z -> has_next info = false /\ has_prev info = true)
      /\ (page = 1%Z -> has_prev info = false)).
Proof.
  intros Hp Hs Ht offset info. split_and!.
  - intros found st H. unfold get_all_templates_paginated. run.
    fold offset. rewrite H. simpl.
    destruct (page_size =? 0)%Z eqn:E; [apply Z.eqb_eq in E; lia | done].
  - intros found st H. unfold get_templates_by_tags_paginated. run.
    fold offset. rewrite H. simpl.
    destruct (page_size =? 0)%Z eqn:E; [apply Z.eqb_eq in E; lia | done].
  - simpl.
    pose proof (Z.div_mod (total_count + page_size - 1) page_size) as Hd.
    pose proof (Z.mod_pos_bound (total_count + page_size - 1) page_size).
    nia.
  - simpl.
    pose proof (Z.div_mod (total_count + page_size - 1) page_size) as Hd.
    pose proof (Z.mod_pos_bound (total_count + page_size - 1) page_size).
    nia.
  - simpl. symmetry.
    destruct (Z.ltb_spec page ((total_count + page_size - 1) / page_size));
      [apply bool_decide_eq_true | apply bool_decide_eq_false]; lia.
  - simpl. rewrite Z.gtb_ltb. symmetry.
    destruct (Z.ltb_spec 1 page);
      [apply bool_decide_eq_true | apply bool_decide_eq_false]; lia.
  - intros -> ->. split_and!; [done | by intros -> | by intros ->].
Qed.

End Facts.

Lemma delete_template_guard_witness :
  delete_template memory_db 1 (World two_rows [])
  = (Raise (Exn ValueError (lit "Cannot delete the default template")),
     World two_rows [GetById 1])
  /\ delete_template memory_db 9 (World two_rows [])
     = (Ok false, World two_rows [GetById 9])
  /\ delete_template memory_db 2 (World two_rows [])
     = (Ok true,
        World [sample 1 "Default" true true] [GetById 2; Delete 2]).
Proof.
  split_and!.
  - exact (proj1 (delete_template_guard memory_db 1 (World two_rows []))
             (sample 1 "Default" true true) two_rows eq_refl eq_refl).
  - exact (proj1 (proj2 (delete_template_guard memory_db 9
                           (World two_rows [])))
             two_rows eq_refl).
  - exact (proj2 (proj2 (delete_template_guard memory_db 2
                           (World two_rows [])))
             (sample 2 "Plain" false true) two_rows eq_refl eq_refl).
Defined.

Lemma create_template_guards_witness :
  let create := create_template memory_db (Ok tt)
                  placeholder_preview basic_style str_of in
  let w := World two_rows [] in
  let html := VStr (lit "<!DOCTYPE html><html></html>") in
  create {["html_template" := html]} w
  = (Raise (missing_field "template_name"), w)
  /\ create {["template_name" := VStr (lit "New")]} w
     = (Raise (missing_field "html_template"), w)
  /\ create (<["template_name" := VStr (lit "Plain")]>
               {["html_template" := html]}) w
     = (Raise (name_exists (lit "Plain")),
        World two_rows [GetByName (VStr (lit "Plain"))])
  /\ added w (create (<["template_name" := VStr (lit "New")]>
                         {["html_template" := html]}) w).2
     = [GetByName (VStr (lit "New"));
        Create (fill_defaults placeholder_preview basic_style
                  (<["template_name" := VStr (lit "New")]>
                     {["html_template" := html]}))].
Proof.
  intros create w html. split_and!.
  - exact (proj1 (create_template_guards memory_db (Ok tt)
                    placeholder_preview basic_style str_of
                    {["html_template" := html]} w) ltac:(calc) ltac:(calc)).
  - exact (proj1 (proj2 (create_template_guards memory_db (Ok tt)
                    placeholder_preview basic_style str_of
                    {["template_name" := VStr (lit "New")]} w))
             ltac:(calc) ltac:(calc) ltac:(calc)).
  - exact (proj1 (proj2 (proj2 (create_template_guards memory_db (Ok tt)
                    placeholder_preview basic_style str_of
                    (<["template_name" := VStr (lit "Plain")]>
                       {["html_template" := html]}) w)))
             ltac:(calc) ltac:(calc) ltac:(calc) (sample 2 "Plain" false true)
             two_rows ltac:(calc)).
  - exact (proj1 (proj1 (proj2 (proj2 (proj2 (create_template_guards
                    memory_db (Ok tt) placeholder_preview basic_style str_of
                    (<["template_name" := VStr (lit "New")]>
                       {["html_template" := html]}) w))))
                ltac:(calc) ltac:(calc) ltac:(calc) two_rows ltac:(calc))).
Defined.

Lemma update_template_duplicate_name_witness :
  let update :=
    update_template memory_db placeholder_preview basic_style str_of in
  let w := World two_rows [] in
  update 2%Z (rename_to "Default") w
  = (Raise (name_exists (lit "Default")),
     World two_rows [GetByName (VStr (lit "Default"))])
  /\ (exists data,
         update 2%Z (rename_to "Plain") w
         = (Ok true,
            World two_rows
              [GetByName (VStr (lit "Plain")); Update 2%Z data])).
Proof.
  intros update w. split.
  - apply (proj1 (update_template_duplicate_name memory_db
                    placeholder_preview basic_style str_of 2
                    (rename_to "Default")
                    (VStr (lit "Default")) w
                    (Some (sample 1 "Default" true true)) two_rows
                    ltac:(calc) ltac:(calc))).
    exists (sample 1 "Default" true true). split; [done | simpl; lia].
  - apply (proj2 (update_template_duplicate_name memory_db
                    placeholder_preview basic_style str_of 2
                    (rename_to "Plain")
                    (VStr (lit "Plain")) w
                    (Some (sample 2 "Plain" false true)) two_rows
                    ltac:(calc) ltac:(calc))).
    intros (t & [= <-] & Hne). simpl in Hne. lia.
Defined.

Lemma pagination_arithmetic_witness :
  (get_all_templates_paginated memory_db true 3 6 None
     (World thirteen_rows [])).1
  = Ok {| templates := map summary [sample 13 "T" false true];
          page_info := page_of 3 6 13 |}
  /\ total_pages (page_of 3 6 13) = 3%Z
  /\ has_next (page_of 3 6 13) = false
  /\ has_prev (page_of 3 6 13) = true
  /\ has_prev (page_of 1 6 13) = false.
Proof.
  pose proof (pagination_arithmetic memory_db 3 6 13 true None []
                (World thirteen_rows []) ltac:(lia) ltac:(lia) ltac:(lia))
    as (Hall & _ & _ & _ & _ & Hex).
  pose proof (pagination_arithmetic memory_db 1 6 13 true None []
                (World thirteen_rows []) ltac:(lia) ltac:(lia) ltac:(lia))
    as (_ & _ & _ & _ & _ & Hex1).
  destruct (Hex eq_refl eq_refl) as (Htp & H3 & _).
  destruct (Hex1 eq_refl eq_refl) as (_ & _ & H1).
  destruct (H3 eq_refl) as [Hn Hp].
  split_and!; [| done | done | done | by apply H1].
  exact (Hall [sample 13 "T" false true] thirteen_rows eq_refl).
Defined.

(** *** Payloads and pages *)





(** A value supplied for [k] when [html_template] is present and [k]
    is not. *)
Lemma supply_spec (d d' : gmap string value) (k : string) (v : value) :
  k <> "html_template" ->
  d' = (if bool_decide (is_Some (d !! "html_template"))
           && negb (bool_decide (is_Some (d !! k)))
        then <[k := v]> d else d) ->
  (forall k' x, d !! k' = Some x -> d' !! k' = Some x)
  /\ (d !! "html_template" = None -> d' = d)
  /\ (is_Some (d !! "html_template") -> is_Some (d' !! k))
  /\ (forall k', k' <> k -> d' !! k' = d !! k').
Proof.
  intros Hk ->.
  destruct (d !! "html_template") as [h|] eqn:Hh.
  - rewrite (bool_decide_eq_true_2 (is_Some (Some h))) by eauto.
    cbn [andb]. destruct (d !! k) as [x|] eqn:Hx.
    + rewrite (bool_decide_eq_true_2 (is_Some (Some x))) by eauto.
      cbn [negb]. split_and!; try done; intros _; rewrite Hx; by eauto.
    + rewrite (bool_decide_eq_false_2 (is_Some None)) by (by intros [? ?]).
      cbn [negb]. split_and!.
      * intros k' x Hk'. rewrite lookup_insert_ne; [done |].
        intros <-. congruence.
      * done.
      * intros _. rewrite lookup_insert_eq. by eauto.
      * intros k' Hk'. by rewrite lookup_insert_ne.
  - rewrite (bool_decide_eq_false_2 (is_Some None)) by (by intros [? ?]).
    cbn [andb]. split_and!; try done; by intros [? ?].
Qed.



Section Payloads.

Context {store : Type} (db_service : DatabaseService store).
Variable get_model_config_for_role : res unit.
Variables _generate_preview_image _extract_style_config : value -> value.
Variable str : value -> pystr.

Local Abbreviation fill_defaults :=
  (fill_defaults _generate_preview_image _extract_style_config).
Local Abbreviation update_template :=
  (update_template db_service _generate_preview_image _extract_style_config
     str).


(** X15. The payload [update_template] hands to the collaborator keeps
    every value of the caller, a falsy [preview_image] or
    [style_config] included. Without [html_template] the payload is the
    caller's dictionary unchanged; with it, the payload has a
    [preview_image] and a [style_config] and differs from the caller's
    dictionary in no other key. Without [template_name] no lookup is
    issued: the update is the only call. *)
Theorem update_template_payload (template_id : Z)
    (update_data : gmap string value) (w : world store) :
  let run := update_template template_id update_data w in
  (forall i data,
      Update i data ∈ added w run.2 ->
      i = template_id
      /\ (forall k v, update_data !! k = Some v -> data !! k = Some v)
      /\ (update_data !! "html_template" = None -> data = update_data)
      /\ (is_Some (update_data !! "html_template") ->
          is_Some (data !! "preview_image")
          /\ is_Some (data !! "style_config"))
      /\ (forall k, k <> "preview_image" -> k <> "style_config" ->
                    data !! k = update_data !! k))
  /\ (update_data !! "template_name" = None ->
      exists data, added w run.2 = [Update template_id data]).
Proof.
  intros run. subst run. unfold Crud.update_template.
  rewrite log_and_reraise_id. cbv zeta.
  match goal with
  | |- context [<["style_config" := _]> ?d] => set (d1 := d)
  end.
  match goal with
  | |- context [Update template_id ?d] => set (d2 := d)
  end.
  assert (Hd2 :
    (forall k v, update_data !! k = Some v -> d2 !! k = Some v)
    /\ (update_data !! "html_template" = None -> d2 = update_data)
    /\ (is_Some (update_data !! "html_template") ->
        is_Some (d2 !! "preview_image") /\ is_Some (d2 !! "style_config"))
    /\ (forall k, k <> "preview_image" -> k <> "style_config" ->
                  d2 !! k = update_data !! k)).
  { destruct (supply_spec update_data d1 "preview_image"
                (_generate_preview_image
                   (dict_get update_data "html_template"))
                ltac:(done) eq_refl) as (K1 & E1 & P1 & O1).
    destruct (supply_spec d1 d2 "style_config"
                (_extract_style_config (dict_get d1 "html_template"))
                ltac:(done) eq_refl) as (K2 & E2 & P2 & O2).
    split_and!.
    - intros k v Hk. by apply K2, K1.
    - intros Hh. rewrite E2; [by apply E1 |].
      by rewrite O1.
    - intros Hh. split.
      + rewrite O2 by done. by apply P1.
      + apply P2. by rewrite O1.
    - intros k Hk1 Hk2. rewrite O2 by done. by apply O1. }
  clearbody d2. clear d1.
  assert (Hin : forall i data cs,
             Update i data ∈ cs ->
             cs = [Update template_id d2]
             \/ (exists name, cs = [GetByName name])
             \/ (exists name,
                    cs = [GetByName name; Update template_id d2]) ->
             i = template_id /\ data = d2).
  { intros i data cs Hi [->|[[name ->]|[name ->]]];
      repeat (apply elem_of_cons in Hi as [Hi|Hi]);
      try (by apply elem_of_nil in Hi); try done;
      by injection Hi as -> ->. }
  unfold catch, bind, issue, lift, ret, raise. split.
  - intros i data Hi.
    assert (i = template_id /\ data = d2) as [-> ->]; [| done].
    eapply Hin; [exact Hi |]. clear Hi.
    destruct (update_data !! "template_name") as [name|]; cbn beta iota.
    + destruct (get_global_master_template_by_name db_service name (db w))
        as [[[t|]|e] st]; cbn [db issued].
      * destruct (negb (tid t =? template_id)%Z); cbn [db issued].
        -- cbn [snd]. rewrite added_app. right. left. by eexists.
        -- destruct (update_global_master_template _ _ _ _) as [r st'].
           cbn [snd]. rewrite <- app_assoc, added_app.
           right. right. by eexists.
      * destruct (update_global_master_template _ _ _ _) as [r st'].
        cbn [snd]. rewrite <- app_assoc, added_app.
        right. right. by eexists.
      * cbn [snd]. rewrite added_app. right. left. by eexists.
    + destruct (update_global_master_template _ _ _ _) as [r st'].
      cbn [snd]. rewrite added_app. by left.
  - intros ->. exists d2. cbn beta iota.
    destruct (update_global_master_template _ _ _ _) as [r st'].
    cbn [snd]. by rewrite added_app.
Qed.

End Payloads.


Lemma update_template_payload_witness :
  let run :=
    update_template memory_db placeholder_preview basic_style str_of 2
      new_html (World two_rows []) in
  exists data,
    added (World two_rows []) run.2 = [Update 2 data]
    /\ data !! "preview_image" = Some (VStr [])
    /\ is_Some (data !! "style_config").
Proof.
  intros run.
  pose proof (update_template_payload memory_db placeholder_preview
                basic_style str_of 2 new_html (World two_rows []))
    as [Hpay Hone].
  destruct (Hone ltac:(calc)) as (data & Hadd). exists data.
  destruct (Hpay 2%Z data) as (_ & Hkeep & _ & Hboth & _).
  { cbv zeta in Hadd. rewrite Hadd. apply list_elem_of_here. }
  split_and!; [exact Hadd | apply Hkeep; calc |].
  apply Hboth. exists (VStr (lit "<!DOCTYPE html><html></html>")). calc.
Defined.

(** X16. For [page >= 1], [page_size >= 1] and a total [total_count >= 0]
    counted by the collaborator, both paginated listings report
    [has_next] exactly when rows remain after the window they asked the
    collaborator for, that is when [offset + page_size < total_count];
    they report no pages exactly when there are no rows; and a page
    number beyond the last page asks for a window that starts at or
    after the end of the rows. *)
Theorem pagination_has_next {store} (db_service : DatabaseService store)
    (page page_size total_count : Z) (active_only : bool)
    (search : option pystr) (tags : list pystr) (w : world store) :
  (1 <= page)%Z -> (1 <= page_size)%Z -> (0 <= total_count)%Z ->
  let offset := ((page - 1) * page_size)%Z in
  forall found r,
    (exists st,
        get_global_master_templates_paginated db_service
          active_only offset page_size search (db w)
        = (Ok (found, total_count), st)
        /\ (get_all_templates_paginated db_service
              active_only page page_size search w).1 = Ok r)
    \/ (exists st,
           get_global_master_templates_by_tags_paginated db_service
             tags active_only offset page_size search (db w)
           = (Ok (found, total_count), st)
           /\ (get_templates_by_tags_paginated db_service
                 tags active_only page page_size search w).1 = Ok r) ->
    (has_next (page_info r) = true <-> (offset + page_size < total_count)%Z)
    /\ (total_pages (page_info r) = 0%Z <-> total_count = 0%Z)
    /\ ((total_pages (page_info r) < page)%Z -> (total_count <= offset)%Z)
    /\ templates r = map summary found.
Proof.
  intros Hp Hs Ht offset found r Hrun.
  assert (Hr : r = {| templates := map summary found;
                      page_info := page_of page page_size total_count |}).
  { destruct Hrun as [(st & Hq & Hr)|(st & Hq & Hr)]; revert Hr;
      [unfold get_all_templates_paginated
      | unfold get_templates_by_tags_paginated];
      rewrite log_and_reraise_id; unfold bind, issue, paginate;
      fold offset; rewrite Hq;
      (destruct (page_size =? 0)%Z eqn:E; [apply Z.eqb_eq in E; lia |]);
      cbn [fst]; by intros [= <-]. }
  subst r. cbn [page_info templates page_of has_next total_pages].
  pose proof (Z.div_mod (total_count + page_size - 1) page_size
                ltac:(lia)) as Hd.
  pose proof (Z.mod_pos_bound (total_count + page_size - 1) page_size
                ltac:(lia)).
  subst offset. split_and!; [| | nia | done].
  - rewrite Z.ltb_lt. split; nia.
  - split; [nia |]. intros ->. rewrite Z.add_0_l. apply Z.div_small. lia.
Qed.

Lemma pagination_has_next_witness :
  let found := take 6 (drop 6 thirteen_rows) in
  let r := {| templates := map summary found;
              page_info := page_of 2 6 13 |} in
  (get_all_templates_paginated memory_db true 2 6 None
     (World thirteen_rows [])).1 = Ok r
  /\ has_next (page_info r) = true.
Proof.
  intros found r.
  assert (Hr : (get_all_templates_paginated memory_db true 2 6 None
                  (World thirteen_rows [])).1 = Ok r) by reflexivity.
  split; [exact Hr |].
  refine (proj2 (proj1 (pagination_has_next memory_db 2 6 13 true None []
                          (World thirteen_rows []) ltac:(lia) ltac:(lia)
                          ltac:(lia) found r _)) _); [| lia].
  left. exists thirteen_rows. split; [reflexivity | exact Hr].
Defined.

(** X17. With [page_size = 0] both paginated listings still query the
    collaborator, for a window of no rows at offset 0, and then, when
    the collaborator answers, raise [ZeroDivisionError] instead of
    returning a page. *)
Theorem pagination_page_size_zero {store} (db_service : DatabaseService store)
    (page : Z) (active_only : bool) (search : option pystr)
    (tags : list pystr) (w : world store) :
  let zero_division :=
    Exn ZeroDivisionError (lit "integer division or modulo by zero") in
  (forall found st,
      get_global_master_templates_paginated db_service
        active_only 0 0 search (db w) = (Ok found, st) ->
      get_all_templates_paginated db_service active_only page 0 search w
      = (Raise zero_division,
         World st (issued w ++ [Paginated active_only 0 0 search])))
  /\ (forall found st,
        get_global_master_templates_by_tags_paginated db_service
          tags active_only 0 0 search (db w) = (Ok found, st) ->
        get_templates_by_tags_paginated db_service tags active_only page 0
          search w
        = (Raise zero_division,
           World st
             (issued w ++ [ByTagsPaginated tags active_only 0 0 search]))).
Proof.
  intros zero_division. split; intros [found total] st Hq.
  - unfold get_all_templates_paginated. rewrite log_and_reraise_id.
    unfold bind, issue, paginate, raise. rewrite Z.mul_0_r, Hq. done.
  - unfold get_templates_by_tags_paginated. rewrite log_and_reraise_id.
    unfold bind, issue, paginate, raise. rewrite Z.mul_0_r, Hq. done.
Qed.

Lemma pagination_page_size_zero_witness :
  get_all_templates_paginated memory_db true 1 0 None (World two_rows [])
  = (Raise (Exn ZeroDivisionError
              (lit "integer division or modulo by zero")),
     World two_rows [Paginated true 0 0 None]).
Proof.
  exact (proj1 (pagination_page_size_zero memory_db 1 true None []
                  (World two_rows []))
           ([], 2%Z) two_rows eq_refl).
Defined.

End CrudFacts.

(* ================================================================== *)
(** ** Facts about the generation operations *)
(* ================================================================== *)

Module GenFacts.
Import Gen CrudFacts.

Lemma str_eq_true a b : str_eq a b = true <-> a = b.
Proof. unfold str_eq. apply bool_decide_eq_true. Qed.

Lemma str_eq_false a b : str_eq a b = false <-> a <> b.
Proof. unfold str_eq. apply bool_decide_eq_false. Qed.

(** C5, as the code has it. Whatever the mode string, a request without
    a reference image produces the text-only message of mode
    [text_only], and raises nothing; so does mode [text_only] with an
    image. A mode string other than [text_only] and [reference_style],
    malformed ones included, that comes with a reference image is
    treated as the exact-replica mode [one_to_one]. *)
Theorem build_messages_fallback {S} (prompt generation_mode : pystr)
    (reference_image : option image) (s : S) :
  (supplied reference_image = false ->
   build_messages prompt generation_mode reference_image s
   = (Ok (text_only_messages prompt), s))
  /\ build_messages prompt (lit "text_only") reference_image s
     = (Ok (text_only_messages prompt), s)
  /\ (supplied reference_image = true ->
      generation_mode <> lit "text_only" ->
      generation_mode <> lit "reference_style" ->
      build_messages prompt generation_mode reference_image s
      = build_messages prompt (lit "one_to_one") reference_image s).
Proof.
  assert (E1 : str_eq (lit "text_only") (lit "text_only") = true) by calc.
  assert (E2 : str_eq (lit "one_to_one") (lit "text_only") = false) by calc.
  assert (E3 : str_eq (lit "one_to_one") (lit "reference_style") = false)
    by calc.
  unfold build_messages. split_and!.
  - intros ->. rewrite orb_true_r. reflexivity.
  - rewrite E1. reflexivity.
  - intros -> Ht Hr.
    apply str_eq_false in Ht, Hr. rewrite Ht, Hr, E2, E3. reflexivity.
Qed.

Lemma build_messages_fallback_witness :
  build_messages (S := unit) (lit "A pitch deck") (lit "reference_style")
    None tt
  = (Ok (text_only_messages (lit "A pitch deck")), tt)
  /\ build_messages (S := unit) (lit "A pitch deck") (lit "bogus") png tt
     = build_messages (lit "A pitch deck") (lit "one_to_one") png tt.
Proof.
  split.
  - exact (proj1 (build_messages_fallback (lit "A pitch deck")
                    (lit "reference_style") None tt) eq_refl).
  - refine (proj2 (proj2 (build_messages_fallback (lit "A pitch deck")
                            (lit "bogus") png tt)) _ _ _).
    + calc.
    + intros H. vm_compute in H. discriminate H.
    + intros H. vm_compute in H. discriminate H.
Defined.

(** C5 as stated fails: an unknown mode string with a reference image
    does not fall back to the text-only message but builds the
    multimodal message with the exact-replica instructions. *)
Lemma build_messages_unknown_mode_counterexample :
  build_messages (S := unit) (lit "A pitch deck") (lit "bogus") png tt
  = (Ok [Message (lit "user")
           (Parts [TextPart (multimodal_prompt one_to_one_instruction
                               (lit "A pitch deck"));
                   ImageUrlPart (lit "data:image/png;base64,iVBORw0KGgo=")])],
     tt)
  /\ build_messages (S := unit) (lit "A pitch deck") (lit "bogus") png tt
     <> build_messages (lit "A pitch deck") (lit "text_only") png tt.
Proof.
  assert (E : build_messages (S := unit) (lit "A pitch deck") (lit "bogus")
                png tt
              = (Ok [Message (lit "user")
                       (Parts [TextPart
                                 (multimodal_prompt one_to_one_instruction
                                    (lit "A pitch deck"));
                               ImageUrlPart
                                 (lit "data:image/png;base64,iVBORw0KGgo=")])],
                 tt)) by calc.
  split; [exact E |].
  rewrite E.
  assert (E1 : str_eq (lit "text_only") (lit "text_only") = true) by calc.
  unfold build_messages. rewrite E1. unfold ret. cbn [orb].
  intros H. injection H as H. discriminate H.
Qed.

(** *** The retry loop *)

Lemma validates_not_blank (s : pystr) :
  _validate_html_template (PyStr s) = true -> blank s = false.
Proof.
  unfold _validate_html_template, validate_checks.
  by destruct (blank s).
Qed.

Section Retry.

Variable get_role_provider : res (option provider).
Variable ai_messages : list ai_message.

Local Abbreviation attempt_once :=
  (attempt_once get_role_provider ai_messages).
Local Abbreviation retry_loop := (retry_loop get_role_provider ai_messages).

(** An attempt consults the provider at most once. *)
Lemma attempt_once_consults attempt l :
  (consulted (attempt_once attempt l).2 <= S (consulted l))%nat.
Proof.
  unfold Gen.attempt_once, _chat_completion, retry_or_fail.
  unfold catch, bind, lift, modify, ret, raise.
  destruct get_role_provider as [[p|]|e]; simpl;
    [| destruct (attempt <? _)%nat; simpl; lia
     | destruct (attempt <? _)%nat; simpl; lia].
  destruct (chat_completion p (consulted l) ai_messages) as [c|e]; simpl;
    [| destruct (attempt <? _)%nat; simpl; lia].
  destruct (blank c); simpl; [destruct (attempt <? _)%nat; simpl; lia |].
  destruct (_ && _); simpl; [lia |].
  destruct (blank _); simpl; [destruct (attempt <? _)%nat; simpl; lia |].
  destruct (negb _); simpl; [destruct (attempt <? _)%nat; simpl; lia | lia].
Qed.

Lemma retry_loop_consults range : forall l,
  (consulted (retry_loop range l).2 <= consulted l + length range)%nat.
Proof.
  induction range as [|attempt rest IH]; intros l; simpl.
  - unfold ret. simpl. lia.
  - unfold bind. pose proof (attempt_once_consults attempt l) as H.
    destruct (attempt_once attempt l) as [[[|]|e] l']; simpl in *.
    + pose proof (IH l'). lia.
    + unfold ret. simpl. lia.
    + lia.
Qed.

Variable p : provider.
Hypothesis resolved : get_role_provider = Ok (Some p).

(** The answer to the call an attempt makes from the state [l]. *)
Local Abbreviation answer l := (chat_completion p (consulted l) ai_messages).

Lemma attempt_accepted attempt l content :
  answer l = Ok content ->
  accepted (negb (attempt <? max_retries - 1)%nat) (Ok content) = true ->
  attempt_once attempt l
  = (Ok Break,
     Locals (S (consulted l)) (Some content)
            (Some (_extract_html_from_response content))).
Proof.
  intros Ha Hok. simpl in Hok.
  apply andb_true_iff in Hok as [Hok Hv].
  apply andb_true_iff in Hok as [Hb Hlen].
  apply negb_true_iff in Hb.
  unfold Gen.attempt_once, _chat_completion, retry_or_fail.
  unfold catch, bind, lift, modify, ret, raise.
  rewrite resolved. simpl. rewrite Ha. simpl. rewrite Hb. simpl.
  destruct (attempt <? 4)%nat, (length content <? 2000)%nat; simpl in *;
    try discriminate;
    rewrite (validates_not_blank _ Hv); simpl; rewrite Hv; done.
Qed.

Lemma attempt_rejected attempt l :
  (attempt <? max_retries - 1)%nat = true ->
  accepted false (answer l) = false ->
  exists full html,
    attempt_once attempt l = (Ok Continue, Locals (S (consulted l)) full html).
Proof.
  intros Hlt Hno. change (max_retries - 1)%nat with 4%nat in Hlt.
  unfold Gen.attempt_once, _chat_completion, retry_or_fail.
  unfold catch, bind, lift, modify, ret, raise.
  rewrite resolved. simpl. rewrite Hlt.
  destruct (answer l) as [c|e]; simpl; [| by eauto].
  simpl in Hno. destruct (blank c); simpl; [by eauto |].
  simpl in Hno. destruct (length c <? 2000)%nat; simpl; [by eauto |].
  simpl in Hno. rewrite Hno.
  destruct (blank _); simpl; by eauto.
Qed.

Lemma attempt_blank_final attempt l content :
  (attempt <? max_retries - 1)%nat = false ->
  answer l = Ok content -> blank content = true ->
  attempt_once attempt l
  = (Raise empty_response,
     Locals (S (consulted l)) (Some content) (html_template_var l)).
Proof.
  intros Hlt Ha Hb. change (max_retries - 1)%nat with 4%nat in Hlt.
  unfold Gen.attempt_once, _chat_completion, retry_or_fail.
  unfold catch, bind, lift, modify, ret, raise.
  rewrite resolved. simpl. rewrite Ha. simpl. rewrite Hb. simpl.
  by rewrite Hlt.
Qed.

(** The loop stops at the first attempt whose answer is accepted. *)
Lemma retry_loop_recovers n : forall a l k content,
  consulted l = a -> (a <= k < a + n)%nat -> (k < max_retries)%nat ->
  (forall l', (a <= consulted l' < k)%nat ->
              accepted false (answer l') = false) ->
  (forall l', consulted l' = k -> answer l' = Ok content) ->
  accepted (negb (k <? max_retries - 1)%nat) (Ok content) = true ->
  retry_loop (seq a n) l
  = (Ok tt,
     Locals (S k) (Some content)
            (Some (_extract_html_from_response content))).
Proof.
  induction n as [|n IH]; intros a l k content Hl Hk Hk5 Hrej Hans Hok;
    [lia |].
  simpl. unfold bind.
  destruct (decide (a = k)) as [->|Hne].
  - rewrite (attempt_accepted k l content (Hans l Hl) Hok).
    rewrite Hl. done.
  - destruct (attempt_rejected a l) as (full & html & ->).
    + apply Nat.ltb_lt. unfold max_retries in *. lia.
    + apply Hrej. lia.
    + apply (IH (S a) _ k content);
        [simpl; lia | lia | done | intros l' Hl'; apply Hrej; lia
        | done | done].
Qed.

(** Five blank answers exhaust the loop with five calls. *)
Lemma retry_loop_blank n : forall a l,
  consulted l = a -> (a + S n = max_retries)%nat ->
  (forall l', (consulted l' < max_retries)%nat ->
              exists content,
                answer l' = Ok content /\ blank content = true) ->
  exists l',
    retry_loop (seq a (S n)) l = (Raise empty_response, l')
    /\ consulted l' = max_retries.
Proof.
  induction n as [|n IH]; intros a l Hl Ha Hblank.
  - simpl. unfold bind.
    destruct (Hblank l) as (c & Hc & Hb); [lia |].
    rewrite (attempt_blank_final a l c); [| | done | done].
    + eexists. split; [done |]. simpl. lia.
    + apply Nat.ltb_ge. unfold max_retries in *. lia.
  - change (seq a (S (S n))) with (a :: seq (S a) (S n)).
    cbn [Gen.retry_loop]. unfold bind.
    destruct (attempt_rejected a l) as (full & html & ->).
    + apply Nat.ltb_lt. unfold max_retries in *. lia.
    + destruct (Hblank l) as (c & -> & Hb); [lia |]. simpl. by rewrite Hb.
    + apply IH; simpl; lia || done.
Qed.

End Retry.

(** C2, as the code has it. A run of [generate_template_with_ai]
    consults the provider at most 5 times. When every answer is empty or
    blank, the run fails with the empty-response error after exactly 5
    calls. When the answers 1 to k-1 are not accepted and answer k
    (k <= 5) is text that is not blank, is at least 2000 characters long
    unless k = 5, and whose extracted candidate validates, the run
    returns the result of attempt k after exactly k calls. *)
Theorem generation_retry_bound (get_role_provider : res (option provider))
    (prompt template_name description : pystr) (tags : option (list pystr))
    (generation_mode : pystr) (reference_image : option image) :
  let run := generate_template_with_ai get_role_provider prompt
               template_name description tags generation_mode
               reference_image start in
  (consulted run.2 <= max_retries)%nat
  /\ forall p messages,
      get_role_provider = Ok (Some p) ->
      build_messages prompt generation_mode reference_image start
      = (Ok messages, start) ->
      let answer n := chat_completion p n (convert_messages messages) in
      ((forall n, (n < max_retries)%nat ->
                  exists content,
                    answer n = Ok content /\ blank content = true) ->
       run.1 = Raise empty_response /\ consulted run.2 = max_retries)
      /\ (forall k content,
             (k < max_retries)%nat ->
             (forall j, (j < k)%nat -> accepted false (answer j) = false) ->
             answer k = Ok content ->
             blank content = false ->
             (2000 <= length content \/ S k = max_retries)%nat ->
             _validate_html_template
               (PyStr (_extract_html_from_response content)) = true ->
             run.1 = Ok (result_of prompt template_name description tags
                           content)
             /\ consulted run.2 = S k).
Proof.
  intros run. split.
  - subst run. unfold generate_template_with_ai. unfold bind at 1.
    destruct (build_messages _ _ _ start) as [[messages|e] l0] eqn:Hb;
      [| assert (l0 = start) as ->
           by (revert Hb; unfold build_messages, getitem, bind, ret, raise;
               repeat case_match; congruence);
         simpl; unfold max_retries; lia].
    assert (l0 = start) as ->
      by (revert Hb; unfold build_messages, getitem, bind, ret, raise;
          repeat case_match; congruence).
    rewrite log_and_reraise_id. unfold bind, lift, raise.
    destruct get_role_provider as [[p|]|e];
      [| simpl; unfold max_retries; lia | simpl; unfold max_retries; lia].
    pose proof (retry_loop_consults (Ok (Some p))
                  (convert_messages messages) (seq 0 max_retries) start) as H.
    rewrite length_seq in H. change (consulted start) with O in H.
    destruct (Gen.retry_loop _ _ _ start) as [[[]|e] l'];
      cbn [fst snd] in *; [| lia].
    destruct (html_template_var l') as [[|c h]|]; cbn [fst snd]; lia.
  - intros p messages Hp Hm answer. subst run.
    unfold generate_template_with_ai, bind. rewrite Hm.
    rewrite log_and_reraise_id. unfold lift.
    rewrite Hp. split.
    + intros Hblank.
      destruct (retry_loop_blank (Ok (Some p)) (convert_messages messages)
                  p eq_refl 4 0 start eq_refl eq_refl) as (l' & Hl & Hc).
      { intros l0 Hl0. by apply Hblank. }
      change (seq 0 max_retries) with (seq 0 5).
      by rewrite Hl.
    + intros k content Hk Hrej Hans Hnb Hlen Hv.
      unfold bind.
      rewrite (retry_loop_recovers (Ok (Some p)) (convert_messages messages)
                 p eq_refl max_retries 0 start k content);
        try done; try lia.
      * simpl. pose proof (validates_not_blank _ Hv) as Hx.
        unfold blank in Hx. apply orb_false_iff in Hx as [Hx _].
        destruct (_extract_html_from_response content) eqn:E; [done |].
        unfold result_of. by rewrite E.
      * intros l0 Hl0. apply Hrej. lia.
      * by intros l0 ->.
      * simpl. rewrite Hnb, Hv. simpl. rewrite andb_true_r.
        apply orb_true_iff.
        destruct Hlen as [Hlen|Hlen].
        -- right. apply negb_true_iff, Nat.ltb_ge. lia.
        -- left. apply negb_true_iff, Nat.ltb_ge.
           unfold max_retries in *. lia.
Qed.

Lemma generation_retry_bound_witness :
  let generate p :=
    generate_template_with_ai (Ok (Some p)) (lit "A pitch deck") (lit "Deck")
      [] None (lit "text_only") None start in
  let recovering :=
    scripted [lit "I cannot help with that."; lit "<html>oops</html>";
              long_document] in
  ((generate (scripted [])).1 = Raise empty_response
   /\ consulted (generate (scripted [])).2 = 5%nat)
  /\ ((generate recovering).1
      = Ok (result_of (lit "A pitch deck") (lit "Deck") [] None long_document)
      /\ consulted (generate recovering).2 = 3%nat).
Proof.
  intros generate recovering. split.
  - refine (proj1 (proj2 (generation_retry_bound (Ok (Some (scripted [])))
                     (lit "A pitch deck") (lit "Deck") [] None
                     (lit "text_only") None)
                   (scripted []) (text_only_messages (lit "A pitch deck"))
                   eq_refl ltac:(calc)) _).
    intros n _. exists []. split; [by destruct n | reflexivity].
  - refine (proj2 (proj2 (generation_retry_bound (Ok (Some recovering))
                     (lit "A pitch deck") (lit "Deck") [] None
                     (lit "text_only") None)
                   recovering (text_only_messages (lit "A pitch deck"))
                   eq_refl ltac:(calc))
              2%nat long_document _ _ _ _ _ _).
    + unfold max_retries. lia.
    + intros [|[|j]] Hj; [calc | calc | lia].
    + reflexivity.
    + calc.
    + left. apply Nat.leb_le. calc.
    + calc.
Defined.

(** C2 as stated fails: the first answer is text from which a candidate
    is extracted that validates, but it is shorter than 2000 characters
    and the attempt is not the last, so the loop goes on; with blank
    answers afterwards the run fails after five calls instead of
    returning the result of attempt 1 after one. *)
Lemma generation_short_answer_counterexample :
  let p := scripted [short_document] in
  let run :=
    generate_template_with_ai (Ok (Some p)) (lit "A pitch deck") (lit "Deck")
      [] None (lit "text_only") None start in
  chat_completion p 0
    (convert_messages (text_only_messages (lit "A pitch deck")))
  = Ok short_document
  /\ blank short_document = false
  /\ _validate_html_template
       (PyStr (_extract_html_from_response short_document)) = true
  /\ run.1 = Raise empty_response
  /\ consulted run.2 = 5%nat.
Proof. split_and!; calc. Qed.

(** *** How a run of the blocking operation ends *)

Lemma build_messages_pure {S} prompt generation_mode reference_image
    (s s' : S) r :
  build_messages prompt generation_mode reference_image s = (r, s') -> s' = s.
Proof.
  unfold build_messages, getitem, bind, ret, raise.
  repeat case_match; congruence.
Qed.

Section Outcome.

Variable get_role_provider : res (option provider).
Variable ai_messages : list ai_message.
Variable p : provider.
Hypothesis resolved : get_role_provider = Ok (Some p).

Local Abbreviation attempt_once :=
  (attempt_once get_role_provider ai_messages).
Local Abbreviation retry_loop := (retry_loop get_role_provider ai_messages).
Local Abbreviation ans n := (chat_completion p n ai_messages).

(** The final attempt raises when its answer is not accepted. *)
Lemma attempt_final attempt l :
  (attempt <? max_retries - 1)%nat = false ->
  accepted true (ans (consulted l)) = false ->
  exists full html,
    attempt_once attempt l
    = (Raise (final_error (ans (consulted l))),
       Locals (S (consulted l)) full html).
Proof.
  intros Hlt Hno. change (max_retries - 1)%nat with 4%nat in Hlt.
  unfold Gen.attempt_once, _chat_completion, retry_or_fail.
  unfold catch, bind, lift, modify, ret, raise.
  rewrite resolved. simpl. rewrite Hlt.
  destruct (ans (consulted l)) as [c|e]; simpl; [| by eauto].
  simpl in Hno. destruct (blank c) eqn:Hb; simpl; [by eauto |].
  rewrite andb_false_r. simpl in Hno. rewrite Hno.
  destruct (blank (_extract_html_from_response c)); simpl; by eauto.
Qed.

(** The loop ends at some attempt [k + 1]: every earlier answer was
    rejected, and either answer [k + 1] is accepted, or the attempt is
    the final one and the loop raises. *)
Lemma retry_loop_outcome n : forall a l,
  consulted l = a -> (a + S n = max_retries)%nat ->
  exists k,
    (a <= k < max_retries)%nat
    /\ consulted (retry_loop (seq a (S n)) l).2 = S k
    /\ (forall j, (a <= j < k)%nat -> accepted false (ans j) = false)
    /\ match (retry_loop (seq a (S n)) l).1 with
       | Ok _ =>
           exists content,
             ans k = Ok content
             /\ accepted (negb (k <? max_retries - 1)%nat) (Ok content) = true
             /\ (retry_loop (seq a (S n)) l).2
                = Locals (S k) (Some content)
                         (Some (_extract_html_from_response content))
       | Raise e =>
           S k = max_retries /\ accepted true (ans k) = false
           /\ e = final_error (ans k)
       end.
Proof.
  induction n as [|n IH]; intros a l Hl Ha.
  - assert (a = 4%nat) as -> by (unfold max_retries in Ha; lia).
    cbn [seq Gen.retry_loop]. unfold bind.
    destruct (accepted true (ans 4)) eqn:Hacc.
    + destruct (ans 4) as [c|e] eqn:Hans; [| discriminate Hacc].
      rewrite (attempt_accepted get_role_provider ai_messages p resolved 4 l c);
        [| by rewrite Hl | done].
      exists 4%nat. rewrite Hl. cbn [fst snd consulted].
      split_and!; [done | unfold max_retries; lia | done | intros; lia |].
      by exists c.
    + destruct (attempt_final 4 l) as (full & html & ->);
        [done | by rewrite Hl |].
      exists 4%nat. rewrite Hl. cbn [fst snd consulted].
      split_and!; try done; [unfold max_retries; lia | intros; lia].
  - assert (Hlt : (a <? max_retries - 1)%nat = true)
      by (apply Nat.ltb_lt; unfold max_retries in *; lia).
    change (seq a (S (S n))) with (a :: seq (S a) (S n)).
    cbn [Gen.retry_loop]. unfold bind.
    destruct (accepted false (ans a)) eqn:Hacc.
    + destruct (ans a) as [c|e] eqn:Hans; [| discriminate Hacc].
      rewrite (attempt_accepted get_role_provider ai_messages p resolved a l c);
        [| by rewrite Hl | by rewrite Hlt].
      exists a. rewrite Hl. cbn [fst snd consulted].
      split_and!; [done | unfold max_retries in *; lia | done
                  | intros; lia |].
      exists c. by rewrite Hlt.
    + destruct (attempt_rejected get_role_provider ai_messages p resolved a l)
        as (full & html & ->);
        [done | by rewrite Hl |].
      destruct (IH (S a) (Locals (S (consulted l)) full html))
        as (k & Hk & Hc & Hrej & Hout);
        [simpl; lia | lia |].
      exists k. split_and!; [lia | lia | done | | done].
      intros j Hj. destruct (decide (j = a)) as [->|Hne]; [done |].
      apply Hrej. lia.
Qed.

End Outcome.

(** X7. Whatever the provider answers, a result that
    [generate_template_with_ai] returns is the result of the last call
    made, which is one of at most five: the provider is configured, the
    answer to that call is text that is not blank and at least 2000
    characters long unless the call is the fifth, the [html_template]
    returned is the candidate extracted from it and passes the
    validation, [llm_response] is the answer itself, and every earlier
    answer was rejected. *)
Theorem generation_result_valid (get_role_provider : res (option provider))
    (prompt template_name description : pystr) (tags : option (list pystr))
    (generation_mode : pystr) (reference_image : option image)
    (r : generation_result) :
  let run := generate_template_with_ai get_role_provider prompt
               template_name description tags generation_mode
               reference_image start in
  run.1 = Ok r ->
  exists p messages k content,
    get_role_provider = Ok (Some p)
    /\ build_messages prompt generation_mode reference_image start
       = (Ok messages, start)
    /\ (k < max_retries)%nat /\ consulted run.2 = S k
    /\ chat_completion p k (convert_messages messages) = Ok content
    /\ blank content = false
    /\ (2000 <= length content \/ S k = max_retries)%nat
    /\ r = result_of prompt template_name description tags content
    /\ _validate_html_template (PyStr (html_template r)) = true
    /\ forall j, (j < k)%nat ->
         accepted false (chat_completion p j (convert_messages messages))
         = false.
Proof.
  intros run. subst run.
  destruct (generate_template_with_ai _ _ _ _ _ _ _ _) as [o lf] eqn:Hrun.
  cbn [fst snd]. intros ->. revert Hrun.
  unfold generate_template_with_ai. unfold bind at 1.
  destruct (build_messages _ _ _ start) as [[messages|e] l0] eqn:Hb;
    [| by intros [=]].
  pose proof (build_messages_pure _ _ _ _ _ _ Hb) as ->.
  rewrite log_and_reraise_id. unfold bind, lift, raise.
  destruct get_role_provider as [[p|]|e]; [| by intros [=] ..].
  destruct (retry_loop_outcome (Ok (Some p)) (convert_messages messages) p
              eq_refl 4 0 start eq_refl eq_refl)
    as (k & Hk & Hc & Hrej & Hout).
  change (seq 0 max_retries) with (seq 0 5).
  destruct (Gen.retry_loop _ _ (seq 0 5) start) as [[[]|e] l'];
    cbn [fst snd] in *; [| by intros [=]].
  destruct Hout as (content & Hans & Hacc & ->).
  simpl in Hacc. apply andb_true_iff in Hacc as [Hacc Hv].
  apply andb_true_iff in Hacc as [Hnb Hlen].
  apply negb_true_iff in Hnb.
  pose proof (validates_not_blank _ Hv) as Hx.
  unfold blank in Hx. apply orb_false_iff in Hx as [Hx _].
  cbn [html_template_var full_response].
  destruct (_extract_html_from_response content) as [|c html] eqn:E;
    [done |].
  intros [= <- <-]. exists p, messages, k, content.
  split_and!; try done.
  - lia.
  - apply orb_true_iff in Hlen as [Hlen|Hlen].
    + right. apply negb_true_iff, Nat.ltb_ge in Hlen.
      unfold max_retries in *. lia.
    + left. apply negb_true_iff, Nat.ltb_ge in Hlen. lia.
  - unfold result_of. by rewrite E.
  - intros j Hj. apply Hrej. lia.
Qed.

Lemma generation_result_valid_witness :
  let p :=
    scripted [[]; lit "<html>oops</html>"; short_document; [];
              short_document] in
  let run :=
    generate_template_with_ai (Ok (Some p)) (lit "A pitch deck") (lit "Deck")
      [] None (lit "text_only") None start in
  exists k content,
    consulted run.2 = S k
    /\ chat_completion p k
         (convert_messages (text_only_messages (lit "A pitch deck")))
       = Ok content
    /\ _validate_html_template
         (PyStr (_extract_html_from_response content)) = true.
Proof.
  intros p run.
  destruct (generation_result_valid (Ok (Some p)) (lit "A pitch deck")
              (lit "Deck") [] None (lit "text_only") None
              (result_of (lit "A pitch deck") (lit "Deck") [] None
                 short_document) ltac:(calc))
    as (p' & messages & k & content & Hp & Hm & _ & Hc & Ha & _ & _ & Hr & Hv
        & _).
  injection Hp as <-.
  assert (messages = text_only_messages (lit "A pitch deck")) as ->
    by (revert Hm; unfold build_messages;
        replace (str_eq (lit "text_only") (lit "text_only")) with true
          by calc;
        unfold ret; cbn [orb]; by intros [= <-]).
  apply (f_equal llm_response) in Hr.
  unfold result_of in Hr, Hv. cbn [llm_response html_template] in Hr, Hv.
  injection Hr as <-.
  exists k, short_document.
  split_and!; [exact Hc | exact Ha | exact Hv].
Defined.

(** X8. A run of [generate_template_with_ai] that fails does so either
    before any call of the provider (the message could not be built, the
    provider could not be resolved, or none is configured) or after
    exactly five calls, none of whose answers was accepted; the
    exception is then the one the fifth call raised or the [ValueError]
    that tells why the fifth answer was turned down. *)
Theorem generation_failure (get_role_provider : res (option provider))
    (prompt template_name description : pystr) (tags : option (list pystr))
    (generation_mode : pystr) (reference_image : option image) (e : exn) :
  let run := generate_template_with_ai get_role_provider prompt
               template_name description tags generation_mode
               reference_image start in
  let built := build_messages prompt generation_mode reference_image start in
  run.1 = Raise e ->
  (run.2 = start
   /\ (built.1 = Raise e
       \/ (exists messages, built.1 = Ok messages)
          /\ (get_role_provider = Raise e
              \/ get_role_provider = Ok None /\ e = not_configured)))
  \/ exists p messages,
       get_role_provider = Ok (Some p) /\ built = (Ok messages, start)
       /\ consulted run.2 = max_retries
       /\ let answer n := chat_completion p n (convert_messages messages) in
          e = final_error (answer 4%nat)
          /\ accepted true (answer 4%nat) = false
          /\ forall j, (j < 4)%nat -> accepted false (answer j) = false.
Proof.
  intros run built. subst run built.
  destruct (generate_template_with_ai _ _ _ _ _ _ _ _) as [o lf] eqn:Hrun.
  cbn [fst snd]. intros ->. revert Hrun.
  unfold generate_template_with_ai. unfold bind at 1.
  destruct (build_messages _ _ _ start) as [[messages|e0] l0] eqn:Hb;
    pose proof (build_messages_pure _ _ _ _ _ _ Hb) as ->;
    [| intros [= -> <-]; left; by split; [| left]].
  rewrite log_and_reraise_id. unfold bind, lift, raise.
  destruct get_role_provider as [[p|]|e0];
    [| intros [= <- <-]; left; split; [done | right]; split; by eauto
     | intros [= -> <-]; left; split; [done | right]; split; by eauto].
  destruct (retry_loop_outcome (Ok (Some p)) (convert_messages messages) p
              eq_refl 4 0 start eq_refl eq_refl)
    as (k & Hk & Hc & Hrej & Hout).
  change (seq 0 max_retries) with (seq 0 5).
  destruct (Gen.retry_loop _ _ (seq 0 5) start) as [[[]|e0] l'];
    cbn [fst snd] in *.
  - destruct Hout as (content & Hans & Hacc & ->).
    simpl in Hacc. apply andb_true_iff in Hacc as [_ Hv].
    pose proof (validates_not_blank _ Hv) as Hx.
    unfold blank in Hx. apply orb_false_iff in Hx as [Hx _].
    cbn [html_template_var].
    by destruct (_extract_html_from_response content).
  - intros [= -> <-]. right. exists p, messages.
    destruct Hout as (Hk5 & Hacc & ->).
    assert (k = 4%nat) as -> by (unfold max_retries in Hk5; lia).
    split_and!; try done.
    intros j Hj. apply Hrej. lia.
Qed.

Lemma generation_failure_witness :
  let run p :=
    generate_template_with_ai p (lit "A pitch deck") (lit "Deck")
      [] None (lit "text_only") None start in
  (run (Ok None)).2 = start
  /\ consulted (run (Ok (Some (scripted [short_document])))).2 = 5%nat.
Proof.
  intros run. split.
  - destruct (generation_failure (Ok None) (lit "A pitch deck") (lit "Deck")
                [] None (lit "text_only") None not_configured ltac:(calc))
      as [[Hs _]|(p & m & [=] & _)].
    exact Hs.
  - destruct (generation_failure (Ok (Some (scripted [short_document])))
                (lit "A pitch deck") (lit "Deck")
                [] None (lit "text_only") None empty_response ltac:(calc))
      as [[Hs _]|(p & m & _ & _ & Hc & _)]; [| exact Hc].
    exfalso. apply (f_equal consulted) in Hs. revert Hs. by vm_compute.
Defined.

(** *** The generators *)

Lemma thinking_chunks (l : list pystr) : Forall is_thinking (map thinking l).
Proof. induction l; by constructor. Qed.

Lemma stream_loop_spec rest : forall failure full evs,
  stream_loop rest failure full evs
  = (match failure with
     | Some e => Raise e
     | None => Ok (full ++ concat rest)
     end,
     evs ++ map thinking rest).
Proof.
  induction rest as [|chunk rest IH]; intros failure full evs; simpl.
  - rewrite !app_nil_r. by destruct failure.
  - unfold bind, yield, modify. rewrite IH.
    by rewrite <- !app_assoc.
Qed.

Ltac thoughts :=
  repeat first
    [ apply Forall_nil_2
    | apply thinking_chunks
    | apply Forall_app_2
    | apply Forall_cons_2; [exact I |] ].

Ltac step_stream :=
  unfold bind, lift, consume, attr, hasattr, getitem, yield, modify, ret,
    raise in *;
  repeat first [rewrite stream_loop_spec | progress simpl].

Section Streams.

Variable get_role_provider : res (option provider).

(** How the body of the [try] of the generation leaves the event list:
    only progress events when it raises or when the request is
    multimodal, progress events and a final [complete] otherwise. *)
Lemma generate_stream_try_shape prompt template_name description tags
    generation_mode reference_image ai_prompt :
  let out := generate_stream_try get_role_provider prompt template_name
               description tags generation_mode reference_image ai_prompt []
  in
  match out.1 with
  | Raise e => Forall is_thinking out.2
  | Ok _ =>
      if multimodal generation_mode reference_image
      then Forall is_thinking out.2
      else exists pre msg r,
          out.2 = pre ++ [complete msg r] /\ Forall is_thinking pre
  end.
Proof.
  unfold generate_stream_try, multimodal.
  destruct (negb _ && supplied _) eqn:Hmm; step_stream.
  - destruct get_role_provider as [[p|]|e]; step_stream; [| | thoughts].
    + destruct reference_image as [d|]; step_stream; [| thoughts].
      destruct (d !! "data") as [data|]; step_stream; [| thoughts].
      destruct (stream_chat_completion p) as [stream|]; step_stream.
      * destruct (failure (stream _)); step_stream; thoughts.
      * destruct (chat_completion p 0 _); step_stream; thoughts.
    + destruct reference_image as [d|]; step_stream; [| thoughts].
      destruct (d !! "data") as [data|]; step_stream; thoughts.
  - destruct get_role_provider as [[p|]|e]; step_stream; [| thoughts ..].
    destruct (stream_text_completion p) as [stream|]; step_stream.
    + destruct (failure (stream _)); step_stream; [thoughts |].
      destruct (_validate_html_template _); step_stream; [| thoughts].
      eexists _, _, _. split; [reflexivity | thoughts].
    + destruct (text_completion p _); step_stream; [| thoughts].
      destruct (_validate_html_template _); step_stream; [| thoughts].
      eexists [_; _; _; _], _, _. split; [reflexivity | thoughts].
Qed.

(** The body of the [try] of the adjustment ends with its [complete]
    event unless it raises. *)
Lemma adjust_stream_try_shape adjustment_request template_name ai_prompt :
  let out := adjust_stream_try get_role_provider adjustment_request
               template_name ai_prompt [] in
  match out.1 with
  | Raise e => Forall is_thinking out.2
  | Ok _ =>
      exists pre msg html name,
        out.2 = pre ++ [adjusted msg html name] /\ Forall is_thinking pre
  end.
Proof.
  unfold adjust_stream_try. step_stream.
  destruct get_role_provider as [[p|]|e]; step_stream; [| thoughts ..].
  destruct (stream_text_completion p) as [stream|]; step_stream.
  - destruct (failure (stream _)); step_stream; [thoughts |].
    destruct (_validate_html_template _); step_stream; [| thoughts].
    eexists _, _, _, _. split; [reflexivity | thoughts].
  - destruct (text_completion p _); step_stream; [| thoughts].
    destruct (_validate_html_template _); step_stream; [| thoughts].
    eexists [_; _; _; _], _, _, _. split; [reflexivity | thoughts].
Qed.

Lemma thinking_not_error evs :
  Forall is_thinking evs -> Forall (fun ev => ~ is_error ev) evs.
Proof. intros H. eapply Forall_impl; [exact H | by intros [] ? ?]. Qed.

Lemma thinking_not_terminated evs :
  Forall is_thinking evs -> ~ well_terminated evs.
Proof.
  intros H (pre & t & -> & _ & Ht).
  apply Forall_app in H as [_ H]. apply Forall_cons_1 in H as [H _].
  destruct t, Ht; done.
Qed.

(** C6. Neither generator lets an exception out: every run returns
    normally. When the body of the [try] raises, the events are the
    progress events yielded until then followed by exactly one [error]
    event that carries the message of the exception; when it does not
    raise, no [error] event is yielded at all. *)
Theorem streams_never_raise :
  (forall prompt template_name description tags generation_mode
          reference_image,
      let body :=
        generate_stream_try get_role_provider prompt template_name
          description tags generation_mode reference_image
          (stream_prompt prompt generation_mode reference_image) [] in
      let run :=
        generate_template_with_ai_stream get_role_provider prompt
          template_name description tags generation_mode reference_image []
      in
      run.1 = Ok tt
      /\ match body.1 with
         | Raise e =>
             run.2 = body.2 ++ [error (exn_msg e)]
             /\ Forall is_thinking body.2
         | Ok _ =>
             run.2 = body.2 /\ Forall (fun ev => ~ is_error ev) body.2
         end)
  /\ (forall current_html adjustment_request template_name,
      let body :=
        adjust_stream_try get_role_provider adjustment_request
          template_name (adjust_prompt current_html adjustment_request) []
      in
      let run :=
        adjust_template_with_ai_stream get_role_provider current_html
          adjustment_request template_name [] in
      run.1 = Ok tt
      /\ match body.1 with
         | Raise e =>
             run.2 = body.2 ++ [error (exn_msg e)]
             /\ Forall is_thinking body.2
         | Ok _ =>
             run.2 = body.2 /\ Forall (fun ev => ~ is_error ev) body.2
         end).
Proof.
  split.
  - intros prompt template_name description tags generation_mode
      reference_image body run.
    pose proof (generate_stream_try_shape prompt template_name description
                  tags generation_mode reference_image
                  (stream_prompt prompt generation_mode reference_image))
      as H.
    cbn zeta in H. fold body in H.
    subst run. unfold generate_template_with_ai_stream, catch. fold body.
    destruct body as [[[]|e] evs]; cbn [fst snd] in *.
    + split; [done |]. split; [done |].
      destruct (multimodal _ _); [by apply thinking_not_error |].
      destruct H as (pre & msg & r & -> & Hpre).
      apply Forall_app_2; [by apply thinking_not_error |].
      apply Forall_cons_2; [exact (fun H => H) | apply Forall_nil_2].
    + done.
  - intros current_html adjustment_request template_name body run.
    pose proof (adjust_stream_try_shape adjustment_request template_name
                  (adjust_prompt current_html adjustment_request)) as H.
    cbn zeta in H. fold body in H.
    subst run. unfold adjust_template_with_ai_stream, catch. fold body.
    destruct body as [[[]|e] evs]; cbn [fst snd] in *.
    + split; [done |]. split; [done |].
      destruct H as (pre & msg & html & name & -> & Hpre).
      apply Forall_app_2; [by apply thinking_not_error |].
      apply Forall_cons_2; [exact (fun H => H) | apply Forall_nil_2].
    + done.
Qed.

End Streams.

(** C1, on the code. A text-only run of
    [generate_template_with_ai_stream] ends with exactly one terminal
    event after its progress events. A multimodal run (a mode other than
    [text_only] with a reference image) whose [try] body does not raise
    yields progress events only: the full response is never extracted
    or validated and neither [complete] nor [error] is yielded. *)
Theorem stream_terminal_event (get_role_provider : res (option provider))
    (prompt template_name description : pystr) (tags : option (list pystr))
    (generation_mode : pystr) (reference_image : option image) :
  let body :=
    generate_stream_try get_role_provider prompt template_name description
      tags generation_mode reference_image
      (stream_prompt prompt generation_mode reference_image) [] in
  let run :=
    generate_template_with_ai_stream get_role_provider prompt template_name
      description tags generation_mode reference_image [] in
  (multimodal generation_mode reference_image = false ->
   well_terminated run.2)
  /\ (multimodal generation_mode reference_image = true ->
      body.1 = Ok tt ->
      run.1 = Ok tt /\ Forall is_thinking run.2 /\ ~ well_terminated run.2).
Proof.
  intros body run.
  pose proof (generate_stream_try_shape get_role_provider prompt
                template_name description tags generation_mode
                reference_image
                (stream_prompt prompt generation_mode reference_image)) as H.
  cbn zeta in H. fold body in H.
  subst run. unfold generate_template_with_ai_stream, catch. fold body.
  destruct body as [[[]|e] evs]; cbn [fst snd] in *; split.
  - intros Hm. rewrite Hm in H. destruct H as (pre & msg & r & -> & Hpre).
    exists pre, (complete msg r). split_and!; [done | done | by left].
  - intros Hm _. rewrite Hm in H.
    split_and!; [done | done | by apply thinking_not_terminated].
  - intros _. exists evs, (error (exn_msg e)).
    split_and!; [done | done | by right].
  - by intros _ [=].
Qed.

Lemma stream_terminal_event_witness :
  let doc := [lit "Here it is: ```html "; full_document; lit " ```"] in
  well_terminated
    (generate_template_with_ai_stream (Ok (Some (streaming doc)))
       (lit "A pitch deck") (lit "Deck") [] None (lit "text_only") None []).2
  /\ (generate_template_with_ai_stream (Ok (Some (streaming doc)))
        (lit "A pitch deck") (lit "Deck") [] None (lit "reference_style")
        png []
      = (Ok tt, map thinking doc)
      /\ ~ well_terminated
           (generate_template_with_ai_stream (Ok (Some (streaming doc)))
              (lit "A pitch deck") (lit "Deck") [] None
              (lit "reference_style") png []).2).
Proof.
  intros doc. split.
  - exact (proj1 (stream_terminal_event (Ok (Some (streaming doc)))
                    (lit "A pitch deck") (lit "Deck") [] None
                    (lit "text_only") None) ltac:(calc)).
  - split; [calc |].
    exact (proj2 (proj2 (proj2 (stream_terminal_event
                    (Ok (Some (streaming doc)))
                    (lit "A pitch deck") (lit "Deck") [] None
                    (lit "reference_style") png) ltac:(calc) ltac:(calc)))).
Defined.

(** A provider that raises on every call: one [error] event, and the
    iteration ends normally. *)
Example failing_provider_stream :
  let boom := Exn OtherError (lit "connection reset") in
  generate_template_with_ai_stream (Ok (Some (failing boom)))
    (lit "A pitch deck") (lit "Deck") [] None (lit "text_only") None []
  = (Ok tt, [error (lit "connection reset")])
  /\ generate_template_with_ai_stream (Ok (Some (failing boom)))
       (lit "A pitch deck") (lit "Deck") [] None (lit "one_to_one") png []
     = (Ok tt, [error (lit "connection reset")])
  /\ adjust_template_with_ai_stream (Ok (Some (failing boom)))
       full_document (lit "Make the title blue") (lit "Deck") []
     = (Ok tt, [error (lit "connection reset")])
  /\ generate_template_with_ai_stream (Raise boom)
       (lit "A pitch deck") (lit "Deck") [] None (lit "text_only") None []
     = (Ok tt, [error (lit "connection reset")]).
Proof. split_and!; calc. Qed.

(** A text-only run over a streaming provider: the chunks, the two
    status lines and the [complete] event. *)
Example streaming_provider_stream :
  let doc := [lit "Here it is: ```html "; full_document; lit " ```"] in
  (generate_template_with_ai_stream (Ok (Some (streaming doc)))
     (lit "A pitch deck") (lit "Deck") [] None (lit "text_only") None []).2
  = map thinking doc
    ++ [thinking (lit "

✨ 优化样式和交互效果...
");
        thinking (lit "✅ 模板生成完成，准备预览...
");
        complete (lit "模板生成完成！")
          (result_of (lit "A pitch deck") (lit "Deck") [] None
             (concat doc))].
Proof. calc. Qed.

(** *** The reference image *)

Lemma data_url_is_data_url (image_type data : pystr) :
  startswith (data_url image_type data) (lit "data:") = true.
Proof.
  unfold data_url. destruct (startswith data (lit "data:")) eqn:E; [done |].
  apply TextFacts.startswith_prefix. by apply prefix_app_r.
Qed.

(** X9. The message list that [generate_template_with_ai] builds reaches
    the provider whole: a request on the text path becomes one message
    with the text-only prompt; a request with a reference image in
    another mode becomes one message with the multimodal prompt and the
    image, whose URL is always a data URL (the data as supplied when it
    is one, wrapped with the image type otherwise), so that the
    conversion, which drops images with any other URL, never drops
    it. *)
Theorem built_messages_reach_provider {S} (prompt generation_mode : pystr)
    (reference_image : option image) (s s' : S) (messages : list message) :
  build_messages prompt generation_mode reference_image s
  = (Ok messages, s') ->
  s' = s
  /\ if multimodal generation_mode reference_image
     then
       exists d data,
         reference_image = Some d /\ d !! "data" = Some data
         /\ (startswith data (lit "data:") = false -> is_Some (d !! "type"))
         /\ let url := data_url (default [] (d !! "type")) data in
            startswith url (lit "data:") = true
            /\ convert_messages messages
               = [AIMessage
                    [TextContent
                       (multimodal_prompt
                          (if str_eq generation_mode (lit "reference_style")
                           then reference_style_instruction
                           else one_to_one_instruction) prompt);
                     ImageContent url]]
     else
       convert_messages messages
       = [AIMessage [TextContent (text_only_prompt prompt)]].
Proof.
  intros Hb. split; [by eapply build_messages_pure |].
  revert Hb. unfold build_messages, multimodal.
  destruct (str_eq generation_mode (lit "text_only")); cbn [orb negb andb];
    [by intros [= <- _] |].
  destruct (supplied reference_image) eqn:Hs; cbn [orb negb andb];
    [| by intros [= <- _]].
  unfold getitem, bind, ret, raise.
  destruct reference_image as [d|]; [| done].
  destruct (d !! "data") as [data|] eqn:Hd; [| by intros [=]].
  pose proof (data_url_is_data_url (default [] (d !! "type")) data) as Hu.
  unfold data_url in *.
  destruct (startswith data (lit "data:")) eqn:Hp; cbn [negb].
  - intros [= <- _]. exists d, data. rewrite !Hp.
    split_and!; try done.
    unfold convert_messages. cbn [map body concat convert_part app].
    by rewrite Hp.
  - destruct (d !! "type") as [ty|] eqn:Ht; [| by intros [=]].
    cbn [default] in *. intros [= <- _]. exists d, data. rewrite !Hp, Ht.
    cbn [default]. split_and!; try done;
      unfold convert_messages; cbn [map body concat convert_part];
      rewrite Hu; by rewrite app_nil_r.
Qed.

Lemma built_messages_reach_provider_witness :
  let messages :=
    [Message (lit "user")
       (Parts [TextPart (multimodal_prompt reference_style_instruction
                           (lit "A pitch deck"));
               ImageUrlPart (lit "data:image/jpeg;base64,/9j/4AAQSkZJRg==")])]
  in
  convert_messages messages
  = [AIMessage
       [TextContent
          (multimodal_prompt reference_style_instruction (lit "A pitch deck"));
        ImageContent (lit "data:image/jpeg;base64,/9j/4AAQSkZJRg==")]].
Proof.
  intros messages.
  destruct (built_messages_reach_provider (S := unit) (lit "A pitch deck")
              (lit "reference_style") (Some raw_jpeg) tt tt messages
              ltac:(calc))
    as [_ H].
  replace (multimodal _ _) with true in H by calc.
  destruct H as (d & data & [= <-] & Hd & _ & _ & Hc).
  replace (raw_jpeg !! "data") with (Some (lit "/9j/4AAQSkZJRg==")) in Hd
    by calc.
  injection Hd as <-. rewrite Hc. calc.
Defined.

(** X10. The two generation operations treat a reference image that
    lacks a key differently. Without [data], the blocking operation
    raises [KeyError] before it looks for a provider, while the
    generator reports the same error as its only event. Without [type],
    and with data that is not a data URL, the blocking operation raises
    [KeyError] again, while the generator assumes [image/png] and sends
    the request to the provider. *)
Theorem missing_image_keys (get_role_provider : res (option provider))
    (prompt template_name description : pystr) (tags : option (list pystr))
    (generation_mode : pystr) (d : image) :
  multimodal generation_mode (Some d) = true ->
  let blocking :=
    generate_template_with_ai get_role_provider prompt template_name
      description tags generation_mode (Some d) start in
  let stream :=
    generate_template_with_ai_stream get_role_provider prompt template_name
      description tags generation_mode (Some d) [] in
  (d !! "data" = None ->
   blocking = (Raise (Exn KeyError (lit "'data'")), start)
   /\ forall the_provider,
        get_role_provider = Ok the_provider ->
        stream = (Ok tt, [error (lit "'data'")]))
  /\ (forall data,
        d !! "data" = Some data -> startswith data (lit "data:") = false ->
        d !! "type" = None ->
        blocking = (Raise (Exn KeyError (lit "'type'")), start)
        /\ forall p chat,
             get_role_provider = Ok (Some p) ->
             stream_chat_completion p = Some chat ->
             let c :=
               chat [AIMessage
                       [TextContent
                          (stream_prompt prompt generation_mode (Some d));
                        ImageContent (data_url (lit "image/png") data)]] in
             stream
             = (Ok tt,
                map thinking (yielded c)
                ++ match failure c with
                   | Some e => [error (exn_msg e)]
                   | None => []
                   end)).
Proof.
  intros Hm blocking stream. subst blocking stream.
  assert (K1 : lit "'" ++ bytes_of "data" ++ lit "'" = lit "'data'") by calc.
  assert (K2 : lit "'" ++ bytes_of "type" ++ lit "'" = lit "'type'") by calc.
  unfold multimodal in Hm. apply andb_true_iff in Hm as [Hm Hs].
  apply negb_true_iff in Hm.
  unfold generate_template_with_ai, generate_template_with_ai_stream,
    generate_stream_try, build_messages, catch.
  rewrite Hm, Hs. cbn [orb negb andb]. split.
  - intros Hd. split.
    + unfold getitem, bind, raise. rewrite Hd. by rewrite K1.
    + intros the_provider ->. unfold getitem, bind, lift, raise, yield, modify.
      rewrite Hd. cbn [exn_msg app]. by rewrite K1.
  - intros data Hd Hp Ht. split.
    + unfold getitem, bind, ret, raise. rewrite Hd, Hp, Ht. cbn [negb].
      by rewrite K2.
    + intros p chat -> Hchat.
      unfold getitem, bind, lift, ret, raise, hasattr, consume.
      rewrite Hd, Hp, Hchat. cbn [negb mbind option_bind default].
      rewrite Ht. cbn [default]. rewrite stream_loop_spec.
      unfold data_url. rewrite Hp. cbn [app].
      destruct (failure _); [| by rewrite app_nil_r].
      unfold yield, modify. done.
Qed.

Lemma missing_image_keys_witness :
  generate_template_with_ai (Ok (Some (streaming [lit "Looking..."])))
    (lit "A pitch deck") (lit "Deck") [] None (lit "one_to_one")
    (Some untyped_image) start
  = (Raise (Exn KeyError (lit "'type'")), start)
  /\ generate_template_with_ai_stream
       (Ok (Some (streaming [lit "Looking..."])))
       (lit "A pitch deck") (lit "Deck") [] None (lit "one_to_one")
       (Some untyped_image) []
     = (Ok tt, [thinking (lit "Looking...")]).
Proof.
  destruct (proj2 (missing_image_keys
                     (Ok (Some (streaming [lit "Looking..."])))
                     (lit "A pitch deck") (lit "Deck") [] None
                     (lit "one_to_one") untyped_image ltac:(calc))
              (lit "iVBORw0KGgo=") ltac:(calc) ltac:(calc) ltac:(calc))
    as [Hb Hs].
  split; [exact Hb |].
  exact (Hs (streaming [lit "Looking..."]) _ eq_refl eq_refl).
Defined.

(** *** How a run of a generator ends *)

(** X11. Every run of [adjust_template_with_ai_stream] returns normally
    and yields progress events followed by exactly one terminal event,
    whether or not a provider is configured and whatever it does. *)
Theorem adjust_stream_terminates (get_role_provider : res (option provider))
    (current_html adjustment_request template_name : pystr) :
  let run :=
    adjust_template_with_ai_stream get_role_provider current_html
      adjustment_request template_name [] in
  run.1 = Ok tt /\ well_terminated run.2.
Proof.
  intros run.
  pose proof (adjust_stream_try_shape get_role_provider adjustment_request
                template_name (adjust_prompt current_html adjustment_request))
    as H.
  cbn zeta in H. subst run. unfold adjust_template_with_ai_stream, catch.
  destruct (adjust_stream_try _ _ _ _ []) as [[[]|e] evs]; cbn [fst snd] in *.
  - split; [done |]. destruct H as (pre & msg & html & name & -> & Hpre).
    exists pre, (adjusted msg html name). split_and!; [done | done | by left].
  - split; [done |]. exists evs, (error (exn_msg e)).
    split_and!; [done | done | by right].
Qed.

(** X12. On the text path of [generate_template_with_ai_stream] with a
    configured provider, the prompt is the text-only prompt and the last
    event is decided by the full response alone: [complete], carrying
    the candidate extracted from it and the response itself, when the
    provider answered and the candidate validates; [error] with the
    provider's message when it raised, or with the invalid-template
    message otherwise. The chunks of a provider that streams are
    yielded first, in order, as [thinking] events. *)
Theorem text_stream_outcome (get_role_provider : res (option provider))
    (p : provider) (prompt template_name description : pystr)
    (tags : option (list pystr)) (generation_mode : pystr)
    (reference_image : option image) :
  get_role_provider = Ok (Some p) ->
  multimodal generation_mode reference_image = false ->
  let ai_prompt := text_only_prompt prompt in
  let run :=
    generate_template_with_ai_stream get_role_provider prompt template_name
      description tags generation_mode reference_image [] in
  exists pre,
    run
    = (Ok tt,
       pre ++ [match text_answer p ai_prompt with
               | Raise e => error (exn_msg e)
               | Ok content =>
                   if _validate_html_template
                        (PyStr (_extract_html_from_response content))
                   then complete (lit "模板生成完成！")
                          (result_of prompt template_name description tags
                             content)
                   else error (lit "Generated HTML template is invalid")
               end])
    /\ Forall is_thinking pre
    /\ forall stream,
         stream_text_completion p = Some stream ->
         map thinking (yielded (stream ai_prompt)) `prefix_of` pre.
Proof.
  intros -> Hm ai_prompt run. subst run.
  unfold generate_template_with_ai_stream, generate_stream_try, stream_prompt,
    text_answer, catch.
  fold (multimodal generation_mode reference_image).
  assert (str_eq generation_mode (lit "text_only")
          || negb (supplied reference_image) = true) as ->
    by (revert Hm; unfold multimodal;
        by destruct (str_eq _ _), (supplied _)).
  rewrite Hm. fold ai_prompt. generalize ai_prompt. clear ai_prompt.
  intros ai_prompt. step_stream.
  destruct (stream_text_completion p) as [stream|]; step_stream.
  - destruct (failure (stream ai_prompt)); step_stream.
    + eexists. split_and!; [reflexivity | thoughts |].
      intros ? [= <-]. done.
    + destruct (_validate_html_template _); step_stream.
      * eexists. split_and!; [reflexivity | thoughts |].
        intros ? [= <-]. by do 2 apply prefix_app_r.
      * eexists. split_and!; [reflexivity | thoughts |].
        intros ? [= <-]. by apply prefix_app_r.
  - destruct (text_completion p ai_prompt); step_stream.
    + destruct (_validate_html_template _); step_stream.
      * eexists [_; _; _; _]. split_and!; [reflexivity | thoughts | done].
      * eexists [_; _; _]. split_and!; [reflexivity | thoughts | done].
    + eexists []. split_and!; [reflexivity | thoughts | done].
Qed.

Lemma text_stream_outcome_witness :
  let doc := [lit "Here it is: ```html "; full_document; lit " ```"] in
  exists pre,
    generate_template_with_ai_stream (Ok (Some (streaming doc)))
      (lit "A pitch deck") (lit "Deck") [] None (lit "reference_style")
      None []
    = (Ok tt,
       pre ++ [complete (lit "模板生成完成！")
                 (result_of (lit "A pitch deck") (lit "Deck") [] None
                    (concat doc))])
    /\ map thinking doc `prefix_of` pre.
Proof.
  intros doc.
  destruct (text_stream_outcome (Ok (Some (streaming doc))) (streaming doc)
              (lit "A pitch deck") (lit "Deck") [] None
              (lit "reference_style") None eq_refl ltac:(calc))
    as (pre & Hrun & _ & Hpre).
  exists pre. split; [| exact (Hpre _ eq_refl)].
  rewrite Hrun.
  apply (f_equal (fun t => (Ok tt, pre ++ [t]))). calc.
Defined.

(** X13. With a configured provider, the last event of
    [adjust_template_with_ai_stream] is decided by the full response
    alone: [complete], carrying the candidate extracted from it and the
    template name as given, when the provider answered and the candidate
    validates; [error] with the provider's message when it raised, or
    with the invalid-template message otherwise. *)
Theorem adjust_stream_outcome (get_role_provider : res (option provider))
    (p : provider) (current_html adjustment_request template_name : pystr) :
  get_role_provider = Ok (Some p) ->
  let ai_prompt := adjust_prompt current_html adjustment_request in
  let run :=
    adjust_template_with_ai_stream get_role_provider current_html
      adjustment_request template_name [] in
  exists pre,
    run
    = (Ok tt,
       pre ++ [match text_answer p ai_prompt with
               | Raise e => error (exn_msg e)
               | Ok content =>
                   if _validate_html_template
                        (PyStr (_extract_html_from_response content))
                   then adjusted (lit "模板调整完成！")
                          (_extract_html_from_response content) template_name
                   else error (lit "Adjusted HTML template is invalid")
               end])
    /\ Forall is_thinking pre.
Proof.
  intros -> ai_prompt run. subst run.
  unfold adjust_template_with_ai_stream, adjust_stream_try, text_answer,
    catch.
  fold ai_prompt. generalize ai_prompt. clear ai_prompt.
  intros ai_prompt. step_stream.
  destruct (stream_text_completion p) as [stream|]; step_stream.
  - destruct (failure (stream ai_prompt)); step_stream.
    + eexists. split; [reflexivity | thoughts].
    + destruct (_validate_html_template _); step_stream.
      * eexists. split; [reflexivity | thoughts].
      * eexists. split; [reflexivity | thoughts].
  - destruct (text_completion p ai_prompt); step_stream.
    + destruct (_validate_html_template _); step_stream.
      * eexists [_; _; _; _]. split; [reflexivity | thoughts].
      * eexists [_; _; _; _]. split; [reflexivity | thoughts].
    + eexists [_; _; _]. split; [reflexivity | thoughts].
Qed.

Lemma adjust_stream_outcome_witness :
  exists pre,
    adjust_template_with_ai_stream (Ok (Some (scripted [full_document])))
      untitled_document (lit "Add a title") (lit "Deck") []
    = (Ok tt, pre ++ [adjusted (lit "模板调整完成！") full_document (lit "Deck")]).
Proof.
  destruct (adjust_stream_outcome (Ok (Some (scripted [full_document])))
              (scripted [full_document]) untitled_document
              (lit "Add a title") (lit "Deck") eq_refl)
    as (pre & Hrun & _).
  exists pre. rewrite Hrun.
  apply (f_equal (fun t => (Ok tt, pre ++ [t]))). calc.
Defined.

End GenFacts.

(* ================================================================== *)
(** ** Facts about the style configuration *)
(* ================================================================== *)

Module StyleFacts.
Import Style.

Lemma match_rep_eq p k s :
  match_here (Rep k :: p) s =
  let stop := cons [] <$> match_here p s in
  match s with
  | x :: s' =>
      if in_set k x then
        match match_here (Rep k :: p) s' with
        | Some r => Some (push x r)
        | None => stop
        end
      else stop
  | [] => stop
  end.
Proof. by destruct s. Qed.

Ltac flat :=
  cbn [concat app];
  repeat first
    [ rewrite <- app_assoc | rewrite <- app_comm_cons
    | rewrite app_nil_r | rewrite app_nil_l ].

Lemma concat_push x r : concat (push x r) = x :: concat r.
Proof. by destruct r. Qed.

Lemma consumes_cons i p seg segs s :
  item_ok i seg -> parses p segs s -> parses (i :: p) (seg :: segs) (seg ++ s).
Proof.
  intros Hn [Hp Hs]. split; [by constructor |].
  simpl. by apply prefix_app.
Qed.

Lemma consumes_push k p x r s :
  in_set k x = true ->
  parses (Rep k :: p) r s -> parses (Rep k :: p) (push x r) (x :: s).
Proof.
  intros Hx [Hp Hs]. inversion Hp as [|n seg p' segs Hn Hp']; subst.
  split; simpl.
  - constructor; [by constructor | done].
  - simpl in Hs. by apply prefix_cons.
Qed.

(** Whatever the matcher returns is a way of matching the pattern. *)
Lemma matcher_sound p : forall s segs,
  match_here p s = Some segs -> parses p segs s.
Proof.
  induction p as [|n p IH]; intros s segs H.
  - injection H as <-. split; [constructor | apply prefix_nil].
  - destruct n as [c | k | k].
    + simpl in H. destruct s as [|x s]; [done |].
      destruct (same_letter c x) eqn:Hx; [|done].
      destruct (match_here p s) as [r|] eqn:Hr; [|done].
      injection H as <-.
      apply (consumes_cons (Chr c) p [x] r s); [by exists x | by apply IH].
    + revert segs H. induction s as [|x s IHs]; intros segs H;
        rewrite match_rep_eq in H; cbn zeta in H.
      * destruct (match_here p []) as [r|] eqn:Hr; [|done].
        injection H as <-.
        apply (consumes_cons (Rep k) p [] r []); [constructor | by apply IH].
      * assert (Hstop : forall segs,
                   cons [] <$> match_here p (x :: s) = Some segs ->
                   parses (Rep k :: p) segs (x :: s)).
        { intros segs' H'.
          destruct (match_here p (x :: s)) as [r|] eqn:Hr; [|done].
          injection H' as <-.
          apply (consumes_cons (Rep k) p [] r (x :: s));
            [constructor | by apply IH]. }
        destruct (in_set k x) eqn:Hx; [|by apply Hstop].
        destruct (match_here (Rep k :: p) s) as [r|] eqn:Hr.
        -- injection H as <-. apply consumes_push; [done | by apply IHs].
        -- by apply Hstop.
    + simpl in H. destruct s as [|x s]; [done |].
      destruct (in_set k x) eqn:Hx; [|done].
      destruct (match_here p s) as [r|] eqn:Hr; [|done].
      injection H as <-.
      apply (consumes_cons (One k) p [x] r s); [by exists x | by apply IH].
Qed.

(** A pattern that can be matched at the start of the subject is
    matched: backtracking leaves no alternative out. *)
Lemma matcher_complete p : forall segs s,
  parses p segs s -> is_Some (match_here p s).
Proof.
  induction p as [|n p IH]; intros segs s [Hp Hs]; [done |].
  inversion Hp as [|n' seg p' segs' Hn Hp']; subst. simpl in Hs.
  assert (Htail : forall t, concat segs' `prefix_of` t ->
                            is_Some (match_here p t))
    by (intros t Ht; apply (IH segs'); by split).
  clear Hp IH.
  destruct n as [c | k | k]; simpl in Hn.
  - destruct Hn as (x & -> & Hx). destruct Hs as [r ->]. simpl.
    rewrite Hx. apply fmap_is_Some, Htail. by apply prefix_app_r.
  - revert s Hs. induction Hn as [|x seg Hx Hseg IHseg]; intros s Hs.
    + assert (is_Some (cons [] <$> match_here p s)) as [r Hr]
        by (by apply fmap_is_Some, Htail).
      rewrite match_rep_eq. cbn zeta. rewrite Hr.
      destruct s as [|y s]; [done |].
      destruct (in_set k y); [|done].
      by destruct (match_here (Rep k :: p) s).
    + destruct Hs as [r ->]. rewrite <- !app_comm_cons.
      assert (is_Some (match_here (Rep k :: p)
                         ((seg ++ concat segs') ++ r))) as [r' Hr']
        by (apply IHseg; by apply prefix_app_r).
      rewrite match_rep_eq. cbn zeta. rewrite Hx, Hr'. done.
  - destruct Hn as (x & -> & Hx). destruct Hs as [r ->]. simpl.
    rewrite Hx. apply fmap_is_Some, Htail. by apply prefix_app_r.
Qed.

(** A repeat at the end of the pattern stops only at a code point that
    is not in its set, or at the end of the subject. *)
Lemma match_here_maximal p k : forall s segs,
  match_here (p ++ [Rep k]) s = Some segs ->
  forall x rest, s = concat segs ++ x :: rest -> in_set k x = false.
Proof.
  induction p as [|n p IH]; intros s segs H x rest Hs.
  - rewrite app_nil_l in H. revert segs H x rest Hs.
    induction s as [|y s IHs]; intros segs H x rest Hs;
      rewrite match_rep_eq in H; cbn zeta in H.
    + by destruct (concat segs).
    + destruct (in_set k y) eqn:Hy.
      * destruct (match_here [Rep k] s) as [r|] eqn:Hr.
        -- injection H as <-. rewrite concat_push in Hs.
           injection Hs as Hs. by eapply IHs.
        -- destruct (matcher_complete [Rep k] [[]] s) as [r Hr'];
             [| congruence].
           split; [by repeat constructor | apply prefix_nil].
      * injection H as <-. injection Hs as <- _. done.
  - rewrite <- app_comm_cons in H. destruct n as [c | k' | k'].
    + simpl in H. destruct s as [|y s]; [done |].
      destruct (same_letter c y); [| done].
      destruct (match_here (p ++ [Rep k]) s) as [r|] eqn:Hr; [| done].
      injection H as <-. injection Hs as Hs. by eapply IH.
    + revert segs H x rest Hs.
      induction s as [|y s IHs]; intros segs H x rest Hs;
        rewrite match_rep_eq in H; cbn zeta in H.
      * destruct (match_here (p ++ [Rep k]) []) as [r|] eqn:Hr; [| done].
        injection H as <-. by eapply IH.
      * assert (Hstop : cons [] <$> match_here (p ++ [Rep k]) (y :: s)
                        = Some segs -> in_set k x = false).
        { intros H'.
          destruct (match_here (p ++ [Rep k]) (y :: s)) as [r|] eqn:Hr;
            [| done].
          injection H' as <-. by eapply IH. }
        destruct (in_set k' y); [| by apply Hstop].
        destruct (match_here (Rep k' :: p ++ [Rep k]) s) as [r|] eqn:Hr;
          [| by apply Hstop].
        injection H as <-. rewrite concat_push in Hs.
        injection Hs as Hs. by eapply IHs.
    + simpl in H. destruct s as [|y s]; [done |].
      destruct (in_set k' y); [| done].
      destruct (match_here (p ++ [Rep k]) s) as [r|] eqn:Hr; [| done].
      injection H as <-. injection Hs as Hs. by eapply IH.
Qed.

(** *** The two patterns *)

Lemma same_letter_colon x : same_letter 58 x = true -> x = 58.
Proof.
  unfold same_letter. change (tolower 58) with 58.
  change (58 =? 105) with false. change (58 =? 115) with false.
  cbn [andb]. rewrite !orb_false_r. intros H%N.eqb_eq.
  unfold tolower in H.
  destruct ((65 <=? x) && (x <=? 90)) eqn:E1.
  - apply andb_true_iff in E1 as [E1 E2]. apply N.leb_le in E1, E2. lia.
  - destruct (x =? 304) eqn:E2; [lia |].
    destruct (x =? 8490) eqn:E3; [lia | done].
Qed.

Lemma word_parse (w : pystr) : forall segs,
  Forall2 item_ok (map Chr w) segs ->
  exists kw,
    segs = singletons kw /\ Forall2 (fun c x => same_letter c x = true) w kw.
Proof.
  induction w as [|c w IH]; intros segs H.
  - apply Forall2_nil_inv_l in H as ->. by exists [].
  - apply Forall2_cons_inv_l in H as (seg & segs' & (x & -> & Hx) & H & ->).
    destruct (IH _ H) as (kw & -> & Hkw).
    exists (x :: kw). split; [done | by constructor].
Qed.

Lemma except_absent c (l : pystr) :
  Forall (fun x => in_set (Except c) x = true) l <-> c ∉ l.
Proof.
  rewrite Forall_forall. split.
  - intros H Hc. specialize (H c Hc). simpl in H.
    by rewrite N.eqb_refl in H.
  - intros H x Hx. simpl. apply negb_true_iff, N.eqb_neq. by intros ->.
Qed.

(** What a match of a keyword followed by the declaration tail looks
    like. *)
Lemma declaration_parse w segs s :
  parses (word w ++ declaration) segs s ->
  exists kw mid ws c g rest,
    segs = singletons kw ++ [mid; [58]; ws; [c]; g]
    /\ s = kw ++ mid ++ [58] ++ ws ++ (c :: g) ++ rest
    /\ keyword w kw /\ (58 ∉ mid) /\ spaces ws /\ c <> 59 /\ (59 ∉ g).
Proof.
  intros [Hp [rest Hs]]. unfold word in Hp.
  apply Forall2_app_inv_l in Hp as (s1 & s2 & H1 & H2 & ->).
  apply word_parse in H1 as (kw & -> & Hkw).
  unfold declaration in H2.
  apply Forall2_cons_inv_l in H2 as (mid & r1 & Hmid & H2 & ->).
  apply Forall2_cons_inv_l in H2 as (col & r2 & (x & -> & Hx) & H2 & ->).
  apply Forall2_cons_inv_l in H2 as (ws & r3 & Hws & H2 & ->).
  apply Forall2_cons_inv_l in H2 as (one & r4 & (c & -> & Hc) & H2 & ->).
  apply Forall2_cons_inv_l in H2 as (g & r5 & Hg & H2 & ->).
  apply Forall2_nil_inv_l in H2 as ->.
  apply same_letter_colon in Hx as ->.
  exists kw, mid, ws, c, g, rest. split_and!; try done.
  - rewrite Hs, concat_app, ReFacts.concat_singletons. by flat.
  - by apply except_absent.
  - simpl in Hc. by apply negb_true_iff, N.eqb_neq in Hc.
  - by apply except_absent.
Qed.

Lemma group1_declaration (kw mid col ws one g : pystr) :
  group1 (singletons kw ++ [mid; col; ws; one; g]) = one ++ g.
Proof.
  unfold group1. rewrite length_app. simpl length.
  replace (length (singletons kw) + 5 - 2)%nat
    with (length (singletons kw) + 3)%nat by lia.
  rewrite drop_app_add. simpl. by rewrite app_nil_r.
Qed.

(** A match of a keyword pattern reports a value. *)
Lemma declaration_match w s segs :
  match_here (word w ++ declaration) s = Some segs ->
  exists kw mid ws post,
    s = kw ++ mid ++ [58] ++ ws ++ group1 segs ++ post
    /\ post = drop (length (concat segs)) s
    /\ keyword w kw /\ (58 ∉ mid) /\ spaces ws
    /\ group1 segs <> [] /\ (59 ∉ group1 segs)
    /\ (post = [] \/ exists post', post = 59 :: post').
Proof.
  intros H. pose proof (matcher_sound _ _ _ H) as Hp.
  pose proof Hp as [_ [rest0 Hrest0]].
  apply declaration_parse in Hp
    as (kw & mid & ws & c & g & rest & -> & Hs & Hkw & Hmid & Hws & Hc & Hg).
  rewrite group1_declaration.
  assert (rest0 = rest) as ->.
  { rewrite Hs in Hrest0.
    assert (concat (singletons kw ++ [mid; [58]; ws; [c]; g])
            = kw ++ mid ++ [58] ++ ws ++ c :: g) as E
      by (rewrite concat_app, ReFacts.concat_singletons; by flat).
    rewrite E in Hrest0. revert Hrest0. flat.
    intros Hrest0. repeat (apply app_inv_head in Hrest0
                           || injection Hrest0 as Hrest0).
    done. }
  exists kw, mid, ws, rest. split_and!; try done.
  - rewrite Hrest0 at 1. by rewrite drop_app_length.
  - apply not_elem_of_cons. split; [congruence | done].
  - destruct rest as [|x rest']; [by left | right].
    assert (in_set (Except 59) x = false) as Hx.
    { eapply (match_here_maximal
                (word w ++ [Rep (Except 58); Chr 58; Rep Blank;
                            One (Except 59)]) (Except 59) s);
        [by rewrite <- app_assoc | exact Hrest0]. }
    simpl in Hx. apply negb_false_iff, N.eqb_eq in Hx as ->. by eexists.
Qed.

(** A declaration at the start of the text is matched. *)
Lemma declares_match w s :
  declares w s <-> is_Some (match_here (word w ++ declaration) s).
Proof.
  split.
  - intros (kw & mid & c & rest & -> & Hkw & Hmid & Hc).
    apply (matcher_complete _
             (singletons kw ++ [mid; [58]; []; [c]; []])).
    split.
    + apply Forall2_app.
      * unfold word. clear -Hkw. unfold keyword in Hkw.
        induction Hkw as [|a x w' kw' Hx _ IH]; [constructor |].
        constructor; [by exists x | done].
      * repeat constructor; try by apply except_absent.
        -- by exists 58.
        -- exists c. split; [done |]. simpl.
           by apply negb_true_iff, N.eqb_neq.
    + rewrite concat_app, ReFacts.concat_singletons.
      exists rest. by flat.
  - intros [segs H]. apply matcher_sound, declaration_parse in H
      as (kw & mid & ws & c & g & rest & _ & -> & Hkw & Hmid & Hws & Hc & _).
    destruct ws as [|y ws].
    + by exists kw, mid, c, (g ++ rest).
    + exists kw, mid, y, (ws ++ (c :: g) ++ rest). split_and!; try done.
      apply Forall_cons_1 in Hws as [Hy _]. by intros ->.
Qed.

(** *** [findall] *)

Lemma first_match_some alts s segs :
  first_match alts s = Some segs ->
  exists p, p ∈ alts /\ match_here p s = Some segs.
Proof.
  induction alts as [|p alts IH]; [done |]. simpl.
  destruct (match_here p s) as [r|] eqn:Hr.
  - intros [= <-]. exists p. split; [apply list_elem_of_here | done].
  - intros (q & Hq & Hm)%IH. exists q.
    split; [by apply list_elem_of_further | done].
Qed.

Lemma first_match_complete alts s p :
  p ∈ alts -> is_Some (match_here p s) -> is_Some (first_match alts s).
Proof.
  induction alts as [|q alts IH]; [by intros ?%elem_of_nil |].
  intros Hp Hm. simpl. destruct (match_here q s) eqn:Hq; [done |].
  apply elem_of_cons in Hp as [->|Hp]; [| by apply IH].
  rewrite Hq in Hm. by destruct Hm.
Qed.

(** Every value [findall] returns is the group of a match somewhere in
    the subject. *)
Lemma findall_from_elem alts g fuel : forall s,
  g ∈ findall_from fuel alts s ->
  exists pre rest p segs,
    s = pre ++ rest /\ p ∈ alts /\ match_here p rest = Some segs
    /\ g = group1 segs.
Proof.
  induction fuel as [|fuel IH]; intros s Hg; [by apply elem_of_nil in Hg |].
  simpl in Hg. destruct (first_match alts s) as [segs|] eqn:Hm.
  - apply elem_of_cons in Hg as [->|Hg].
    + apply first_match_some in Hm as (p & Hp & Hm).
      by exists [], s, p, segs.
    + apply IH in Hg as (pre & rest & p & segs' & Hs & Hp & Hm' & ->).
      exists (take (length (concat segs)) s ++ pre), rest, p, segs'.
      split_and!; try done.
      by rewrite <- app_assoc, <- Hs, take_drop.
  - destruct s as [|x s]; [by apply elem_of_nil in Hg |].
    apply IH in Hg as (pre & rest & p & segs' & -> & Hp & Hm' & ->).
    by exists (x :: pre), rest, p, segs'.
Qed.

(** With enough fuel, [findall] returns something exactly when some
    alternative matches somewhere. *)
Lemma findall_from_nonempty alts fuel : forall s,
  (length s < fuel)%nat ->
  findall_from fuel alts s <> []
  <-> exists pre rest, s = pre ++ rest /\ is_Some (first_match alts rest).
Proof.
  induction fuel as [|fuel IH]; intros s Hf; [lia |].
  simpl. destruct (first_match alts s) as [segs|] eqn:Hm.
  - split; [| done]. intros _. exists [], s. by rewrite Hm.
  - destruct s as [|x s].
    + split; [done |]. intros (pre & rest & Hs & Hr).
      symmetry in Hs. apply app_eq_nil in Hs as [-> ->].
      rewrite Hm in Hr. by destruct Hr.
    + rewrite IH by (simpl in Hf; lia). split.
      * intros (pre & rest & -> & Hr). by exists (x :: pre), rest.
      * intros (pre & rest & Hs & Hr). destruct pre as [|y pre].
        -- simpl in Hs. subst rest. rewrite Hm in Hr. by destruct Hr.
        -- injection Hs as -> ->. by exists pre, rest.
Qed.

(** More fuel than [S (length s)] changes nothing, since a match of a
    pattern that starts with a literal is not empty. *)
Lemma findall_enough alts :
  Forall (fun p => exists c p', p = Chr c :: p') alts ->
  forall n m s,
    (length s < n)%nat -> (length s < m)%nat ->
    findall_from n alts s = findall_from m alts s.
Proof.
  intros Halts. induction n as [|n IH]; intros m s Hn Hm; [lia |].
  destruct m as [|m]; [lia |]. simpl.
  destruct (first_match alts s) as [segs|] eqn:Hf.
  - f_equal. apply first_match_some in Hf as (p & Hp & Hf).
    rewrite Forall_forall in Halts.
    destruct (Halts p Hp) as (c & p' & ->).
    apply matcher_sound in Hf as [Hp2 [rest Hs]].
    apply Forall2_cons_inv_l in Hp2 as (seg & segs' & (x & -> & _) & _ & ->).
    assert (length (drop (length (concat ([x] :: segs'))) s) < length s)%nat.
    { apply (f_equal length) in Hs. rewrite length_app in Hs.
      rewrite length_drop. simpl in *. lia. }
    apply IH; lia.
  - destruct s as [|x s]; [done |]. simpl in *. apply IH; lia.
Qed.

Lemma size_list_to_set_le (l : list pystr) :
  (size (list_to_set (C := gset pystr) l) <= length l)%nat.
Proof.
  induction l as [|x l IH]; [by rewrite list_to_set_nil, size_empty |].
  rewrite list_to_set_cons, size_union_alt, size_singleton. simpl.
  assert (Hsub : list_to_set l ∖ {[x]} ⊆ list_to_set (C := gset pystr) l)
    by (intros y Hy; by apply elem_of_difference in Hy as [? _]).
  apply subseteq_size in Hsub. lia.
Qed.

Lemma findall_reported (words : list string) s g :
  g ∈ findall (map (fun w => word w ++ declaration) words) s ->
  exists w, w ∈ words /\ reported w s g.
Proof.
  unfold findall. intros H.
  apply findall_from_elem in H as (pre & rest & p & segs & -> & Hp & Hm & ->).
  apply list_elem_of_fmap in Hp as (w & -> & Hw).
  apply declaration_match in Hm
    as (kw & mid & ws & post & Hs & _ & Hkw & Hmid & Hws & Hne & Hg & Hpost).
  exists w. split; [done |].
  exists pre, kw, mid, ws, post. split_and!; try done. by rewrite Hs at 1.
Qed.

Lemma findall_present (words : list string) s :
  findall (map (fun w => word w ++ declaration) words) s <> []
  <-> exists pre rest w, s = pre ++ rest /\ w ∈ words /\ declares w rest.
Proof.
  unfold findall. rewrite findall_from_nonempty by lia. split.
  - intros (pre & rest & -> & [segs Hm]).
    apply first_match_some in Hm as (p & Hp & Hm).
    apply list_elem_of_fmap in Hp as (w & -> & Hw).
    exists pre, rest, w. split_and!; try done.
    apply declares_match. by eexists.
  - intros (pre & rest & w & -> & Hw & Hd). exists pre, rest.
    split; [done |]. apply declares_match in Hd.
    eapply first_match_complete; [| exact Hd].
    apply list_elem_of_fmap. by exists w.
Qed.

Lemma limited_spec n (matches : list pystr) :
  (is_Some (limited n matches) <-> matches <> [])
  /\ forall cs,
       limited n matches = Some cs ->
       (size cs <= n)%nat /\ (forall g, g ∈ cs -> g ∈ matches)
       /\ ((0 < n)%nat -> cs <> ∅).
Proof.
  split.
  - destruct matches; simpl; split; try done; by intros [? ?].
  - intros cs H. destruct matches as [|m matches]; [done |].
    injection H as <-. split_and!.
    + etrans; [apply size_list_to_set_le |]. apply firstn_le_length.
    + intros g Hg%elem_of_list_to_set. apply elem_of_take in Hg as (i & Hi & _).
      by eapply list_elem_of_lookup_2.
    + intros Hn. destruct n as [|n]; [lia |]. simpl.
      intros H. assert (m ∈ (∅ : gset pystr)) as Hm; [| by apply elem_of_empty in Hm].
      rewrite <- H. apply elem_of_union_l. by apply elem_of_singleton.
Qed.

(** X18. Whatever it is given, [_extract_style_config] returns the
    dimensions [1280x720] and the aspect ratio [16:9]; [colors], when
    present, holds between one and ten values and [fonts] between one
    and five; the framework is [Tailwind CSS] exactly when the text in
    lower case contains [tailwind], and [Bootstrap] exactly when it
    contains [bootstrap] and not [tailwind]; an argument that is not a
    [str] gives the basic configuration, without [colors] and
    [fonts]. *)
Theorem style_config_bounds (html_content : pyobj) :
  let config := _extract_style_config html_content in
  dimensions config = lit "1280x720" /\ aspect_ratio config = lit "16:9"
  /\ (forall cs, colors config = Some cs ->
                 cs <> ∅ /\ (size cs <= 10)%nat)
  /\ (forall fs, fonts config = Some fs -> fs <> ∅ /\ (size fs <= 5)%nat)
  /\ (framework config = lit "Tailwind CSS"
      <-> exists s, html_content = PyStr s
                    /\ occurs (lit "tailwind") (lower s))
  /\ (framework config = lit "Bootstrap"
      <-> exists s, html_content = PyStr s
                    /\ occurs (lit "bootstrap") (lower s)
                    /\ ~ occurs (lit "tailwind") (lower s))
  /\ ((forall s, html_content <> PyStr s) -> config = basic_config).
Proof.
  intros config. subst config.
  assert (D1 : lit "Bootstrap" <> lit "Tailwind CSS")
    by (intros H; vm_compute in H; discriminate H).
  assert (D2 : lit "HTML + CSS" <> lit "Tailwind CSS")
    by (intros H; vm_compute in H; discriminate H).
  assert (D3 : lit "HTML + CSS" <> lit "Bootstrap")
    by (intros H; vm_compute in H; discriminate H).
  destruct html_content as [|s|n]; cbn [_extract_style_config];
    [split_and!; try done;
     [split; [by intros H; destruct (D2 H) | by intros (? & [=] & _)]
     | split; [by intros H; destruct (D3 H) | by intros (? & [=] & _)]]
    | | split_and!; try done;
     [split; [by intros H; destruct (D2 H) | by intros (? & [=] & _)]
     | split; [by intros H; destruct (D3 H) | by intros (? & [=] & _)]]].
  cbn [dimensions aspect_ratio colors fonts framework].
  split_and!; try done.
  - intros cs H. destruct (proj2 (limited_spec 10 _) cs H) as (? & _ & Hne).
    split; [apply Hne; lia | done].
  - intros fs H. destruct (proj2 (limited_spec 5 _) fs H) as (? & _ & Hne).
    split; [apply Hne; lia | done].
  - destruct (contains (lower s) (lit "tailwind")) eqn:Ht.
    + split; [| done]. intros _. exists s. split; [done |].
      by apply TextFacts.contains_occurs.
    + apply not_true_iff_false in Ht.
      rewrite TextFacts.contains_occurs in Ht.
      split; [| by intros (s' & [= <-] & Ho)].
      destruct (contains (lower s) (lit "bootstrap")); intros H;
        [by destruct (D1 H) | by destruct (D2 H)].
  - destruct (contains (lower s) (lit "tailwind")) eqn:Ht.
    + apply TextFacts.contains_occurs in Ht.
      split; [by intros H; destruct (D1 (eq_sym H)) |].
      by intros (s' & [= <-] & _ & Hn).
    + apply not_true_iff_false in Ht.
      rewrite TextFacts.contains_occurs in Ht.
      destruct (contains (lower s) (lit "bootstrap")) eqn:Hb.
      * split; [| done]. intros _. exists s. split_and!; try done.
        by apply TextFacts.contains_occurs.
      * apply not_true_iff_false in Hb.
        rewrite TextFacts.contains_occurs in Hb.
        split; [by intros H; destruct (D3 H) |].
        by intros (s' & [= <-] & Ho & _).
  - intros H. by destruct (H s).
Qed.

(** X19. Every value [_extract_style_config] reports under [colors]
    follows, in the text, the word [background] or [color] (in any
    letter case), then text without a colon, a colon and white space; it
    is not empty, holds no semicolon, and runs up to the next semicolon
    or to the end of the text, across braces and line ends. The values
    under [fonts] are the same for the word [font-family]. *)
Theorem reported_values (html_content : pystr) :
  let config := _extract_style_config (PyStr html_content) in
  (forall cs g,
      colors config = Some cs -> g ∈ cs ->
      reported "background" html_content g
      \/ reported "color" html_content g)
  /\ (forall fs g,
        fonts config = Some fs -> g ∈ fs ->
        reported "font-family" html_content g).
Proof.
  intros config. subst config. cbn [_extract_style_config colors fonts].
  split.
  - intros cs g Hcs Hg.
    destruct (proj2 (limited_spec 10 _) cs Hcs) as (_ & Hin & _).
    apply Hin in Hg.
    apply (findall_reported ["background"; "color"]%string) in Hg
      as (w & Hw & Hr).
    apply elem_of_cons in Hw as [->|Hw]; [by left |].
    apply list_elem_of_singleton in Hw as ->. by right.
  - intros fs g Hfs Hg.
    destruct (proj2 (limited_spec 5 _) fs Hfs) as (_ & Hin & _).
    apply Hin in Hg.
    apply (findall_reported ["font-family"]%string) in Hg as (w & Hw & Hr).
    by apply list_elem_of_singleton in Hw as ->.
Qed.

Lemma reported_values_witness :
  (reported "background" sheet (lit "#fff")
   \/ reported "color" sheet (lit "#fff"))
  /\ reported "font-family" sheet
       (lit "Inter, sans-serif }
h1 { color: #333").
Proof.
  assert (Ec : findall color_pattern sheet
               = [lit "#fff"; lit "#333"; lit "#333"]) by calc.
  assert (Ef : findall font_pattern sheet
               = [lit "Inter, sans-serif }
h1 { color: #333"]) by calc.
  pose proof (reported_values sheet) as [Hc Hf]. split.
  - eapply Hc.
    + cbn [_extract_style_config colors]. rewrite Ec. reflexivity.
    + apply elem_of_list_to_set. apply list_elem_of_here.
  - eapply Hf.
    + cbn [_extract_style_config fonts]. rewrite Ef. reflexivity.
    + apply elem_of_list_to_set. apply list_elem_of_here.
Defined.

(** X20. [_extract_style_config] reports [colors] exactly when
    somewhere in the text the word [background] or [color] (in any
    letter case) is followed, with no colon in between, by a colon and
    then by a character other than a semicolon; it reports [fonts]
    exactly when the same holds for the word [font-family]. *)
Theorem style_keys_present (html_content : pystr) :
  let config := _extract_style_config (PyStr html_content) in
  (is_Some (colors config)
   <-> exists pre rest,
         html_content = pre ++ rest
         /\ (declares "background" rest \/ declares "color" rest))
  /\ (is_Some (fonts config)
      <-> exists pre rest,
            html_content = pre ++ rest /\ declares "font-family" rest).
Proof.
  intros config. subst config. cbn [_extract_style_config colors fonts].
  rewrite !(proj1 (limited_spec _ _)). split.
  - rewrite (findall_present ["background"; "color"]%string). split.
    + intros (pre & rest & w & -> & Hw & Hd). exists pre, rest.
      split; [done |].
      apply elem_of_cons in Hw as [->|Hw]; [by left |].
      apply list_elem_of_singleton in Hw as ->. by right.
    + intros (pre & rest & -> & [Hd|Hd]).
      * exists pre, rest, "background"%string.
        split_and!; [done | apply list_elem_of_here | done].
      * exists pre, rest, "color"%string.
        split_and!; [done | | done].
        apply list_elem_of_further, list_elem_of_here.
  - rewrite (findall_present ["font-family"]%string). split.
    + intros (pre & rest & w & -> & Hw & Hd). exists pre, rest.
      by apply list_elem_of_singleton in Hw as ->.
    + intros (pre & rest & -> & Hd). exists pre, rest, "font-family"%string.
      split_and!; [done | apply list_elem_of_here | done].
Qed.

(** The steps [findall] is given are enough for the two patterns. *)
Lemma findall_enough_fuel (s : pystr) (n : nat) :
  (length s < n)%nat ->
  findall_from n color_pattern s = findall color_pattern s
  /\ findall_from n font_pattern s = findall font_pattern s.
Proof.
  intros Hn. unfold findall.
  split; apply findall_enough; try lia;
    repeat (apply Forall_cons_2; [by eexists _, _ |]); apply Forall_nil_2.
Qed.

End StyleFacts.
